(** * Interviewer duration and performance summary (summary.py)

    A shallow embedding of the data pipeline of [summary.py]: timestamp
    parsing and duration, discovery of the interviewer columns, DK / RF / NA
    classification of the question cells, the wide-to-long reshape, the
    per-interviewer aggregation, its sort and formatting, the sheet that is
    exported and the closing lines.

    Modelling conventions.
    - A Python [str] is a [string]; each [ascii] stands for the code point of
      the same number (0..255).
    - A cell of the loaded table is missing ([NaN]), a [str] or a whole
      number; numbers with a fractional part are not modelled.  A column has
      the dtype pandas infers for its values: [object] when it holds a
      [str] (or an integer outside int64), otherwise [float64] when a cell is
      missing and [int64] when none is.  In a [float64] column [Int z] stands
      for the float nearest to [z].
    - A timestamp is a number of nanoseconds since the epoch, as in a
      [datetime64[ns, UTC]] column of pandas 2; differences are taken in
      int64 and [total_seconds] and the division by sixty in binary64
      (module [F64]: round to nearest, ties to even, on rationals; exponent
      range not modelled).  Means are exact rationals.
    - The parsers of pandas ([to_datetime], [to_numeric]), the formatting of
      a rounded mean and the one behaviour of [replace] that differs between
      versions of pandas are library code: the pipeline is parametric in
      them (class [Pandas]), and [iso_pandas] is an instance for the ISO-8601
      [Z] form and decimal integers, with [replace] as in pandas 2.2, used in
      the concrete scenarios.
    - The labels of the loaded table are assumed distinct (pandas renames
      duplicates on loading) and different from the labels the script adds
      to a frame ([DK_count], [IntID], [questions_answered], ...); derived
      columns are record fields. *)

From Stdlib Require Import List String Ascii Bool Arith ZArith QArith Qround Lia.
From Stdlib Require Import Qabs Qpower Qreduction Lqa.
From Stdlib Require Import DecimalString Permutation Sorted.
From Stdlib Require NArith Decimal DecimalFacts DecimalPos.
Import ListNotations.
Local Open Scope string_scope.
Local Open Scope Z_scope.

(** * Python strings *)

Module PyStr.

(** [str.isspace] on one code point below 256 (also the class [\s] of
    [re] on [str] patterns). *)
Definition isspace (c : ascii) : bool :=
  let n := N_of_ascii c in
  ((9 <=? n) && (n <=? 13) || (28 <=? n) && (n <=? 32)
   || (n =? 133) || (n =? 160))%N.

Fixpoint lstrip (s : string) : string :=
  match s with
  | EmptyString => EmptyString
  | String c s' => if isspace c then lstrip s' else s
  end.

Fixpoint rstrip (s : string) : string :=
  match s with
  | EmptyString => EmptyString
  | String c s' =>
      match rstrip s' with
      | EmptyString => if isspace c then EmptyString else String c EmptyString
      | r => String c r
      end
  end.

(** [s.strip()] *)
Definition strip (s : string) : string := rstrip (lstrip s).

(** [s.startswith(p)] *)
Definition startswith (s p : string) : bool := String.prefix p s.

(** [s.endswith(suf)]: some tail of [s] is [suf]. *)
Fixpoint endswith (s suf : string) : bool :=
  String.eqb s suf ||
  match s with
  | EmptyString => false
  | String _ s' => endswith s' suf
  end.

(** The match of [^\s*$]: every code point is white space. *)
Fixpoint all_space (s : string) : bool :=
  match s with
  | EmptyString => true
  | String c s' => isspace c && all_space s'
  end.

(** [s.replace(old, new)], for a non-empty [old]: occurrences are replaced
    from the left and do not overlap; [skip] counts the code points of the
    occurrence just replaced that are still to be passed. *)
Fixpoint replace_from (old new : string) (skip : nat) (s : string) : string :=
  match s with
  | EmptyString => EmptyString
  | String c s' =>
      match skip with
      | S k => replace_from old new k s'
      | O =>
          if String.prefix old s
          then new ++ replace_from old new (Nat.pred (String.length old)) s'
          else String c (replace_from old new O s')
      end
  end.

Definition replace (old new s : string) : string := replace_from old new O s.

(** [str(z)] for an [int]. *)
Definition of_Z (z : Z) : string := NilZero.string_of_int (Z.to_int z).

End PyStr.

(** * Numbers *)

(** Conversion of a float to [int]: truncation toward zero. *)
Definition Qtrunc (q : Q) : Z :=
  if Qle_bool 0 q then Qfloor q else Qceiling q.

(** [round(0)] of numpy: to the nearest integer, ties to the even one. *)
Definition round_half_even (q : Q) : Z :=
  let f := Qfloor q in
  match Qcompare (q - inject_Z f) (1 # 2) with
  | Lt => f
  | Gt => f + 1
  | Eq => if Z.even f then f else f + 1
  end.

(** Binary64 floats as the rationals they denote: every operation is the
    exact one followed by rounding to 53 significant bits, to nearest with
    ties to even. *)
Module F64.

Definition pow2 (e : Z) : Q := Qpower 2 e.

(** The exponent of a positive [x]: [2 ^ ilog2 x <= x < 2 ^ (ilog2 x + 1)]. *)
Definition ilog2 (x : Q) : Z :=
  let k := Z.log2 (Qnum x) - Z.log2 (Z.pos (Qden x)) in
  if Qle_bool (pow2 k) x then k else k - 1.

Definition round_pos (x : Q) : Q :=
  let e := ilog2 x - 52 in
  inject_Z (round_half_even (x / pow2 e)) * pow2 e.

Definition round (x : Q) : Q :=
  let y := Qred x in
  match Qnum y with
  | Z0 => 0
  | Z.pos _ => Qred (round_pos y)
  | Z.neg _ => Qred (- round_pos (- y))
  end.

(** Conversion of an integer to a float. *)
Definition of_Z (z : Z) : Q := round (inject_Z z).

(** The same as a whole number (the float nearest to an integer is
    whole). *)
Definition nearest (z : Z) : Z := Qfloor (of_Z z).

(** Division of two floats. *)
Definition div (a b : Q) : Q := round (a / b).

End F64.

(** [str(x)] of a float [x] whose value is the whole number [v]. *)
Module PyFloat.

(** The decimal with the fewest significant digits, [n] or more, that reads
    back as the float [v]; [k] is the number of digits of [v]. *)
Fixpoint shortest (fuel : nat) (n k v : Z) : Z :=
  match fuel with
  | O => v
  | S fuel' =>
      let p := 10 ^ (k - n) in
      let lo := v / p * p in
      let hi := lo + p in
      match F64.nearest lo =? v, F64.nearest hi =? v with
      | true, true => if v - lo <=? hi - v then lo else hi
      | true, false => lo
      | false, true => hi
      | false, false => shortest fuel' (n + 1) k v
      end
  end.

Fixpoint drop_zeros (s : string) : string :=
  match s with
  | EmptyString => EmptyString
  | String c s' =>
      match drop_zeros s' with
      | EmptyString =>
          if Ascii.eqb c "0" then EmptyString else String c EmptyString
      | r => String c r
      end
  end.

(** The form [d.ddde+XX] of a positive [v]. *)
Definition scientific (v : Z) : string :=
  let k := Z.of_nat (String.length (PyStr.of_Z v)) in
  let ds := PyStr.of_Z (shortest 17 1 k v) in
  let e := Z.of_nat (String.length ds) - 1 in
  match ds with
  | EmptyString => EmptyString
  | String d rest =>
      String d (match drop_zeros rest with
                | EmptyString => EmptyString
                | r => "." ++ r
                end)
      ++ "e+" ++ (if e <? 10 then "0" ++ PyStr.of_Z e else PyStr.of_Z e)
  end.

(** Below [10 ^ 16] the digits and [.0], from there on the exponent form. *)
Definition str (v : Z) : string :=
  if Z.abs v <? 10000000000000000 then PyStr.of_Z v ++ ".0"
  else if v <? 0 then "-" ++ scientific (- v)
  else scientific v.

End PyFloat.

(** * Cells *)

Inductive cell : Type :=
| NaN
| Str (s : string)
| Int (z : Z).

Definition cell_eqb (a b : cell) : bool :=
  match a, b with
  | NaN, NaN => true
  | Str s, Str t => String.eqb s t
  | Int x, Int y => Z.eqb x y
  | _, _ => false
  end.

(** [isna] and [notna] on the cells of a frame. *)
Definition isna (c : cell) : bool :=
  match c with NaN => true | _ => false end.

Definition notna (c : cell) : bool := negb (isna c).

(** * Column dtypes *)

Inductive dtype : Type :=
| int64
| float64
| object.

Definition dtype_eqb (a b : dtype) : bool :=
  match a, b with
  | int64, int64 | float64, float64 | object, object => true
  | _, _ => false
  end.

Definition in_int64 (z : Z) : bool :=
  (- 9223372036854775808 <=? z) && (z <? 9223372036854775808).

(** The dtype pandas infers for a column of these values. *)
Definition infer_dtype (column : list cell) : dtype :=
  match column with
  | [] => object
  | _ =>
      if existsb (fun c => match c with
                           | Str _ => true
                           | Int z => negb (in_int64 z)
                           | NaN => false
                           end) column
      then object
      else if existsb isna column then float64
      else int64
  end.

(** The dtype in which columns of these dtypes are put side by side
    ([DataFrame.values], which [apply(axis=1)] iterates over). *)
Definition common_dtype (kinds : list dtype) : dtype :=
  if existsb (dtype_eqb object) kinds then object
  else if existsb (dtype_eqb float64) kinds then float64
  else int64.

(** * Values handed to a test *)

(** What iterating over a row of [df[question_cols]] yields. *)
Module Py.
Inductive object : Type :=
| nan
| str (s : string)
| int (z : Z)
| float (v : Z).
End Py.

(** The element, under a column of dtype [kind], of a row held in the
    dtype [common]: an integer arrives as a float when its column or the
    whole row is [float64]. *)
Definition handed (common kind : dtype) (c : cell) : Py.object :=
  match c with
  | NaN => Py.nan
  | Str s => Py.str s
  | Int z =>
      match common, kind with
      | float64, _ => Py.float (F64.nearest z)
      | _, float64 => Py.float (F64.nearest z)
      | _, _ => Py.int z
      end
  end.

(** [pd.isna(val)] *)
Definition pd_isna (val : Py.object) : bool :=
  match val with Py.nan => true | _ => false end.

(** [str(val)] *)
Definition py_str (val : Py.object) : string :=
  match val with
  | Py.nan => "nan"
  | Py.str s => s
  | Py.int z => PyStr.of_Z z
  | Py.float v => PyFloat.str v
  end.

(** * Response classifier (lines 76-109) *)

(** One cell under [replace(r"^\s*$", np.nan, regex=True)]: only [str]
    cells are matched against the pattern. *)
Definition blank_to_nan (c : cell) : cell :=
  match c with
  | Str s => if PyStr.all_space s then NaN else c
  | _ => c
  end.

Definition is_dk (val : Py.object) : bool :=
  if pd_isna val then false else PyStr.endswith (PyStr.strip (py_str val)) "97".

Definition is_rf (val : Py.object) : bool :=
  if pd_isna val then false else PyStr.endswith (PyStr.strip (py_str val)) "99".

Definition is_na (val : Py.object) : bool :=
  if pd_isna val then false else PyStr.endswith (PyStr.strip (py_str val)) "98".

(** [sum(f(v) for v in row)] *)
Fixpoint count_cells {A : Type} (f : A -> bool) (row : list A) : Z :=
  match row with
  | [] => 0
  | v :: row' => (if f v then 1 else 0) + count_cells f row'
  end.

(** * Library interface *)

(** What the script takes from pandas and numpy and that is not modelled
    here: [pd.to_datetime(..., errors="coerce", utc=True)] on one value
    ([None] is [NaT]), [pd.to_numeric(..., errors="coerce")] on one value
    ([None] is [NaN]), [str(round(x, 2))] of a float, and whether
    [DataFrame.replace] infers anew the dtype of the [object] columns it
    has gone through (pandas 2 does, with a deprecation warning; pandas 3
    does not). *)
Class Pandas : Type := {
  to_datetime : cell -> option Z;
  to_numeric : cell -> option Q;
  round2_str : Q -> string;
  replace_downcasts : bool
}.

(** * Exceptions *)

Inductive error : Type :=
| KeyError (label : string)
| ValueError (msg : string)
| OverflowError (msg : string)
| AttributeError (msg : string).

Inductive result (A : Type) : Type :=
| Ok (a : A)
| Raise (e : error).

Arguments Ok {A} a.
Arguments Raise {A} e.

Definition bind {A B : Type} (m : result A) (k : A -> result B) : result B :=
  match m with
  | Ok a => k a
  | Raise e => Raise e
  end.

Notation "x <- m ;; k" := (bind m (fun x => k))
  (at level 61, m at next level, right associativity).

(** The results of a list of computations, or the first exception. *)
Fixpoint collect {A : Type} (l : list (result A)) : result (list A) :=
  match l with
  | [] => Ok []
  | m :: l' => a <- m ;; rest <- collect l' ;; Ok (a :: rest)
  end.

(** * Frames *)

(** The loaded table: its column labels and, per row, the cells in the
    order of the labels. *)
Record DataFrame : Type := {
  columns : list string;
  rows : list (list cell)
}.

Fixpoint index_of (c : string) (cols : list string) : option nat :=
  match cols with
  | [] => None
  | c' :: cols' =>
      if String.eqb c c' then Some O else option_map S (index_of c cols')
  end.

(** The cell of [row] under label [c]. *)
Definition loc (cols : list string) (c : string) (row : list cell) : cell :=
  match index_of c cols with
  | Some i => nth i row NaN
  | None => NaN
  end.

Definition has_label (c : string) (cols : list string) : bool :=
  existsb (String.eqb c) cols.

(** [df[c]] raises [KeyError] on a label that is absent. *)
Definition require (cols : list string) (c : string) : result unit :=
  if has_label c cols then Ok tt else Raise (KeyError c).

(** The dtype of column [c] of a table as loaded (lines 15-18). *)
Definition loaded_dtype (cols : list string) (rws : list (list cell))
  (c : string) : dtype :=
  infer_dtype (map (loc cols c) rws).

(** Rows after the time stage (lines 23-32). *)
Module Timed.
Record t : Type := {
  raw : list cell;
  Start_dt : Z;
  End_dt : Z;
  duration_minutes : Z;
  duration_display : string
}.
End Timed.

(** Rows after the classifier (lines 76-109); [answers] are the cells of
    the question columns after the blank replacement. *)
Module Wide.
Record t : Type := {
  timed : Timed.t;
  answers : list cell;
  DK_count : Z;
  RF_count : Z;
  NA_count : Z
}.
End Wide.

(** Rows of the duration check (lines 54-61). *)
Module Check.
Record t : Type := {
  ID : cell;
  ids : list cell;
  names : list cell;
  Start_dt : Z;
  End_dt : Z;
  duration_minutes : Z
}.
End Check.

(** Rows of [long_df] (lines 123-135). *)
Module Long.
Record t : Type := {
  IntID : cell;
  IntName : cell;
  duration_minutes : Z;
  DK_count : Z;
  RF_count : Z;
  NA_count : Z;
  questions : list cell;
  questions_answered : Z
}.
End Long.

(** Rows of [final_df] after [groupby(...).agg(...)] (lines 144-158). *)
Module Agg.
Record t : Type := {
  IntID : cell;
  IntName : cell;
  total_interviews : Z;
  avg_duration_minutes : Q;
  min_duration_minutes : Z;
  max_duration_minutes : Z;
  avg_questions : Q;
  total_DK : Z;
  total_RF : Z;
  total_NA : Z
}.
End Agg.

(** Rows of [final_df] after the formatting (lines 169-181). *)
Module Stats.
Record t : Type := {
  IntID : cell;
  IntName : cell;
  total_interviews : Z;
  avg_duration_minutes : Q;
  min_duration_minutes : Z;
  max_duration_minutes : Z;
  avg_questions : Z;
  total_DK : Z;
  total_RF : Z;
  total_NA : Z;
  avg_duration_display : string;
  min_duration_display : string;
  max_duration_display : string
}.
End Stats.

(** Values written to a sheet or shown in a table. *)
Inductive value : Type :=
| VCell (c : cell)
| VInt (z : Z)
| VFloat (q : Q)
| VText (s : string).

Record Sheet : Type := {
  sheet_name : string;
  header : list string;
  body : list (list value)
}.

(** What the script shows and exports; the last two fields are the closing
    lines (lines 215-221). *)
Record Report : Type := {
  duration_check : list Check.t;
  long_df : list Long.t;
  final_df : list Stats.t;
  summary_shown : Sheet;
  workbook : list Sheet;
  total_shown : Z;
  overall_average_shown : string
}.

(** * Generic list helpers *)

Fixpoint filter_map {A B : Type} (f : A -> option B) (l : list A) : list B :=
  match l with
  | [] => []
  | x :: l' =>
      match f x with
      | Some y => y :: filter_map f l'
      | None => filter_map f l'
      end
  end.

Fixpoint insert_by {A : Type} (leb : A -> A -> bool) (x : A) (l : list A)
  : list A :=
  match l with
  | [] => [x]
  | y :: l' => if leb x y then x :: l else y :: insert_by leb x l'
  end.

(** A stable sort. *)
Definition sort_by {A : Type} (leb : A -> A -> bool) (l : list A) : list A :=
  fold_right (insert_by leb) [] l.

Definition sumZ (l : list Z) : Z := fold_right Z.add 0 l.

(** [mean] of a non-empty integer column, exactly. *)
Definition mean (l : list Z) : Q :=
  Qmake (sumZ l) (Pos.of_nat (List.length l)).

Definition minimum (l : list Z) : Z :=
  match l with
  | [] => 0
  | x :: l' => fold_left Z.min l' x
  end.

Definition maximum (l : list Z) : Z :=
  match l with
  | [] => 0
  | x :: l' => fold_left Z.max l' x
  end.


(** * The pipeline *)

Section Pipeline.

Context {pandas : Pandas}.

(** ** Time conversion and duration (lines 23-32) *)

(** [End_dt - Start_dt] on int64 nanoseconds: a difference that does not
    fit raises. *)
Definition timedelta (start_dt end_dt : Z) : result Z :=
  let td := end_dt - start_dt in
  if (- 9223372036854775808 <? td) && (td <? 9223372036854775808)
  then Ok td
  else Raise (OverflowError "Overflow in int64 addition").

(** [Series.dt.total_seconds()]: the int64 nanoseconds divided, as floats,
    by the nanoseconds of a second. *)
Definition total_seconds (td : Z) : Q :=
  F64.div (F64.of_Z td) 1000000000.

(** [(... .dt.total_seconds() / 60).astype(int)] *)
Definition minutes (td : Z) : Z :=
  Qtrunc (F64.div (total_seconds td) 60).

Definition minutes_between (start_dt end_dt : Z) : result Z :=
  td <- timedelta start_dt end_dt ;; Ok (minutes td).

(** One row through lines 23-32: [None] when [dropna] removes it,
    otherwise the row with its new cells or the exception of the
    subtraction. *)
Definition time_row (cols : list string) (row : list cell)
  : option (result Timed.t) :=
  match to_datetime (loc cols "StartTime_TS" row),
        to_datetime (loc cols "EndTime_TS" row) with
  | Some s, Some e =>
      Some (d <- minutes_between s e ;;
            Ok {| Timed.raw := row;
                  Timed.Start_dt := s;
                  Timed.End_dt := e;
                  Timed.duration_minutes := d;
                  Timed.duration_display := PyStr.of_Z d ++ " min" |})
  | _, _ => None
  end.

Definition time_stage (cols : list string) (rws : list (list cell))
  : result (list Timed.t) :=
  collect (filter_map (time_row cols) rws).

(** ** Interviewer columns (lines 37-47) *)

Definition prefixes : list string := ["F"; "M"; "HH"; "ORGHH"; "C"].

Definition interviewer_name_cols (cols : list string) : list string :=
  filter (fun c => existsb (PyStr.startswith c) prefixes
                   && PyStr.endswith c "IntName_W4") cols.

Definition interviewer_id_cols (cols : list string) : list string :=
  filter (fun c => existsb (PyStr.startswith c) prefixes
                   && PyStr.endswith c "IntID_W4") cols.

(** ** Duration check (lines 54-61) *)

Definition check_row (cols : list string) (r : Timed.t) : Check.t :=
  {| Check.ID := loc cols "ID" (Timed.raw r);
     Check.ids := map (fun c => loc cols c (Timed.raw r))
                      (interviewer_id_cols cols);
     Check.names := map (fun c => loc cols c (Timed.raw r))
                        (interviewer_name_cols cols);
     Check.Start_dt := Timed.Start_dt r;
     Check.End_dt := Timed.End_dt r;
     Check.duration_minutes := Timed.duration_minutes r |}.

(** ** Question columns (lines 66-76) *)

Definition exclude_cols (cols : list string) : list string :=
  ["ID"; "StartTime_TS"; "EndTime_TS"; "Start_dt"; "End_dt";
   "duration_minutes"; "duration_display"]
  ++ interviewer_name_cols cols
  ++ interviewer_id_cols cols.

Definition question_cols (cols : list string) : list string :=
  filter (fun c => negb (has_label c (exclude_cols cols))) cols.


(** ** Classification (lines 76-109) *)

(** The dtype of a question column after line 76, from its dtype before
    and its cells in the retained rows: [replace] goes through the
    [object] columns only. *)
Definition replaced_dtype (before : dtype) (retained : list cell) : dtype :=
  match before with
  | object =>
      if replace_downcasts then infer_dtype (map blank_to_nan retained)
      else object
  | d => d
  end.

(** The dtypes of the question columns after line 76, in the order of
    [question_cols]. *)
Definition question_dtypes (dtype_of : string -> dtype) (cols : list string)
  (df : list Timed.t) : list dtype :=
  map (fun q => replaced_dtype (dtype_of q)
                  (map (fun r => loc cols q (Timed.raw r)) df))
      (question_cols cols).

(** One row through lines 76-109; [kinds] are the dtypes of the question
    columns. *)
Definition classify (cols : list string) (kinds : list dtype) (r : Timed.t)
  : Wide.t :=
  let answers := map (fun c => blank_to_nan (loc cols c (Timed.raw r)))
                     (question_cols cols) in
  let row := map (fun p => handed (common_dtype kinds) (fst p) (snd p))
                 (combine kinds answers) in
  {| Wide.timed := r;
     Wide.answers := answers;
     Wide.DK_count := count_cells is_dk row;
     Wide.RF_count := count_cells is_rf row;
     Wide.NA_count := count_cells is_na row |}.

(** ** Long interviewer table (lines 113-139) *)

(** [next((c for c in interviewer_id_cols if c.startswith(prefix)), None)] *)
Definition find_id_col (id_cols : list string) (prefix : string)
  : option string :=
  find (fun c => PyStr.startswith c prefix) id_cols.

(** Truth value of [id_col]: [None] and the empty string are false. *)
Definition truthy (id_col : option string) : bool :=
  match id_col with
  | Some EmptyString => false
  | Some _ => true
  | None => false
  end.

Definition temp_row (cols : list string) (id_col name_col : string)
  (r : Wide.t) : Long.t :=
  {| Long.IntID := loc cols id_col (Timed.raw (Wide.timed r));
     Long.IntName := loc cols name_col (Timed.raw (Wide.timed r));
     Long.duration_minutes := Timed.duration_minutes (Wide.timed r);
     Long.DK_count := Wide.DK_count r;
     Long.RF_count := Wide.RF_count r;
     Long.NA_count := Wide.NA_count r;
     Long.questions := Wide.answers r;
     Long.questions_answered := count_cells notna (Wide.answers r) |}.

(** The body of the loop for one [name_col]: the frames it appends. *)
Definition role_frames (cols : list string) (df : list Wide.t)
  (name_col : string) : list (list Long.t) :=
  let prefix := PyStr.replace "IntName_W4" "" name_col in
  let id_col := find_id_col (interviewer_id_cols cols) prefix in
  if truthy id_col then
    match id_col with
    | Some c => [map (temp_row cols c name_col) df]
    | None => []
    end
  else [].

Definition all_interviewer_data (cols : list string) (df : list Wide.t)
  : list (list Long.t) :=
  flat_map (role_frames cols df) (interviewer_name_cols cols).

(** [pd.concat(objs, ignore_index=True)] raises on an empty list. *)
Definition pd_concat {A : Type} (objs : list (list A)) : result (list A) :=
  match objs with
  | [] => Raise (ValueError "No objects to concatenate")
  | _ => Ok (List.concat objs)
  end.

(** ** Aggregation (lines 144-158) *)

(** Distinct values in order of first appearance. *)
Fixpoint unique (l : list cell) : list cell :=
  match l with
  | [] => []
  | x :: l' => x :: filter (fun y => negb (cell_eqb y x)) (unique l')
  end.

(** Order of the group keys ([sort=True]): numbers in increasing order,
    then strings in the order of their code points. *)
Definition key_leb (a b : cell) : bool :=
  match a, b with
  | Int x, Int y => x <=? y
  | Int _, _ => true
  | Str _, Int _ => false
  | Str s, Str t => String.leb s t
  | Str _, NaN => true
  | NaN, NaN => true
  | NaN, _ => false
  end.

(** The group keys: missing keys are dropped ([dropna=True]). *)
Definition group_keys (long : list Long.t) : list cell :=
  sort_by key_leb (unique (filter notna (map Long.IntID long))).

Definition group_rows (k : cell) (long : list Long.t) : list Long.t :=
  filter (fun r => cell_eqb (Long.IntID r) k) long.

(** The aggregation ["first"]: the first entry that is not missing. *)
Definition first (l : list cell) : cell :=
  match find notna l with
  | Some c => c
  | None => NaN
  end.

Definition agg (k : cell) (g : list Long.t) : Agg.t :=
  {| Agg.IntID := k;
     Agg.IntName := first (map Long.IntName g);
     Agg.total_interviews := Z.of_nat (List.length g);
     Agg.avg_duration_minutes := mean (map Long.duration_minutes g);
     Agg.min_duration_minutes := minimum (map Long.duration_minutes g);
     Agg.max_duration_minutes := maximum (map Long.duration_minutes g);
     Agg.avg_questions := mean (map Long.questions_answered g);
     Agg.total_DK := sumZ (map Long.DK_count g);
     Agg.total_RF := sumZ (map Long.RF_count g);
     Agg.total_NA := sumZ (map Long.NA_count g) |}.

Definition groupby_agg (long : list Long.t) : list Agg.t :=
  map (fun k => agg k (group_rows k long)) (group_keys long).

(** ** Sort by interviewer id (lines 163-164) *)

Definition IntID_sort (r : Agg.t) : option Q := to_numeric (Agg.IntID r).

Definition keyed (df : list Agg.t) : list (Q * Agg.t) :=
  filter_map (fun r => option_map (fun q => (q, r)) (IntID_sort r)) df.

Definition unkeyed (df : list Agg.t) : list Agg.t :=
  filter (fun r => match IntID_sort r with None => true | Some _ => false end)
         df.

(** [sort_values("IntID_sort")]: the rows with a key in increasing order of
    the key, then the rows without one in their previous order.  Rows with
    equal keys keep their previous order here; numpy's default sort promises
    no order among them, and no statement below depends on it. *)
Definition sort_values (df : list Agg.t) : list Agg.t :=
  map snd (sort_by (fun a b => Qle_bool (fst a) (fst b)) (keyed df))
  ++ unkeyed df.

(** ** Formatting (lines 169-181) *)

Definition format (r : Agg.t) : Stats.t :=
  {| Stats.IntID := Agg.IntID r;
     Stats.IntName := Agg.IntName r;
     Stats.total_interviews := Agg.total_interviews r;
     Stats.avg_duration_minutes := Agg.avg_duration_minutes r;
     Stats.min_duration_minutes := Agg.min_duration_minutes r;
     Stats.max_duration_minutes := Agg.max_duration_minutes r;
     Stats.avg_questions := round_half_even (Agg.avg_questions r);
     Stats.total_DK := Agg.total_DK r;
     Stats.total_RF := Agg.total_RF r;
     Stats.total_NA := Agg.total_NA r;
     Stats.avg_duration_display :=
       round2_str (Agg.avg_duration_minutes r) ++ " min";
     Stats.min_duration_display :=
       PyStr.of_Z (Agg.min_duration_minutes r) ++ " min";
     Stats.max_duration_display :=
       PyStr.of_Z (Agg.max_duration_minutes r) ++ " min" |}.

Definition summarize (long : list Long.t) : list Stats.t :=
  map format (sort_values (groupby_agg long)).

(** ** Labels of [final_df] *)

(** [df[label] = ...]: a new label is appended, an old one keeps its
    place. *)
Definition assign (label : string) (cols : list string) : list string :=
  if has_label label cols then cols else cols ++ [label].

Definition drop (label : string) (cols : list string) : list string :=
  filter (fun c => negb (String.eqb c label)) cols.

(** After [groupby("IntID", as_index=False).agg(...)]. *)
Definition agg_columns : list string :=
  ["IntID"; "IntName"; "total_interviews"; "avg_duration_minutes";
   "min_duration_minutes"; "max_duration_minutes"; "avg_questions";
   "total_DK"; "total_RF"; "total_NA"].

(** After lines 163-181. *)
Definition final_columns : list string :=
  assign "total_NA"
    (assign "total_RF"
      (assign "total_DK"
        (assign "avg_questions"
          (assign "max_duration_display"
            (assign "min_duration_display"
              (assign "avg_duration_display"
                (drop "IntID_sort" (assign "IntID_sort" agg_columns)))))))).

(** The labels selected for the table on the screen (lines 188-194). *)
Definition shown_columns : list string :=
  ["IntID"; "IntName"; "total_interviews";
   "min_duration_display"; "avg_duration_display"; "max_duration_display";
   "avg_questions"; "total_DK"; "total_RF"; "total_NA"].

Definition field (r : Stats.t) (label : string) : value :=
  if String.eqb label "IntID" then VCell (Stats.IntID r)
  else if String.eqb label "IntName" then VCell (Stats.IntName r)
  else if String.eqb label "total_interviews"
       then VInt (Stats.total_interviews r)
  else if String.eqb label "avg_duration_minutes"
       then VFloat (Stats.avg_duration_minutes r)
  else if String.eqb label "min_duration_minutes"
       then VInt (Stats.min_duration_minutes r)
  else if String.eqb label "max_duration_minutes"
       then VInt (Stats.max_duration_minutes r)
  else if String.eqb label "avg_questions" then VInt (Stats.avg_questions r)
  else if String.eqb label "total_DK" then VInt (Stats.total_DK r)
  else if String.eqb label "total_RF" then VInt (Stats.total_RF r)
  else if String.eqb label "total_NA" then VInt (Stats.total_NA r)
  else if String.eqb label "avg_duration_display"
       then VText (Stats.avg_duration_display r)
  else if String.eqb label "min_duration_display"
       then VText (Stats.min_duration_display r)
  else if String.eqb label "max_duration_display"
       then VText (Stats.max_duration_display r)
  else VCell NaN.

(** [df[labels]] as a table. *)
Definition select (name : string) (labels : list string) (df : list Stats.t)
  : Sheet :=
  {| sheet_name := name;
     header := labels;
     body := map (fun r => map (field r) labels) df |}.

(** [final_df.to_excel(writer, index=False, sheet_name=...)] in a fresh
    writer (lines 203-205): one sheet with every column of the frame. *)
Definition to_excel (name : string) (df : list Stats.t) : list Sheet :=
  [select name final_columns df].


(** ** Closing lines (lines 215-221) *)

(** [df["duration_minutes"].mean().round(2)] in the f-string: the mean of
    an empty column is a Python float, which has no [round]. *)
Definition overall_average (durations : list Z) : result string :=
  match durations with
  | [] => Raise (AttributeError "'float' object has no attribute 'round'")
  | _ => Ok (round2_str (mean durations))
  end.

(** ** The script, from the loaded table on *)

(** Lines 23-221 on a frame with the labels [cols], the column dtypes
    [dtype_of] and the rows [rws]. *)
Definition script (dtype_of : string -> dtype) (cols : list string)
  (rws : list (list cell)) : result Report :=
  _ <- require cols "StartTime_TS" ;;
  _ <- require cols "EndTime_TS" ;;
  timed <- time_stage cols rws ;;
  _ <- require cols "ID" ;;
  let check := map (check_row cols) timed in
  let kinds := question_dtypes dtype_of cols timed in
  let wide := map (classify cols kinds) timed in
  long <- pd_concat (all_interviewer_data cols wide) ;;
  let final := summarize long in
  average <- overall_average (map Timed.duration_minutes timed) ;;
  Ok {| duration_check := check;
        long_df := long;
        final_df := final;
        summary_shown := select "" shown_columns final;
        workbook := to_excel "Interviewer Stats" final;
        total_shown := Z.of_nat (List.length timed);
        overall_average_shown := average |}.

Definition run (df : DataFrame) : result Report :=
  script (loaded_dtype (columns df) (rows df)) (columns df) (rows df).

End Pipeline.

(** * An instance of the library interface *)

Module Iso.

Definition digit (c : ascii) : option Z :=
  let n := Z.of_N (N_of_ascii c) in
  if (48 <=? n) && (n <=? 57) then Some (n - 48) else None.

Fixpoint digits_from (acc : Z) (s : string) : option Z :=
  match s with
  | EmptyString => Some acc
  | String c s' =>
      match digit c with
      | Some d => digits_from (10 * acc + d) s'
      | None => None
      end
  end.

(** A non-empty run of decimal digits. *)
Definition digits (s : string) : option Z :=
  match s with
  | EmptyString => None
  | _ => digits_from 0 s
  end.

(** A decimal integer with an optional sign, white space around it
    allowed. *)
Definition integer (s : string) : option Z :=
  match PyStr.strip s with
  | String "-" s' => option_map Z.opp (digits s')
  | String "+" s' => digits s'
  | s' => digits s'
  end.

Definition is_leap (y : Z) : bool :=
  ((y mod 4 =? 0) && negb (y mod 100 =? 0)) || (y mod 400 =? 0).

Definition days_in_month (y m : Z) : Z :=
  if m =? 2 then (if is_leap y then 29 else 28)
  else if (m =? 4) || (m =? 6) || (m =? 9) || (m =? 11) then 30
  else 31.

(** Days from 1970-01-01 to the given date of the proleptic Gregorian
    calendar. *)
Definition days_from_civil (y m d : Z) : Z :=
  let y' := if m <=? 2 then y - 1 else y in
  let era := y' / 400 in
  let yoe := y' - era * 400 in
  let doy := (153 * (if 2 <? m then m - 3 else m + 9) + 2) / 5 + d - 1 in
  let doe := yoe * 365 + yoe / 4 - yoe / 100 + doy in
  era * 146097 + doe - 719468.

(** The fraction of a second, [.d] to [.ddddddddd] or nothing, in
    nanoseconds. *)
Definition fraction (s : string) : option Z :=
  match s with
  | EmptyString => Some 0
  | String "." ds =>
      let n := Z.of_nat (String.length ds) in
      if n <=? 9 then option_map (fun f => f * 10 ^ (9 - n)) (digits ds)
      else None
  | _ => None
  end.

(** [YYYY-MM-DDTHH:MM:SS[.fraction]Z] to nanoseconds since the epoch;
    a time outside the range of an int64 of nanoseconds does not parse. *)
Definition timestamp (s : string) : option Z :=
  let n := String.length s in
  if (n <? 20)%nat then None
  else if negb (String.eqb (substring 4 1 s) "-"
                && String.eqb (substring 7 1 s) "-"
                && String.eqb (substring 10 1 s) "T"
                && String.eqb (substring 13 1 s) ":"
                && String.eqb (substring 16 1 s) ":"
                && String.eqb (substring (n - 1) 1 s) "Z") then None
  else
    match digits (substring 0 4 s), digits (substring 5 2 s),
          digits (substring 8 2 s), digits (substring 11 2 s),
          digits (substring 14 2 s), digits (substring 17 2 s),
          fraction (substring 19 (n - 20) s) with
    | Some y, Some m, Some d, Some hh, Some mm, Some ss, Some ns =>
        let t := (((days_from_civil y m d * 24 + hh) * 60 + mm) * 60 + ss)
                 * 1000000000 + ns in
        if (1 <=? m) && (m <=? 12) && (1 <=? d) && (d <=? days_in_month y m)
           && (hh <? 24) && (mm <? 60) && (ss <? 60)
           && (- 9223372036854775808 <? t) && (t <? 9223372036854775808)
        then Some t
        else None
    | _, _, _, _, _, _, _ => None
    end.

Definition two_digits (n : Z) : string :=
  if n <? 10 then "0" ++ PyStr.of_Z n else PyStr.of_Z n.

(** The shortest decimal form of a number of hundredths, with at least one
    decimal. *)
Definition hundredths_str (h : Z) : string :=
  let a := Z.abs h in
  let frac := a mod 100 in
  (if h <? 0 then "-" else "")
  ++ PyStr.of_Z (a / 100) ++ "."
  ++ (if frac mod 10 =? 0 then PyStr.of_Z (frac / 10) else two_digits frac).

End Iso.

(** The interface on ISO-8601 [Z] timestamps and decimal integers, with
    [replace] as in pandas 2.2; other forms, which pandas may accept, are
    read as unparseable. *)
Definition iso_pandas : Pandas := {|
  to_datetime := fun c =>
    match c with
    | Str s => Iso.timestamp (PyStr.strip s)
    | _ => None
    end;
  to_numeric := fun c =>
    match c with
    | Int z => Some (inject_Z z)
    | Str s => option_map inject_Z (Iso.integer s)
    | NaN => None
    end;
  round2_str := fun q => Iso.hundredths_str (round_half_even (q * 100));
  replace_downcasts := true
|}.

(** The same with [replace] as in pandas 3. *)
Definition iso_pandas_3 : Pandas := {|
  to_datetime := @to_datetime iso_pandas;
  to_numeric := @to_numeric iso_pandas;
  round2_str := @round2_str iso_pandas;
  replace_downcasts := false
|}.

(** * Concrete tables *)

Module Scenario.

Definition t0 : cell := Str "2024-01-01T10:00:00Z".
Definition t1 : cell := Str "2024-01-01T10:29:45Z".

(** One respondent, ten o'clock to 10:29:45. *)
Definition half_hour : DataFrame :=
  {| columns := ["ID"; "StartTime_TS"; "EndTime_TS";
                 "FIntID_W4"; "FIntName_W4"; "Q1"];
     rows := [[Int 1; t0; t1; Int 7; Str "Asha"; Int 197]] |}.

(** The end before the start. *)
Definition backwards : DataFrame :=
  {| columns := ["ID"; "StartTime_TS"; "EndTime_TS";
                 "FIntID_W4"; "FIntName_W4"; "Q1"];
     rows := [[Int 1; t1; t0; Int 7; Str "Asha"; Int 197]] |}.

(** The reserved codes as text, a blank and an empty cell. *)
Definition codes : DataFrame :=
  {| columns := ["ID"; "StartTime_TS"; "EndTime_TS";
                 "FIntID_W4"; "FIntName_W4";
                 "Q1"; "Q2"; "Q3"; "Q4"; "Q5"; "Q6"; "Q7"; "Q8"];
     rows := [[Int 1; t0; t1; Int 7; Str "Asha";
               Str "197"; Str "199"; Str "198"; Str "97"; Str "1997";
               Str "   "; Str ""; Str " 5 "]] |}.

(** Two respondents, one role, interviewer ids "5" and "3". *)
Definition two_ids : DataFrame :=
  {| columns := ["ID"; "StartTime_TS"; "EndTime_TS";
                 "FIntID_W4"; "FIntName_W4"; "Q1"];
     rows := [[Int 1; t0; t1; Str "5"; Str "Asha"; Int 1];
              [Int 2; t0; t1; Str "3"; Str "Bina"; Int 2]] |}.

(** The same with integer ids. *)
Definition two_int_ids : DataFrame :=
  {| columns := ["ID"; "StartTime_TS"; "EndTime_TS";
                 "FIntID_W4"; "FIntName_W4"; "Q1"];
     rows := [[Int 1; t0; t1; Int 5; Str "Asha"; Int 1];
              [Int 2; t0; t1; Int 3; Str "Bina"; Int 2]] |}.

(** Three respondents with the ids "x7", "10" and "9". *)
Definition mixed_ids : DataFrame :=
  {| columns := ["ID"; "StartTime_TS"; "EndTime_TS";
                 "FIntID_W4"; "FIntName_W4"; "Q1"];
     rows := [[Int 1; t0; t1; Str "x7"; Str "Asha"; Int 1];
              [Int 2; t0; t1; Str "10"; Str "Bina"; Int 2];
              [Int 3; t0; t1; Str "9"; Str "Chitra"; Int 2]] |}.

(** Two roles, each with its id column, and three respondents, the second
    with a start that does not parse. *)
Definition two_roles : DataFrame :=
  {| columns := ["ID"; "StartTime_TS"; "EndTime_TS";
                 "FIntID_W4"; "FIntName_W4"; "MIntID_W4"; "MIntName_W4";
                 "Q1"; "Q2"];
     rows := [[Int 1; t0; t1; Int 7; Str "Asha"; Int 8; Str "Bina";
               Int 1; Str " "];
              [Int 2; Str "yesterday"; t1; Int 7; Str "Asha"; Int 8;
               Str "Bina"; Int 1; Int 2];
              [Int 3; t0; t1; Int 8; Str "Bina"; Int 7; Str "Asha";
               Int 97; Int 2]] |}.

(** [two_roles] without its second row. *)
Definition two_roles_kept : DataFrame :=
  {| columns := columns two_roles;
     rows := [[Int 1; t0; t1; Int 7; Str "Asha"; Int 8; Str "Bina";
               Int 1; Str " "];
              [Int 3; t0; t1; Int 8; Str "Bina"; Int 7; Str "Asha";
               Int 97; Int 2]] |}.

(** A name column for role F and no id column at all. *)
Definition no_id_col : DataFrame :=
  {| columns := ["ID"; "StartTime_TS"; "EndTime_TS"; "FIntName_W4"; "Q1"];
     rows := [[Int 1; t0; t1; Str "Asha"; Int 1]] |}.

(** Role F with its id column, role M with a name column only. *)
Definition one_of_two : DataFrame :=
  {| columns := ["ID"; "StartTime_TS"; "EndTime_TS";
                 "FIntID_W4"; "FIntName_W4"; "MIntName_W4"; "Q1"];
     rows := [[Int 1; t0; t1; Int 7; Str "Asha"; Str "Bina"; Int 1]] |}.

(** Role F has a name column; the only id column is that of a role FA. *)
Definition other_role_id : DataFrame :=
  {| columns := ["ID"; "StartTime_TS"; "EndTime_TS";
                 "FIntName_W4"; "FAIntID_W4"; "Q1"];
     rows := [[Int 1; t0; t1; Str "Asha"; Int 9; Int 1]] |}.

(** One interviewer, two respondents with two and three answers. *)
Definition two_and_three : DataFrame :=
  {| columns := ["ID"; "StartTime_TS"; "EndTime_TS";
                 "FIntID_W4"; "FIntName_W4"; "Q1"; "Q2"; "Q3"];
     rows := [[Int 1; t0; t1; Int 7; Str "Asha"; Int 1; Int 2; NaN];
              [Int 2; t0; t1; Int 7; Str "Asha"; Int 1; Int 2; Int 3]] |}.

(** One interviewer, two respondents with three and four answers. *)
Definition three_and_four : DataFrame :=
  {| columns := ["ID"; "StartTime_TS"; "EndTime_TS";
                 "FIntID_W4"; "FIntName_W4"; "Q1"; "Q2"; "Q3"; "Q4"];
     rows := [[Int 1; t0; t1; Int 7; Str "Asha"; Int 1; Int 2; Int 3; NaN];
              [Int 2; t0; t1; Int 7; Str "Asha"; Int 1; Int 2; Int 3;
               Int 4]] |}.

(** Two respondents, the second without an interviewer id. *)
Definition missing_id : DataFrame :=
  {| columns := ["ID"; "StartTime_TS"; "EndTime_TS";
                 "FIntID_W4"; "FIntName_W4"; "Q1"];
     rows := [[Int 1; t0; t1; Int 7; Str "Asha"; Int 1];
              [Int 2; t0; t1; NaN; Str "Bina"; Int 2]] |}.

(** The labels of [half_hour] and no row. *)
Definition no_rows : DataFrame :=
  {| columns := columns half_hour; rows := [] |}.

(** The labels of [half_hour] and one row whose end does not parse. *)
Definition only_bad_rows : DataFrame :=
  {| columns := columns half_hour;
     rows := [[Int 1; t0; Str "later"; Int 7; Str "Asha"; Int 197]] |}.


(** One question, answered 197 by the first respondent and left empty by
    the second: a [float64] column. *)
Definition skipped_answer : DataFrame :=
  {| columns := ["ID"; "StartTime_TS"; "EndTime_TS";
                 "FIntID_W4"; "FIntName_W4"; "Q1"];
     rows := [[Int 1; t0; t1; Int 7; Str "Asha"; Int 197];
              [Int 2; t0; t1; Int 7; Str "Asha"; NaN]] |}.

(** One respondent who answered 197 to the first question and nothing to
    the second. *)
Definition beside_empty : DataFrame :=
  {| columns := ["ID"; "StartTime_TS"; "EndTime_TS";
                 "FIntID_W4"; "FIntName_W4"; "Q1"; "Q2"];
     rows := [[Int 1; t0; t1; Int 7; Str "Asha"; Int 197; NaN]] |}.

(** The codes as numbers beside a question holding text. *)
Definition beside_text : DataFrame :=
  {| columns := ["ID"; "StartTime_TS"; "EndTime_TS";
                 "FIntID_W4"; "FIntName_W4"; "Q1"; "Q2"; "Q3"; "Q4"];
     rows := [[Int 1; t0; t1; Int 7; Str "Asha";
               Int 197; Int 199; Int 98; Str "no"]] |}.

(** A number beside a question whose only cell is blank. *)
Definition beside_blank : DataFrame :=
  {| columns := ["ID"; "StartTime_TS"; "EndTime_TS";
                 "FIntID_W4"; "FIntName_W4"; "Q1"; "Q2"];
     rows := [[Int 1; t0; t1; Int 7; Str "Asha"; Int 197; Str " "]] |}.

(** [half_hour] with a second row whose start does not parse and whose
    answer is empty. *)
Definition empty_in_dropped_row : DataFrame :=
  {| columns := columns half_hour;
     rows := [[Int 1; t0; t1; Int 7; Str "Asha"; Int 197];
              [Int 2; Str "yesterday"; t1; Int 7; Str "Asha"; NaN]] |}.


(** Five hundred years from start to end. *)
Definition far_apart : DataFrame :=
  {| columns := columns half_hour;
     rows := [[Int 1; Str "1700-01-01T00:00:00Z"; Str "2200-01-01T00:00:00Z";
               Int 7; Str "Asha"; Int 197]] |}.

(** A nanosecond short of 200000 minutes. *)
Definition rounded_up : DataFrame :=
  {| columns := columns half_hour;
     rows := [[Int 1; Str "1970-01-01T00:00:00Z";
               Str "1970-05-19T21:19:59.999999999Z";
               Int 7; Str "Asha"; Int 197]] |}.

End Scenario.

(** * Predicates used in the statements *)

(** Both timestamps of a row parse. *)
Definition parses {pandas : Pandas} (cols : list string) (row : list cell)
  : bool :=
  match to_datetime (loc cols "StartTime_TS" row),
        to_datetime (loc cols "EndTime_TS" row) with
  | Some _, Some _ => true
  | _, _ => false
  end.

(** Both timestamps of a row parse and their difference does not fit in an
    int64 of nanoseconds. *)
Definition overflows {pandas : Pandas} (cols : list string) (row : list cell)
  : bool :=
  match to_datetime (loc cols "StartTime_TS" row),
        to_datetime (loc cols "EndTime_TS" row) with
  | Some s, Some e =>
      negb ((- 9223372036854775808 <? e - s)
            && (e - s <? 9223372036854775808))
  | _, _ => false
  end.

(** The id column the loop pairs with a name column, if any. *)
Definition paired_id_col (cols : list string) (name_col : string)
  : option string :=
  find_id_col (interviewer_id_cols cols)
              (PyStr.replace "IntName_W4" "" name_col).

(** The name columns for which the loop finds an id column. *)
Definition paired_name_cols (cols : list string) : list string :=
  filter (fun nm => match paired_id_col cols nm with
                    | Some _ => true
                    | None => false
                    end)
         (interviewer_name_cols cols).

(** The order of two sort keys: numbers increase, a missing key is last. *)
Definition key_le (a b : option Q) : Prop :=
  match a, b with
  | Some x, Some y => (x <= y)%Q
  | _, None => True
  | None, Some _ => False
  end.

(** * Readings of the specification, for comparison *)

(** Rounding to the nearest integer with ties upward. *)
Definition round_half_up (q : Q) : Z := Qfloor (q + (1 # 2)).

(** The ten labels the specification lists for the exported sheet. *)
Definition spec_export_columns : list string :=
  ["IntID"; "IntName"; "total_interviews";
   "min_duration_display"; "avg_duration_display"; "max_duration_display";
   "avg_questions"; "total_DK"; "total_RF"; "total_NA"].

(** * Facts about strings and cells *)

Lemma endswith_iff (s suf : string) :
  PyStr.endswith s suf = true <-> exists p, s = p ++ suf.
Proof.
  split.
  - induction s as [|c s IH]; intros H.
    + simpl in H. destruct suf; [|discriminate]. now exists "".
    + change (PyStr.endswith (String c s) suf)
        with (String.eqb (String c s) suf || PyStr.endswith s suf) in H.
      apply orb_true_iff in H. destruct H as [H|H].
      * apply String.eqb_eq in H. exists "". now subst.
      * destruct (IH H) as [p Hp]. exists (String c p). simpl. now rewrite Hp.
  - intros [p Hp]. subst s. induction p as [|c p IH].
    + simpl. destruct suf; [reflexivity|].
      change (PyStr.endswith (String a suf) (String a suf))
        with (String.eqb (String a suf) (String a suf)
              || PyStr.endswith suf (String a suf)).
      now rewrite String.eqb_refl.
    + change (PyStr.endswith (String c p ++ suf) suf)
        with (String.eqb (String c (p ++ suf)) suf
              || PyStr.endswith (p ++ suf) suf).
      rewrite IH. apply orb_true_r.
Qed.

Lemma all_space_iff (s : string) :
  PyStr.all_space s = true <->
  (forall c, In c (list_ascii_of_string s) -> PyStr.isspace c = true).
Proof.
  induction s as [|a s IH]; simpl.
  - split; [intros _ c [] | reflexivity].
  - rewrite andb_true_iff, IH. split.
    + intros [Ha Hs] c [<-|Hc]; auto.
    + intros H. split; [apply H; now left | intros c Hc; apply H; now right].
Qed.

Lemma cell_eqb_eq (a b : cell) : cell_eqb a b = true <-> a = b.
Proof.
  destruct a, b; simpl; split; intros H; try discriminate; try reflexivity.
  - apply String.eqb_eq in H. now subst.
  - injection H as ->. apply String.eqb_refl.
  - apply Z.eqb_eq in H. now subst.
  - injection H as ->. apply Z.eqb_refl.
Qed.

Lemma notna_iff (c : cell) : notna c = true <-> c <> NaN.
Proof.
  destruct c; unfold notna; simpl; split; intros H;
    try discriminate; try reflexivity; now elim H.
Qed.

Lemma count_cells_filter {A : Type} (f : A -> bool) (row : list A) :
  count_cells f row = Z.of_nat (List.length (filter f row)).
Proof.
  induction row as [|v row IH]; simpl; [reflexivity|].
  destruct (f v); simpl List.length; lia.
Qed.

Lemma suffix_test (val : Py.object) (code : string) :
  val <> Py.nan ->
  ((if pd_isna val then false
    else PyStr.endswith (PyStr.strip (py_str val)) code) = true
   <-> exists p, PyStr.strip (py_str val) = p ++ code).
Proof.
  intros Hv. destruct val; [congruence|..]; simpl pd_isna; cbv iota;
    apply endswith_iff.
Qed.

Lemma has_label_in (c : string) (cols : list string) :
  has_label c cols = true <-> In c cols.
Proof.
  unfold has_label. rewrite existsb_exists. split.
  - intros [x [Hx E]]. apply String.eqb_eq in E. now subst.
  - intros H. exists c. split; [exact H | apply String.eqb_refl].
Qed.

Lemma has_label_not_in (c : string) (cols : list string) :
  has_label c cols = false <-> ~ In c cols.
Proof.
  rewrite <- has_label_in. destruct (has_label c cols); split; congruence.
Qed.

(** * Trimming *)

Lemma lstrip_all_space (s : string) :
  PyStr.all_space s = true -> PyStr.lstrip s = "".
Proof.
  induction s as [|c s IH]; simpl; [reflexivity|].
  intros H. apply andb_true_iff in H. destruct H as [Hc Hs].
  rewrite Hc. now apply IH.
Qed.

Lemma lstrip_app (l s : string) :
  PyStr.all_space l = true -> PyStr.lstrip (l ++ s) = PyStr.lstrip s.
Proof.
  induction l as [|c l IH]; simpl; [reflexivity|].
  intros H. apply andb_true_iff in H. destruct H as [Hc Hl].
  rewrite Hc. now apply IH.
Qed.

Lemma rstrip_all_space (s : string) :
  PyStr.all_space s = true -> PyStr.rstrip s = "".
Proof.
  induction s as [|c s IH]; simpl; [reflexivity|].
  intros H. apply andb_true_iff in H. destruct H as [Hc Hs].
  now rewrite (IH Hs), Hc.
Qed.

Lemma rstrip_app (s r : string) (b : ascii) :
  PyStr.isspace b = false ->
  PyStr.all_space r = true ->
  PyStr.rstrip (s ++ String b r) = s ++ String b "".
Proof.
  intros Hb Hr. induction s as [|c s IH].
  - simpl. now rewrite (rstrip_all_space r Hr), Hb.
  - change (PyStr.rstrip (String c (s ++ String b r))
            = String c (s ++ String b "")).
    simpl PyStr.rstrip. rewrite IH. destruct s; reflexivity.
Qed.

Lemma strip_spec (l r mid : string) (a b : ascii) :
  PyStr.all_space l = true ->
  PyStr.all_space r = true ->
  PyStr.isspace a = false ->
  PyStr.isspace b = false ->
  PyStr.strip (l ++ String a (mid ++ String b r))
  = String a (mid ++ String b "").
Proof.
  intros Hl Hr Ha Hb. unfold PyStr.strip.
  rewrite (lstrip_app l _ Hl). simpl PyStr.lstrip. rewrite Ha.
  exact (rstrip_app (String a mid) r b Hb Hr).
Qed.

Lemma strip_spec_one (l r : string) (a : ascii) :
  PyStr.all_space l = true ->
  PyStr.all_space r = true ->
  PyStr.isspace a = false ->
  PyStr.strip (l ++ String a r) = String a "".
Proof.
  intros Hl Hr Ha. unfold PyStr.strip.
  rewrite (lstrip_app l _ Hl). simpl PyStr.lstrip. rewrite Ha.
  exact (rstrip_app "" r a Ha Hr).
Qed.

(** * Rounding to a float *)

Lemma pow2_pos (e : Z) : (0 < F64.pow2 e)%Q.
Proof. apply Qpower_0_lt. reflexivity. Qed.

Lemma pow2_add (a b : Z) : (F64.pow2 (a + b) == F64.pow2 a * F64.pow2 b)%Q.
Proof. apply Qpower_plus. discriminate. Qed.

Lemma pow2_int (e : Z) : 0 <= e -> (F64.pow2 e == inject_Z (2 ^ e))%Q.
Proof. intros H. unfold F64.pow2. now rewrite Zpower_Qpower. Qed.

Lemma pow2_mono (a b : Z) : a <= b -> (F64.pow2 a <= F64.pow2 b)%Q.
Proof. intros H. apply Qpower_le_compat_l; [exact H | discriminate]. Qed.

Lemma ilog2_le (x : Q) : (0 < x)%Q -> (F64.pow2 (F64.ilog2 x) <= x)%Q.
Proof.
  intros Hx. unfold F64.ilog2.
  set (a := Z.log2 (Qnum x)). set (b := Z.log2 (Z.pos (Qden x))).
  destruct (Qle_bool (F64.pow2 (a - b)) x) eqn:E.
  - now apply Qle_bool_iff.
  - clear E.
    assert (Hn : 0 < Qnum x).
    { unfold Qlt in Hx. simpl in Hx. lia. }
    assert (Ha : 2 ^ a <= Qnum x) by (apply Z.log2_spec; exact Hn).
    assert (Hb : Z.pos (Qden x) < 2 ^ (b + 1)).
    { pose proof (Z.log2_spec (Z.pos (Qden x)) ltac:(lia)) as H.
      unfold b. replace (Z.log2 (Z.pos (Qden x)) + 1)
        with (Z.succ (Z.log2 (Z.pos (Qden x)))) by lia. tauto. }
    assert (Ha0 : 0 <= a) by apply Z.log2_nonneg.
    assert (Hb0 : 0 <= b) by apply Z.log2_nonneg.
    (* 2^(a-b-1) * 2^(b+1) == 2^a *)
    assert (Hp : (F64.pow2 (a - b - 1) * inject_Z (2 ^ (b + 1))
                  == inject_Z (2 ^ a))%Q).
    { rewrite <- !pow2_int by lia. rewrite <- pow2_add.
      replace (a - b - 1 + (b + 1)) with a by lia. reflexivity. }
    pose proof (pow2_pos (a - b - 1)) as Hpos.
    set (P := F64.pow2 (a - b - 1)) in *.
    assert (Hd : (inject_Z (Z.pos (Qden x)) <= inject_Z (2 ^ (b + 1)))%Q)
      by (rewrite <- Zle_Qle; lia).
    assert (Hnq : (inject_Z (2 ^ a) <= inject_Z (Qnum x))%Q)
      by (rewrite <- Zle_Qle; lia).
    assert (Hx' : (x * inject_Z (Z.pos (Qden x)) == inject_Z (Qnum x))%Q).
    { destruct x as [n d]. unfold Qeq, Qmult, inject_Z. simpl. lia. }
    assert (Hdpos : (0 < inject_Z (Z.pos (Qden x)))%Q)
      by (rewrite <- (Zlt_Qlt 0); lia).
    set (D := inject_Z (Z.pos (Qden x))) in *.
    set (N := inject_Z (Qnum x)) in *.
    set (B := inject_Z (2 ^ (b + 1))) in *.
    set (A := inject_Z (2 ^ a)) in *.
    (* P * D <= P * B == A <= N == x * D, D > 0 *)
    assert (H1 : (P * D <= x * D)%Q).
    { assert (P * D <= P * B)%Q by nra. lra. }
    apply Qnot_lt_le. intros Hlt.
    assert (x * D < P * D)%Q by nra. lra.
Qed.

Lemma round_half_even_near (y : Q) :
  (y - (1 # 2) <= inject_Z (round_half_even y) <= y + (1 # 2))%Q.
Proof.
  unfold round_half_even.
  pose proof (Qfloor_le y) as Hlo. pose proof (Qlt_floor y) as Hhi.
  set (f := Qfloor y) in *.
  rewrite inject_Z_plus in Hhi. change (inject_Z 1) with 1%Q in Hhi.
  destruct (Qcompare (y - inject_Z f) (1 # 2)) eqn:E.
  - apply Qeq_alt in E.
    destruct (Z.even f);
      [|rewrite inject_Z_plus; change (inject_Z 1) with 1%Q]; lra.
  - apply Qlt_alt in E. lra.
  - apply Qgt_alt in E. rewrite inject_Z_plus.
    change (inject_Z 1) with 1%Q. lra.
Qed.

Lemma round_half_even_comp (x y : Q) :
  (x == y)%Q -> round_half_even x = round_half_even y.
Proof.
  intros H. unfold round_half_even.
  rewrite (Qfloor_comp _ _ H).
  assert (E : (x - inject_Z (Qfloor y) == y - inject_Z (Qfloor y))%Q)
    by (rewrite H; reflexivity).
  now rewrite (Qcompare_comp _ _ E _ _ (Qeq_refl (1 # 2))).
Qed.

Lemma round_half_even_int (z : Z) : round_half_even (inject_Z z) = z.
Proof.
  unfold round_half_even. rewrite Qfloor_Z.
  assert (E : Qcompare (inject_Z z - inject_Z z) (1 # 2) = Lt).
  { apply Qlt_alt.
    assert (H : (inject_Z z - inject_Z z == 0)%Q) by ring.
    rewrite H. reflexivity. }
  now rewrite E.
Qed.

(** Relative error of the rounding of a positive number. *)
Lemma round_pos_near (x : Q) :
  (0 < x)%Q ->
  (x - x * F64.pow2 (-53) <= F64.round_pos x <= x + x * F64.pow2 (-53))%Q.
Proof.
  intros Hx. unfold F64.round_pos.
  pose proof (ilog2_le x Hx) as Hl.
  set (e := F64.ilog2 x - 52).
  replace (F64.ilog2 x) with (e + 52) in Hl by (unfold e; lia).
  rewrite pow2_add in Hl.
  pose proof (pow2_pos e) as Hp.
  pose proof (round_half_even_near (x / F64.pow2 e)) as Hr.
  set (m := inject_Z (round_half_even (x / F64.pow2 e))) in *.
  assert (Hy : (x / F64.pow2 e * F64.pow2 e == x)%Q).
  { field. intros H0. rewrite H0 in Hp. now apply Qlt_irrefl in Hp. }
  set (y := (x / F64.pow2 e)%Q) in *.
  set (P := F64.pow2 e) in *.
  assert (H52 : (F64.pow2 52 * F64.pow2 (-53) == 1 # 2)%Q).
  { rewrite <- pow2_add. reflexivity. }
  assert (H53 : (0 < F64.pow2 (-53))%Q) by apply pow2_pos.
  set (U := F64.pow2 (-53)) in *. set (T := F64.pow2 52) in *.
  (* |m*P - x| <= P/2 and P*T <= x so P/2 = P*T*U <= x*U *)
  assert (H1 : (P * (1 # 2) <= x * U)%Q).
  { assert (P * T * U <= x * U)%Q by nra.
    assert (P * T * U == P * (1 # 2))%Q by (rewrite <- H52; ring). lra. }
  assert (H2 : (y * P - P * (1 # 2) <= m * P <= y * P + P * (1 # 2))%Q)
    by nra.
  lra.
Qed.

Lemma round_pos_int (x : Q) (n : Z) :
  (x == inject_Z n)%Q -> 0 < n < 2 ^ 53 ->
  (F64.round_pos x == inject_Z n)%Q.
Proof.
  intros Hxn Hn. unfold F64.round_pos.
  assert (Hx : (0 < x)%Q) by (rewrite Hxn; rewrite <- (Zlt_Qlt 0); lia).
  pose proof (ilog2_le x Hx) as Hl.
  assert (He : F64.ilog2 x <= 52).
  { destruct (Z_le_gt_dec (F64.ilog2 x) 52) as [H|H]; [exact H|].
    exfalso. pose proof (pow2_mono 53 (F64.ilog2 x) ltac:(lia)) as Hm.
    rewrite (pow2_int 53) in Hm by lia.
    assert (inject_Z n < inject_Z (2 ^ 53))%Q by (rewrite <- Zlt_Qlt; lia).
    lra. }
  set (e := F64.ilog2 x - 52).
  assert (He' : 0 <= - e) by (unfold e; lia).
  assert (Hinv : (F64.pow2 e * F64.pow2 (- e) == 1)%Q).
  { rewrite <- pow2_add. replace (e + - e) with 0 by lia. reflexivity. }
  pose proof (pow2_pos e) as Hp.
  pose proof (pow2_int (- e) He') as Hi.
  assert (Hy : (x / F64.pow2 e == inject_Z (n * 2 ^ (- e)))%Q).
  { rewrite inject_Z_mult, <- Hi, Hxn.
    set (P := F64.pow2 e) in *. set (P' := F64.pow2 (- e)) in *.
    assert (HP : ~ (P == 0)%Q) by (intros H0; rewrite H0 in Hp; now apply Qlt_irrefl in Hp).
    apply (Qmult_inj_r _ _ P HP).
    assert (E1 : (inject_Z n / P * P == inject_Z n)%Q) by (field; exact HP).
    rewrite E1.
    assert (E2 : (inject_Z n * P' * P == inject_Z n * (P * P'))%Q) by ring.
    rewrite E2, Hinv. ring. }
  rewrite (round_half_even_comp _ _ Hy), round_half_even_int.
  rewrite inject_Z_mult, <- Hi.
  set (P := F64.pow2 e) in *. set (P' := F64.pow2 (- e)) in *.
  assert (E : (inject_Z n * P' * P == inject_Z n * (P * P'))%Q) by ring.
  rewrite E, Hinv. ring.
Qed.

Lemma round_comp (x y : Q) : (x == y)%Q -> F64.round x = F64.round y.
Proof. intros H. unfold F64.round. now rewrite (Qred_complete _ _ H). Qed.

Lemma round_positive (x : Q) :
  (0 < x)%Q -> (F64.round x == F64.round_pos (Qred x))%Q.
Proof.
  intros Hx. unfold F64.round.
  assert (H : (0 < Qred x)%Q) by now rewrite Qred_correct.
  destruct (Qred x) as [n d] eqn:E. unfold Qlt in H. simpl in H.
  destruct n as [|p|p]; simpl Qnum; try lia.
  apply Qred_correct.
Qed.

Lemma round_negative (x : Q) :
  (x < 0)%Q -> (F64.round x == - F64.round_pos (- Qred x))%Q.
Proof.
  intros Hx. unfold F64.round.
  assert (H : (Qred x < 0)%Q) by now rewrite Qred_correct.
  destruct (Qred x) as [n d] eqn:E. unfold Qlt in H. simpl in H.
  destruct n as [|p|p]; simpl Qnum; try lia.
  apply Qred_correct.
Qed.

Lemma round_zero (x : Q) : (x == 0)%Q -> (F64.round x == 0)%Q.
Proof.
  intros Hx. rewrite (round_comp x 0 Hx). reflexivity.
Qed.

Lemma round_opp (x : Q) : (F64.round (- x) == - F64.round x)%Q.
Proof.
  destruct (Q_dec x 0) as [[H|H]|H].
  - assert (Hn : (0 < - x)%Q) by lra.
    rewrite (round_positive _ Hn), (round_negative _ H).
    rewrite Qred_opp. ring.
  - assert (Hn : (- x < 0)%Q) by lra.
    rewrite (round_positive _ H), (round_negative _ Hn).
    rewrite Qred_opp.
    assert (E' : (- - Qred x)%Q = Qred x).
    { destruct (Qred x) as [n d]. unfold Qopp. simpl. now rewrite Z.opp_involutive. }
    rewrite E'. reflexivity.
  - assert (Hn : (- x == 0)%Q) by lra.
    rewrite (round_zero _ H), (round_zero _ Hn). reflexivity.
Qed.

Lemma round_near (x : Q) :
  (0 < x)%Q ->
  (x - x * F64.pow2 (-53) <= F64.round x <= x + x * F64.pow2 (-53))%Q.
Proof.
  intros Hx. rewrite (round_positive _ Hx).
  assert (H : (0 < Qred x)%Q) by now rewrite Qred_correct.
  pose proof (round_pos_near _ H) as Hn.
  rewrite !Qred_correct in Hn at 1.
  pose proof (Qred_correct x) as E.
  set (r := F64.round_pos (Qred x)) in *. set (y := Qred x) in *.
  set (U := F64.pow2 (-53)) in *.
  assert (y * U == x * U)%Q by (rewrite E; reflexivity).
  lra.
Qed.

Lemma round_int (x : Q) (n : Z) :
  (x == inject_Z n)%Q -> - 2 ^ 53 < n < 2 ^ 53 ->
  (F64.round x == inject_Z n)%Q.
Proof.
  intros Hx Hn. destruct (Z.compare_spec n 0) as [H|H|H].
  - subst n. now apply round_zero.
  - assert (Hneg : (x < 0)%Q) by (rewrite Hx; rewrite <- (Zlt_Qlt _ 0); lia).
    rewrite (round_negative _ Hneg).
    assert (E : (- Qred x == inject_Z (- n))%Q)
      by (rewrite Qred_correct, Hx, inject_Z_opp; reflexivity).
    rewrite (round_pos_int _ _ E) by lia.
    rewrite inject_Z_opp. ring.
  - assert (Hpos : (0 < x)%Q) by (rewrite Hx; rewrite <- (Zlt_Qlt 0); lia).
    rewrite (round_positive _ Hpos).
    apply round_pos_int; [|lia]. now rewrite Qred_correct.
Qed.

Lemma Qfloor_between (x : Q) (q : Z) :
  (inject_Z q <= x)%Q -> (x < inject_Z (q + 1))%Q -> Qfloor x = q.
Proof.
  intros Hlo Hhi.
  pose proof (Qfloor_le x) as H1. pose proof (Qlt_floor x) as H2.
  assert (A : (inject_Z q < inject_Z (Qfloor x + 1))%Q) by lra.
  assert (B : (inject_Z (Qfloor x) < inject_Z (q + 1))%Q) by lra.
  rewrite <- Zlt_Qlt in A, B. lia.
Qed.

Lemma Qtrunc_comp (x y : Q) : (x == y)%Q -> Qtrunc x = Qtrunc y.
Proof.
  intros H. unfold Qtrunc.
  rewrite (Qfloor_comp _ _ H), (Qceiling_comp _ _ H).
  destruct (Qle_bool 0 x) eqn:E1, (Qle_bool 0 y) eqn:E2; try reflexivity.
  - apply Qle_bool_iff in E1. rewrite H in E1. apply Qle_bool_iff in E1.
    congruence.
  - apply Qle_bool_iff in E2. rewrite <- H in E2. apply Qle_bool_iff in E2.
    congruence.
Qed.

Lemma Qtrunc_opp (x : Q) : Qtrunc (- x) = - Qtrunc x.
Proof.
  unfold Qtrunc, Qceiling.
  destruct (Qle_bool 0 x) eqn:E1, (Qle_bool 0 (- x)) eqn:E2.
  - apply Qle_bool_iff in E1, E2.
    assert (H : (x == 0)%Q) by lra.
    assert (H' : (- x == 0)%Q) by lra.
    rewrite (Qfloor_comp _ _ H), (Qfloor_comp _ _ H'). reflexivity.
  - assert (E : (- - x == x)%Q) by ring.
    rewrite (Qfloor_comp _ _ E). reflexivity.
  - lia.
  - exfalso.
    assert (~ (0 <= x)%Q) by (rewrite <- Qle_bool_iff; congruence).
    assert (~ (0 <= - x)%Q) by (rewrite <- Qle_bool_iff; congruence).
    lra.
Qed.

Lemma Qtrunc_nonneg (x : Q) (q : Z) :
  0 <= q -> (inject_Z q <= x)%Q -> (x < inject_Z (q + 1))%Q -> Qtrunc x = q.
Proof.
  intros Hq Hlo Hhi. unfold Qtrunc.
  assert (E : Qle_bool 0 x = true).
  { apply Qle_bool_iff.
    assert (0 <= inject_Z q)%Q by (rewrite <- (Zle_Qle 0); lia). lra. }
  rewrite E. now apply Qfloor_between.
Qed.


Lemma Qtrunc_Z (z : Z) : Qtrunc (inject_Z z) = z.
Proof.
  unfold Qtrunc, Qceiling.
  destruct (Qle_bool 0 (inject_Z z)); [apply Qfloor_Z|].
  rewrite <- inject_Z_opp, Qfloor_Z. lia.
Qed.

Lemma div_opp (a b : Q) : ~ (b == 0)%Q -> (F64.div (- a) b == - F64.div a b)%Q.
Proof.
  intros Hb. unfold F64.div.
  assert (E : (- a / b == - (a / b))%Q) by (field; exact Hb).
  rewrite (round_comp _ _ E). apply round_opp.
Qed.

Lemma div_comp (a a' b : Q) : (a == a')%Q -> F64.div a b = F64.div a' b.
Proof.
  intros H. unfold F64.div. apply round_comp. now rewrite H.
Qed.

Lemma total_seconds_opp (td : Z) :
  (total_seconds (- td) == - total_seconds td)%Q.
Proof.
  unfold total_seconds, F64.of_Z.
  assert (E : (F64.round (inject_Z (- td)) == - F64.round (inject_Z td))%Q).
  { rewrite <- round_opp. rewrite inject_Z_opp. reflexivity. }
  rewrite (div_comp _ _ _ E). apply div_opp. discriminate.
Qed.

Lemma minutes_opp (td : Z) : minutes (- td) = - minutes td.
Proof.
  unfold minutes. rewrite <- Qtrunc_opp. apply Qtrunc_comp.
  rewrite (div_comp _ _ _ (total_seconds_opp td)).
  apply div_opp. discriminate.
Qed.

Lemma Qtrunc_ge_1 (x : Q) : (1 <= x)%Q -> 1 <= Qtrunc x.
Proof.
  intros H. unfold Qtrunc.
  assert (E : Qle_bool 0 x = true) by (apply Qle_bool_iff; lra).
  rewrite E. apply (Qfloor_resp_le 1 x H).
Qed.

Lemma minutes_small (td : Z) :
  0 <= td < 2 ^ 52 -> minutes td = td / 60000000000.
Proof.
  intros Ht.
  pose proof (Z.div_mod td 60000000000 ltac:(lia)) as Hdm.
  pose proof (Z.mod_pos_bound td 60000000000 ltac:(lia)) as Hr.
  set (f := td / 60000000000) in *. set (r := td mod 60000000000) in *.
  assert (Hf : 0 <= f) by (apply Z.div_pos; lia).
  assert (Ha : (F64.of_Z td == inject_Z td)%Q)
    by (apply round_int; [reflexivity | lia]).
  unfold minutes, total_seconds.
  rewrite (div_comp _ _ 1000000000 Ha).
  assert (Hx : (inject_Z td == 60000000000 * inject_Z f + inject_Z r)%Q).
  { rewrite Hdm at 1. rewrite inject_Z_plus, inject_Z_mult. reflexivity. }
  destruct (Z.eq_dec r 0) as [Hr0|Hr0].
  - assert (E1 : (inject_Z td / 1000000000 == inject_Z (60 * f))%Q).
    { rewrite Hx, Hr0, inject_Z_mult. field. }
    assert (S1 : (F64.div (inject_Z td) 1000000000 == inject_Z (60 * f))%Q)
      by (apply round_int; [exact E1 | lia]).
    rewrite (div_comp _ _ 60 S1).
    assert (E2 : (inject_Z (60 * f) / 60 == inject_Z f)%Q)
      by (rewrite inject_Z_mult; field).
    assert (S2 : (F64.div (inject_Z (60 * f)) 60 == inject_Z f)%Q)
      by (apply round_int; [exact E2 | lia]).
    rewrite (Qtrunc_comp _ _ S2). apply Qtrunc_Z.
  - assert (Hrq : (1 <= inject_Z r <= 59999999999)%Q).
    { split; [change 1%Q with (inject_Z 1)
             | change 59999999999%Q with (inject_Z 59999999999)];
        rewrite <- Zle_Qle; lia. }
    assert (Hf0 : (0 <= inject_Z f)%Q) by (rewrite <- (Zle_Qle 0); lia).
    assert (Htd : (inject_Z td <= 4503599627370495)%Q).
    { change 4503599627370495%Q with (inject_Z 4503599627370495).
      rewrite <- Zle_Qle. lia. }
    assert (HU : (F64.pow2 (-53) == 1 # 9007199254740992)%Q) by reflexivity.
    unfold F64.div.
    set (x := inject_Z td) in *.
    assert (Ey : (x / 1000000000 == x * (1 # 1000000000))%Q) by field.
    set (y := (x / 1000000000)%Q) in *.
    assert (Hy : (0 < y)%Q) by lra.
    pose proof (round_near y Hy) as Hs. rewrite HU in Hs.
    set (s := F64.round y) in *.
    assert (Ez : (s / 60 == s * (1 # 60))%Q) by field.
    set (z := (s / 60)%Q) in *.
    assert (Hz : (0 < z)%Q) by lra.
    pose proof (round_near z Hz) as Hm. rewrite HU in Hm.
    set (m := F64.round z) in *.
    apply Qtrunc_nonneg; [exact Hf| |].
    + lra.
    + rewrite inject_Z_plus. change (inject_Z 1) with 1%Q. lra.
Qed.

Lemma minutes_large (td : Z) : 2 ^ 52 <= td -> 1 <= minutes td.
Proof.
  intros Ht.
  assert (Htd : (4503599627370496 <= inject_Z td)%Q).
  { change 4503599627370496%Q with (inject_Z 4503599627370496).
    rewrite <- Zle_Qle. lia. }
  assert (HU : (F64.pow2 (-53) == 1 # 9007199254740992)%Q) by reflexivity.
  unfold minutes, total_seconds, F64.of_Z.
  set (x := inject_Z td) in *.
  assert (Hx : (0 < x)%Q) by lra.
  pose proof (round_near x Hx) as Ha. rewrite HU in Ha.
  set (a := F64.round x) in *.
  assert (Ey : (a / 1000000000 == a * (1 # 1000000000))%Q) by field.
  unfold F64.div.
  set (y := (a / 1000000000)%Q) in *.
  assert (Hy : (0 < y)%Q) by lra.
  pose proof (round_near y Hy) as Hs. rewrite HU in Hs.
  set (s := F64.round y) in *.
  assert (Ez : (s / 60 == s * (1 # 60))%Q) by field.
  set (z := (s / 60)%Q) in *.
  assert (Hz : (0 < z)%Q) by lra.
  pose proof (round_near z Hz) as Hm. rewrite HU in Hm.
  apply Qtrunc_ge_1. lra.
Qed.

Lemma minutes_quot (td : Z) :
  - 2 ^ 52 < td < 2 ^ 52 -> minutes td = Z.quot td 60000000000.
Proof.
  intros Hb. destruct (Z_le_gt_dec 0 td) as [Hs|Hs].
  - rewrite minutes_small by lia. symmetry. apply Z.quot_div_nonneg; lia.
  - rewrite <- (Z.opp_involutive td) at 1. rewrite minutes_opp.
    rewrite minutes_small by lia.
    rewrite <- (Z.quot_div_nonneg (- td)) by lia.
    rewrite Z.quot_opp_l by lia. lia.
Qed.

Lemma minutes_zero (td : Z) :
  minutes td = 0 <-> - 60000000000 < td < 60000000000.
Proof.
  assert (P : forall t, 0 <= t -> (minutes t = 0 <-> t < 60000000000)).
  { intros t Ht. destruct (Z_lt_le_dec t (2 ^ 52)) as [Hs|Hs].
    - rewrite minutes_small by lia. split; intros H.
      + apply Z.div_small_iff in H; lia.
      + apply Z.div_small. lia.
    - pose proof (minutes_large t Hs) as Hl. split; intros H; lia. }
  destruct (Z_le_gt_dec 0 td) as [Hs|Hs].
  - rewrite (P td Hs). lia.
  - pose proof (P (- td) ltac:(lia)) as HP. rewrite minutes_opp in HP. lia.
Qed.


Lemma nearest_small (z : Z) : - 2 ^ 53 < z < 2 ^ 53 -> F64.nearest z = z.
Proof.
  intros H. unfold F64.nearest, F64.of_Z.
  rewrite (Qfloor_comp _ _ (round_int (inject_Z z) z (Qeq_refl _) H)).
  apply Qfloor_Z.
Qed.

(** * Lists *)

Lemma filter_map_app {A B : Type} (f : A -> option B) (l1 l2 : list A) :
  filter_map f (l1 ++ l2)%list = (filter_map f l1 ++ filter_map f l2)%list.
Proof.
  induction l1 as [|x l1 IH]; simpl; [reflexivity|].
  destruct (f x); simpl; now rewrite IH.
Qed.

Lemma in_filter_map {A B : Type} (f : A -> option B) (l : list A) (y : B) :
  In y (filter_map f l) <-> exists x, In x l /\ f x = Some y.
Proof.
  induction l as [|a l IH]; simpl.
  - split; [intros [] | intros [x [[] _]]].
  - destruct (f a) as [b|] eqn:Hfa; simpl; rewrite IH; split.
    + intros [<-|[x [Hx Hy]]]; [exists a; auto | exists x; auto].
    + intros [x [[<-|Hx] Hy]]; [left; congruence | right; exists x; auto].
    + intros [x [Hx Hy]]. exists x; auto.
    + intros [x [[<-|Hx] Hy]]; [congruence | exists x; auto].
Qed.

(** * The classifier *)

Lemma classify_counts (cols : list string) (kinds : list dtype) (r : Timed.t) :
  let cells := map (fun q => blank_to_nan (loc cols q (Timed.raw r)))
                   (question_cols cols) in
  let vals := map (fun p => handed (common_dtype kinds) (fst p) (snd p))
                  (combine kinds cells) in
  Wide.answers (classify cols kinds r) = cells
  /\ Wide.DK_count (classify cols kinds r)
     = Z.of_nat (List.length (filter is_dk vals))
  /\ Wide.RF_count (classify cols kinds r)
     = Z.of_nat (List.length (filter is_rf vals))
  /\ Wide.NA_count (classify cols kinds r)
     = Z.of_nat (List.length (filter is_na vals)).
Proof.
  intros cells vals. unfold classify; simpl.
  split; [reflexivity|]. repeat split; apply count_cells_filter.
Qed.

(** C1. What the classifier does, and where it departs from the claim.  A
    question cell that is empty or holds only white space becomes missing
    and is counted in no category; a value that is not missing is counted as
    DK exactly when its string form, trimmed of the white space around it,
    ends with "97", as RF when it ends with "99" and as NA when it ends with
    "98" (trimming leaves the text between the first and the last code point
    that is not white space); the three counts of a row are the numbers of the values handed
    over for its question cells that pass these tests; a text cell is handed
    over as it is, so "197", "199", "198", "97", "1997" and " 97 " are DK,
    RF, NA, DK, DK and DK.  A number is handed over as a float when its
    column holds an empty cell or when the question columns of the row are
    numeric and one of them does: 197 is then tested as "197.0" and counted
    in no category.  In the table of one question answered 197 by one
    respondent and left empty by another the DK count of the first is 0, and
    so it is for the 197 beside an empty question; alone, or beside a
    question holding text, the 197 is counted. *)
Theorem classification_by_suffix :
  (forall s,
      (forall c, In c (list_ascii_of_string s) -> PyStr.isspace c = true) ->
      blank_to_nan (Str s) = NaN)
  /\ (forall common kind,
         handed common kind NaN = Py.nan
         /\ forall s, handed common kind (Str s) = Py.str s)
  /\ (is_dk Py.nan = false /\ is_rf Py.nan = false /\ is_na Py.nan = false)
  /\ (forall v,
         v <> Py.nan ->
         (is_dk v = true <-> exists p, PyStr.strip (py_str v) = p ++ "97")
         /\ (is_rf v = true <-> exists p, PyStr.strip (py_str v) = p ++ "99")
         /\ (is_na v = true <-> exists p, PyStr.strip (py_str v) = p ++ "98"))
  /\ ((forall s, PyStr.all_space s = true -> PyStr.strip s = "")
      /\ (forall l r a,
             PyStr.all_space l = true ->
             PyStr.all_space r = true ->
             PyStr.isspace a = false ->
             PyStr.strip (l ++ String a r) = String a "")
      /\ (forall l r mid a b,
             PyStr.all_space l = true ->
             PyStr.all_space r = true ->
             PyStr.isspace a = false ->
             PyStr.isspace b = false ->
             PyStr.strip (l ++ String a (mid ++ String b r))
             = String a (mid ++ String b "")))
  /\ (forall cols kinds r,
         let cells := map (fun q => blank_to_nan (loc cols q (Timed.raw r)))
                          (question_cols cols) in
         let vals := map (fun p => handed (common_dtype kinds) (fst p) (snd p))
                         (combine kinds cells) in
         Wide.DK_count (classify cols kinds r)
         = Z.of_nat (List.length (filter is_dk vals))
         /\ Wide.RF_count (classify cols kinds r)
            = Z.of_nat (List.length (filter is_rf vals))
         /\ Wide.NA_count (classify cols kinds r)
            = Z.of_nat (List.length (filter is_na vals)))
  /\ map (fun v => (is_dk v, is_rf v, is_na v))
         [Py.str "197"; Py.str "199"; Py.str "198"; Py.str "97";
          Py.str "1997"; Py.str " 97 "; Py.str "97 x";
          Py.int 197; Py.int 199; Py.int 198; Py.int 97; Py.int 1997]
     = [(true, false, false); (false, true, false); (false, false, true);
        (true, false, false); (true, false, false); (true, false, false);
        (false, false, false);
        (true, false, false); (false, true, false); (false, false, true);
        (true, false, false); (true, false, false)]
  /\ (handed float64 float64 (Int 197) = Py.float 197
      /\ handed float64 int64 (Int 197) = Py.float 197
      /\ handed object float64 (Int 197) = Py.float 197
      /\ py_str (Py.float 197) = "197.0"
      /\ is_dk (Py.float 197) = false)
  /\ (exists rep,
         @run iso_pandas Scenario.skipped_answer = Ok rep
         /\ map Long.questions (long_df rep) = [[Int 197]; [NaN]]
         /\ map Long.DK_count (long_df rep) = [0; 0])
  /\ (exists rep,
         @run iso_pandas_3 Scenario.skipped_answer = Ok rep
         /\ map Long.DK_count (long_df rep) = [0; 0])
  /\ (exists rep,
         @run iso_pandas Scenario.beside_empty = Ok rep
         /\ map Long.questions (long_df rep) = [[Int 197; NaN]]
         /\ map Long.DK_count (long_df rep) = [0])
  /\ (exists rep,
         @run iso_pandas Scenario.half_hour = Ok rep
         /\ map Long.questions (long_df rep) = [[Int 197]]
         /\ map Long.DK_count (long_df rep) = [1])
  /\ (exists rep,
         @run iso_pandas Scenario.beside_text = Ok rep
         /\ map (fun r => (Long.DK_count r, Long.RF_count r, Long.NA_count r))
                (long_df rep)
            = [(1, 1, 1)])
  /\ (exists rep,
         @run iso_pandas Scenario.codes = Ok rep
         /\ map (fun r => (Long.DK_count r, Long.RF_count r, Long.NA_count r,
                           Long.questions_answered r))
                (long_df rep)
            = [(3, 1, 1, 6)]).
Proof.
  split.
  { intros s Hs. simpl. apply all_space_iff in Hs. now rewrite Hs. }
  split.
  { intros common kind. split; [reflexivity | intros s; reflexivity]. }
  split; [repeat split|].
  split.
  { intros v Hv. unfold is_dk, is_rf, is_na.
    repeat split; try (apply (suffix_test v); assumption);
      apply (suffix_test v); assumption. }
  split.
  { split; [|split; [exact strip_spec_one | exact strip_spec]].
    intros s Hs. unfold PyStr.strip. now rewrite (lstrip_all_space s Hs). }
  split.
  { intros cols kinds r cells vals.
    destruct (classify_counts cols kinds r) as [_ H]. exact H. }
  split; [vm_compute; reflexivity|].
  split; [vm_compute; repeat split|].
  split.
  { eexists. split; [vm_compute; reflexivity|]. split; reflexivity. }
  split.
  { eexists. split; [vm_compute; reflexivity|]. reflexivity. }
  split.
  { eexists. split; [vm_compute; reflexivity|]. split; reflexivity. }
  split.
  { eexists. split; [vm_compute; reflexivity|]. split; reflexivity. }
  split.
  { eexists. split; [vm_compute; reflexivity|]. reflexivity. }
  eexists. split; [vm_compute; reflexivity|]. reflexivity.
Qed.

(** * Duration *)

Lemma quot_toward_zero (a b : Z) :
  0 < b ->
  (0 <= a -> 0 <= Z.quot a b * b <= a /\ a < (Z.quot a b + 1) * b)
  /\ (a <= 0 -> (Z.quot a b - 1) * b < a /\ a <= Z.quot a b * b <= 0).
Proof.
  intros Hb.
  pose proof (Z.quot_rem' a b) as Hqr.
  split; intros Ha.
  - pose proof (Z.rem_bound_pos a b Ha Hb).
    pose proof (Z.quot_pos a b Ha Hb). nia.
  - pose proof (Z.rem_bound_pos_neg a b Hb Ha) as Hr.
    assert (Z.quot a b <= 0).
    { rewrite <- (Z.opp_involutive a). rewrite Z.quot_opp_l by lia.
      pose proof (Z.quot_pos (- a) b). lia. }
    nia.
Qed.

Lemma minutes_sign (td : Z) :
  (60000000000 <= td -> 1 <= minutes td)
  /\ (td <= - 60000000000 -> minutes td <= - 1).
Proof.
  assert (P : forall t, 60000000000 <= t -> 1 <= minutes t).
  { intros t Ht. destruct (Z_lt_le_dec t (2 ^ 52)) as [Hs|Hs].
    - rewrite minutes_small by lia.
      apply (Z.div_le_lower_bound t 60000000000 1); lia.
    - now apply minutes_large. }
  split; intros H; [now apply P|].
  pose proof (P (- td) ltac:(lia)) as HP. rewrite minutes_opp in HP. lia.
Qed.

Lemma timedelta_fits (s e : Z) :
  - 2 ^ 63 < e - s < 2 ^ 63 -> timedelta s e = Ok (e - s).
Proof.
  change (2 ^ 63) with 9223372036854775808. intros H. unfold timedelta.
  cbv zeta.
  destruct (Z.ltb_spec (- 9223372036854775808) (e - s)); [|lia].
  destruct (Z.ltb_spec (e - s) 9223372036854775808); [|lia].
  reflexivity.
Qed.

Lemma timedelta_overflow (s e : Z) :
  ~ (- 2 ^ 63 < e - s < 2 ^ 63) ->
  timedelta s e = Raise (OverflowError "Overflow in int64 addition").
Proof.
  change (2 ^ 63) with 9223372036854775808. intros H. unfold timedelta.
  cbv zeta.
  destruct (Z.ltb_spec (- 9223372036854775808) (e - s));
    destruct (Z.ltb_spec (e - s) 9223372036854775808);
    try reflexivity; lia.
Qed.

Lemma collect_inv {A : Type} (l : list (result A)) (r : list A) :
  collect l = Ok r -> l = map Ok r.
Proof.
  revert r. induction l as [|m l IH]; intros r H; simpl in H.
  - injection H as <-. reflexivity.
  - destruct m as [a|e]; simpl in H; [|discriminate].
    destruct (collect l) as [rest|e] eqn:E; simpl in H; [|discriminate].
    injection H as <-. simpl. now rewrite (IH rest eq_refl).
Qed.

Lemma collect_raise {A : Type} (l : list (result A)) (e : error) :
  (forall e', In (Raise e') l -> e' = e) ->
  (exists e', In (Raise e') l) ->
  collect l = Raise e.
Proof.
  induction l as [|m l IH]; intros Hall [e' Hin]; [destruct Hin|].
  simpl. destruct m as [a|e0]; simpl.
  - rewrite IH; [reflexivity | | ].
    + intros e1 H1. apply Hall. now right.
    + destruct Hin as [Hin|Hin]; [discriminate | now exists e'].
  - f_equal. apply Hall. now left.
Qed.

Section Durations.

Context {pandas : Pandas}.

Lemma time_row_parses (cols : list string) (row : list cell) :
  match time_row cols row with Some _ => true | None => false end
  = parses cols row.
Proof.
  unfold time_row, parses.
  destruct (to_datetime (loc cols "StartTime_TS" row));
    destruct (to_datetime (loc cols "EndTime_TS" row)); reflexivity.
Qed.

Lemma time_row_fits (cols : list string) (row : list cell) (s e : Z) :
  to_datetime (loc cols "StartTime_TS" row) = Some s ->
  to_datetime (loc cols "EndTime_TS" row) = Some e ->
  - 2 ^ 63 < e - s < 2 ^ 63 ->
  time_row cols row
  = Some (Ok {| Timed.raw := row;
                Timed.Start_dt := s;
                Timed.End_dt := e;
                Timed.duration_minutes := minutes (e - s);
                Timed.duration_display
                  := PyStr.of_Z (minutes (e - s)) ++ " min" |}).
Proof.
  intros Hs He Hfit. unfold time_row, minutes_between.
  now rewrite Hs, He, (timedelta_fits s e Hfit).
Qed.

Lemma time_row_overflow (cols : list string) (row : list cell) (s e : Z) :
  to_datetime (loc cols "StartTime_TS" row) = Some s ->
  to_datetime (loc cols "EndTime_TS" row) = Some e ->
  ~ (- 2 ^ 63 < e - s < 2 ^ 63) ->
  time_row cols row
  = Some (Raise (OverflowError "Overflow in int64 addition")).
Proof.
  intros Hs He Hfit. unfold time_row, minutes_between.
  now rewrite Hs, He, (timedelta_overflow s e Hfit).
Qed.

Lemma time_row_cases (cols : list string) (row : list cell) :
  (parses cols row = false /\ time_row cols row = None)
  \/ (parses cols row = true /\ overflows cols row = true
      /\ time_row cols row
         = Some (Raise (OverflowError "Overflow in int64 addition")))
  \/ (parses cols row = true /\ overflows cols row = false
      /\ exists r, time_row cols row = Some (Ok r) /\ Timed.raw r = row).
Proof.
  unfold parses, overflows.
  destruct (to_datetime (loc cols "StartTime_TS" row)) as [s|] eqn:Hs;
    [|left; split; [reflexivity | unfold time_row; now rewrite Hs]].
  destruct (to_datetime (loc cols "EndTime_TS" row)) as [e|] eqn:He;
    [|left; split; [reflexivity | unfold time_row; now rewrite Hs, He]].
  right.
  destruct ((- 9223372036854775808 <? e - s)
            && (e - s <? 9223372036854775808)) eqn:E.
  - right. split; [reflexivity|]. split; [reflexivity|].
    apply andb_true_iff in E. destruct E as [E1 E2].
    apply Z.ltb_lt in E1, E2.
    eexists. split; [apply (time_row_fits cols row s e Hs He)|reflexivity].
    change (2 ^ 63) with 9223372036854775808. lia.
  - left. split; [reflexivity|]. split; [reflexivity|].
    apply (time_row_overflow cols row s e Hs He).
    change (2 ^ 63) with 9223372036854775808. intros [H1 H2].
    apply andb_false_iff in E. destruct E as [E|E]; apply Z.ltb_ge in E; lia.
Qed.

(** The time stage completes when no retained row overflows, with the rows
    whose timestamps parse, in their order. *)
Lemma time_stage_completes (cols : list string) (rws : list (list cell)) :
  (forall row, In row rws -> overflows cols row = false) ->
  exists timed,
    time_stage cols rws = Ok timed
    /\ map Timed.raw timed = filter (parses cols) rws.
Proof.
  unfold time_stage. induction rws as [|row rws IH]; intros H.
  - exists []. split; reflexivity.
  - destruct IH as [timed [Ht Hraw]]; [intros r Hr; apply H; now right|].
    simpl filter_map. simpl filter.
    destruct (time_row_cases cols row)
      as [[Hp Hr]|[[Hp [Ho Hr]]|[Hp [Ho [r [Hr Hraw']]]]]]; rewrite Hr, Hp.
    + exists timed. split; assumption.
    + rewrite (H row (or_introl eq_refl)) in Ho. discriminate.
    + exists (r :: timed). simpl. rewrite Ht. simpl.
      split; [reflexivity | now rewrite Hraw', Hraw].
Qed.

Lemma time_stage_overflows (cols : list string) (rws : list (list cell)) :
  (exists row, In row rws /\ overflows cols row = true) ->
  time_stage cols rws = Raise (OverflowError "Overflow in int64 addition").
Proof.
  intros [row [Hin Ho]]. unfold time_stage. apply collect_raise.
  - intros e' He'. apply in_filter_map in He'. destruct He' as [r [_ Hr]].
    destruct (time_row_cases cols r)
      as [[_ H]|[[_ [_ H]]|[_ [_ [t [H _]]]]]]; rewrite H in Hr;
      try discriminate.
    now injection Hr as <-.
  - exists (OverflowError "Overflow in int64 addition").
    apply in_filter_map. exists row. split; [exact Hin|].
    destruct (time_row_cases cols row)
      as [[Hp H]|[[_ [_ H]]|[_ [Ho' _]]]]; [|exact H | congruence].
    unfold parses in Hp. unfold overflows in Ho.
    destruct (to_datetime (loc cols "StartTime_TS" row));
      [|discriminate].
    destruct (to_datetime (loc cols "EndTime_TS" row)); discriminate.
Qed.

Lemma time_stage_rows (cols : list string) (rws : list (list cell))
  (timed : list Timed.t) :
  time_stage cols rws = Ok timed ->
  map Timed.raw timed = filter (parses cols) rws
  /\ (forall row, In row rws -> overflows cols row = false)
  /\ forall t,
      In t timed ->
      In (Timed.raw t) rws
      /\ to_datetime (loc cols "StartTime_TS" (Timed.raw t))
         = Some (Timed.Start_dt t)
      /\ to_datetime (loc cols "EndTime_TS" (Timed.raw t))
         = Some (Timed.End_dt t)
      /\ Timed.duration_minutes t
         = minutes (Timed.End_dt t - Timed.Start_dt t).
Proof.
  intros H.
  assert (Hno : forall row, In row rws -> overflows cols row = false).
  { intros row Hin. destruct (overflows cols row) eqn:E; [|reflexivity].
    rewrite (time_stage_overflows cols rws) in H; [discriminate|].
    now exists row. }
  destruct (time_stage_completes cols rws Hno) as [timed' [Ht Hraw]].
  rewrite H in Ht. injection Ht as <-.
  split; [exact Hraw|]. split; [exact Hno|].
  intros t Hin. unfold time_stage in H. apply collect_inv in H.
  assert (Hok : In (Ok t) (filter_map (time_row cols) rws))
    by (rewrite H; now apply in_map).
  apply in_filter_map in Hok. destruct Hok as [row [Hrow Hr]].
  unfold time_row in Hr.
  destruct (to_datetime (loc cols "StartTime_TS" row)) as [s|] eqn:Hs;
    [|discriminate].
  destruct (to_datetime (loc cols "EndTime_TS" row)) as [e|] eqn:He;
    [|discriminate].
  unfold minutes_between in Hr.
  destruct (timedelta s e) as [td|] eqn:Etd; simpl in Hr; [|discriminate].
  injection Hr as <-. simpl.
  assert (td = e - s).
  { unfold timedelta in Etd. cbv zeta in Etd.
    destruct ((- 9223372036854775808 <? e - s)
              && (e - s <? 9223372036854775808)); [|discriminate].
    now injection Etd as <-. }
  subst td. repeat split; assumption.
Qed.

(** C2, amended. A row whose two timestamps parse less than [2 ^ 52]
    nanoseconds (fifty-two days) apart is retained, and its
    [duration_minutes] is the elapsed time (nanoseconds here, so sixty
    thousand million to the minute) divided by a minute and truncated toward
    zero, negative elapsed time included.  Whenever the difference fits in
    an int64 the row is retained with the float quotient truncated: its
    duration is that of the swapped pair with the sign changed, it is zero
    exactly when the two are less than a minute apart, and it has the sign
    of the elapsed time.  When the difference does not fit, the subtraction
    raises [OverflowError] and the script stops.  From 10:00:00 to 10:29:45
    the duration is 29, and with the two swapped it is -29. *)
Theorem duration_truncates_toward_zero :
  (forall cols row s e,
      to_datetime (loc cols "StartTime_TS" row) = Some s ->
      to_datetime (loc cols "EndTime_TS" row) = Some e ->
      - 2 ^ 52 < e - s < 2 ^ 52 ->
      exists r,
        time_row cols row = Some (Ok r)
        /\ Timed.raw r = row
        /\ Timed.Start_dt r = s /\ Timed.End_dt r = e
        /\ Timed.duration_minutes r = Z.quot (e - s) 60000000000
        /\ (0 <= e - s ->
            0 <= Timed.duration_minutes r * 60000000000 <= e - s
            /\ e - s < (Timed.duration_minutes r + 1) * 60000000000)
        /\ (e - s <= 0 ->
            (Timed.duration_minutes r - 1) * 60000000000 < e - s
            /\ e - s <= Timed.duration_minutes r * 60000000000 <= 0))
  /\ (forall cols row s e,
         to_datetime (loc cols "StartTime_TS" row) = Some s ->
         to_datetime (loc cols "EndTime_TS" row) = Some e ->
         - 2 ^ 63 < e - s < 2 ^ 63 ->
         exists r,
           time_row cols row = Some (Ok r)
           /\ Timed.duration_minutes r
              = Qtrunc (F64.div (F64.div (F64.of_Z (e - s)) 1000000000) 60)
           /\ minutes_between e s = Ok (- Timed.duration_minutes r)
           /\ (Timed.duration_minutes r = 0
               <-> - 60000000000 < e - s < 60000000000)
           /\ (60000000000 <= e - s -> 1 <= Timed.duration_minutes r)
           /\ (e - s <= - 60000000000 -> Timed.duration_minutes r <= - 1))
  /\ (forall cols row s e,
         to_datetime (loc cols "StartTime_TS" row) = Some s ->
         to_datetime (loc cols "EndTime_TS" row) = Some e ->
         ~ (- 2 ^ 63 < e - s < 2 ^ 63) ->
         time_row cols row
         = Some (Raise (OverflowError "Overflow in int64 addition"))
         /\ forall df,
             columns df = cols ->
             In "StartTime_TS" cols ->
             In "EndTime_TS" cols ->
             In row (rows df) ->
             run df = Raise (OverflowError "Overflow in int64 addition"))
  /\ (exists rep,
         @run iso_pandas Scenario.half_hour = Ok rep
         /\ map Check.duration_minutes (duration_check rep) = [29]
         /\ map Long.duration_minutes (long_df rep) = [29])
  /\ (exists rep,
         @run iso_pandas Scenario.backwards = Ok rep
         /\ map Check.duration_minutes (duration_check rep) = [-29])
  /\ @run iso_pandas Scenario.far_apart
     = Raise (OverflowError "Overflow in int64 addition").
Proof.
  split.
  { intros cols row s e Hs He Hb.
    assert (Hfit : - 2 ^ 63 < e - s < 2 ^ 63).
    { change (2 ^ 63) with 9223372036854775808.
      change (2 ^ 52) with 4503599627370496 in Hb. lia. }
    eexists. split; [apply (time_row_fits cols row s e Hs He Hfit)|].
    simpl. rewrite (minutes_quot (e - s) Hb).
    repeat split; try apply (quot_toward_zero (e - s) 60000000000);
      try lia; try assumption. }
  split.
  { intros cols row s e Hs He Hfit.
    eexists. split; [apply (time_row_fits cols row s e Hs He Hfit)|].
    simpl. split; [reflexivity|]. split.
    - unfold minutes_between. rewrite timedelta_fits by lia. simpl.
      rewrite <- minutes_opp. do 2 f_equal. lia.
    - split; [apply minutes_zero | apply minutes_sign]. }
  split.
  { intros cols row s e Hs He Hover.
    split; [apply (time_row_overflow cols row s e Hs He Hover)|].
    intros df Hcols Hst Hen Hin. apply has_label_in in Hst, Hen.
    unfold run, script, require. rewrite Hcols, Hst, Hen.
    simpl bind. rewrite time_stage_overflows; [reflexivity|].
    exists row. split; [exact Hin|]. unfold overflows. rewrite Hs, He.
    destruct (Z.ltb_spec (- 9223372036854775808) (e - s)) as [H1|H1];
      [|reflexivity].
    destruct (Z.ltb_spec (e - s) 9223372036854775808) as [H2|H2];
      [|reflexivity].
    exfalso. apply Hover. change (2 ^ 63) with 9223372036854775808. lia. }
  split.
  { eexists. split; [vm_compute; reflexivity|]. split; reflexivity. }
  split.
  { eexists. split; [vm_compute; reflexivity|]. reflexivity. }
  vm_compute. reflexivity.
Qed.

End Durations.

(** C2 as the specification words it fails: from the epoch to a nanosecond
    short of 200000 minutes later the elapsed time truncates to 199999
    minutes, and the script gives 200000: the nanoseconds, above [2 ^ 53],
    are rounded on conversion to a float. *)
Lemma truncation_fails_on_rounded_up :
  exists rep,
    @run iso_pandas Scenario.rounded_up = Ok rep
    /\ map (fun c => (Check.Start_dt c, Check.End_dt c)) (duration_check rep)
       = [(0, 11999999999999999)]
    /\ Z.quot (11999999999999999 - 0) 60000000000 = 199999
    /\ (199999 * 60000000000 <= 11999999999999999 - 0
        < 200000 * 60000000000)
    /\ map Check.duration_minutes (duration_check rep) = [200000]
    /\ map Check.duration_minutes (duration_check rep)
       <> [Z.quot (11999999999999999 - 0) 60000000000].
Proof.
  eexists. split; [vm_compute; reflexivity|].
  split; [reflexivity|]. split; [reflexivity|]. split; [lia|].
  split; [reflexivity|]. vm_compute. discriminate.
Qed.

(** The row of [Scenario.half_hour] under [iso_pandas]. *)
Lemma duration_truncates_toward_zero_witness :
  exists r,
    @time_row iso_pandas (columns Scenario.half_hour)
      [Int 1; Scenario.t0; Scenario.t1; Int 7; Str "Asha"; Int 197]
    = Some (Ok r)
    /\ Timed.duration_minutes r = 29.
Proof.
  destruct (proj1 (@duration_truncates_toward_zero iso_pandas)
              (columns Scenario.half_hour)
              [Int 1; Scenario.t0; Scenario.t1; Int 7; Str "Asha"; Int 197]
              1704103200000000000 1704104985000000000
              ltac:(vm_compute; reflexivity) ltac:(vm_compute; reflexivity)
              ltac:(vm_compute; split; reflexivity))
    as [r [Hr [_ [_ [_ [Hd _]]]]]].
  exists r. split; [exact Hr|]. rewrite Hd. reflexivity.
Defined.

(** * Rows whose timestamps do not parse *)

Section Dropped.

Context {pandas : Pandas}.

Lemma script_ok (dtype_of : string -> dtype) (cols : list string)
  (rws : list (list cell)) (rep : Report) :
  script dtype_of cols rws = Ok rep ->
  exists timed,
    has_label "StartTime_TS" cols = true
    /\ has_label "EndTime_TS" cols = true
    /\ has_label "ID" cols = true
    /\ time_stage cols rws = Ok timed
    /\ timed <> []
    /\ duration_check rep = map (check_row cols) timed
    /\ pd_concat (all_interviewer_data cols
                    (map (classify cols (question_dtypes dtype_of cols timed))
                         timed))
       = Ok (long_df rep)
    /\ final_df rep = summarize (long_df rep)
    /\ summary_shown rep = select "" shown_columns (final_df rep)
    /\ workbook rep = to_excel "Interviewer Stats" (final_df rep)
    /\ total_shown rep = Z.of_nat (List.length timed)
    /\ overall_average_shown rep
       = round2_str (mean (map Timed.duration_minutes timed)).
Proof.
  unfold script, bind, require. intros H.
  destruct (has_label "StartTime_TS" cols); [|discriminate].
  destruct (has_label "EndTime_TS" cols); [|discriminate].
  destruct (time_stage cols rws) as [timed|]; [|discriminate].
  destruct (has_label "ID" cols); [|discriminate].
  destruct (pd_concat _) as [long|] eqn:Hlong; [|discriminate].
  exists timed. destruct timed as [|t timed]; [discriminate|].
  simpl overall_average in H. injection H as <-. simpl.
  repeat split; try assumption; discriminate.
Qed.

Lemma run_ok (df : DataFrame) (rep : Report) :
  run df = Ok rep ->
  let cols := columns df in
  let dtype_of := loaded_dtype cols (rows df) in
  exists timed,
    has_label "StartTime_TS" cols = true
    /\ has_label "EndTime_TS" cols = true
    /\ has_label "ID" cols = true
    /\ time_stage cols (rows df) = Ok timed
    /\ timed <> []
    /\ duration_check rep = map (check_row cols) timed
    /\ pd_concat (all_interviewer_data cols
                    (map (classify cols (question_dtypes dtype_of cols timed))
                         timed))
       = Ok (long_df rep)
    /\ final_df rep = summarize (long_df rep)
    /\ summary_shown rep = select "" shown_columns (final_df rep)
    /\ workbook rep = to_excel "Interviewer Stats" (final_df rep)
    /\ total_shown rep = Z.of_nat (List.length timed)
    /\ overall_average_shown rep
       = round2_str (mean (map Timed.duration_minutes timed)).
Proof. intros H. exact (script_ok _ _ _ rep H). Qed.

(** The script looks at the dtypes of the question columns only. *)
Lemma script_ext (d1 d2 : string -> dtype) (cols : list string)
  (rws : list (list cell)) :
  (forall q, In q (question_cols cols) -> d1 q = d2 q) ->
  script d1 cols rws = script d2 cols rws.
Proof.
  intros H. unfold script.
  assert (E : forall timed,
             question_dtypes d1 cols timed = question_dtypes d2 cols timed).
  { intros timed. unfold question_dtypes. apply map_ext_in.
    intros q Hq. now rewrite (H q Hq). }
  destruct (require cols "StartTime_TS"); [|reflexivity].
  destruct (require cols "EndTime_TS"); [|reflexivity].
  simpl. destruct (time_stage cols rws) as [timed|]; [|reflexivity].
  simpl. now rewrite (E timed).
Qed.

(** C3. A start or end that does not parse gives a missing outcome, not an
    error; the row is removed by the time stage, and the whole result of the
    script (duration check, long table, summary, export, closing lines, or
    the exception raised) is the one obtained from the rows without it, in
    a frame with the same column dtypes: it is the result for the table
    without that row whenever the two tables have the same dtypes in their
    question columns; every row of the duration check comes from an input
    row whose two timestamps parse. *)
Theorem unparseable_rows_are_dropped :
  (forall cols row,
      to_datetime (loc cols "StartTime_TS" row) = None
      \/ to_datetime (loc cols "EndTime_TS" row) = None ->
      time_row cols row = None)
  /\ (forall cols pre row post,
         to_datetime (loc cols "StartTime_TS" row) = None
         \/ to_datetime (loc cols "EndTime_TS" row) = None ->
         time_stage cols (pre ++ row :: post)%list
         = time_stage cols (pre ++ post)%list)
  /\ (forall dtype_of cols pre row post,
         to_datetime (loc cols "StartTime_TS" row) = None
         \/ to_datetime (loc cols "EndTime_TS" row) = None ->
         script dtype_of cols (pre ++ row :: post)%list
         = script dtype_of cols (pre ++ post)%list)
  /\ (forall cols pre row post,
         to_datetime (loc cols "StartTime_TS" row) = None
         \/ to_datetime (loc cols "EndTime_TS" row) = None ->
         run {| columns := cols; rows := (pre ++ row :: post)%list |}
         = script (loaded_dtype cols (pre ++ row :: post)%list) cols
                  (pre ++ post)%list)
  /\ (forall cols pre row post,
         to_datetime (loc cols "StartTime_TS" row) = None
         \/ to_datetime (loc cols "EndTime_TS" row) = None ->
         (forall q, In q (question_cols cols) ->
                    loaded_dtype cols (pre ++ row :: post)%list q
                    = loaded_dtype cols (pre ++ post)%list q) ->
         run {| columns := cols; rows := (pre ++ row :: post)%list |}
         = run {| columns := cols; rows := (pre ++ post)%list |})
  /\ (forall df rep,
         run df = Ok rep ->
         List.length (duration_check rep)
         = List.length (filter (parses (columns df)) (rows df))
         /\ forall c,
             In c (duration_check rep) ->
             exists row,
               In row (rows df)
               /\ to_datetime (loc (columns df) "StartTime_TS" row)
                  = Some (Check.Start_dt c)
               /\ to_datetime (loc (columns df) "EndTime_TS" row)
                  = Some (Check.End_dt c)).
Proof.
  assert (Hrow : forall cols row,
             to_datetime (loc cols "StartTime_TS" row) = None
             \/ to_datetime (loc cols "EndTime_TS" row) = None ->
             time_row cols row = None).
  { intros cols row [H|H]; unfold time_row; rewrite H; [reflexivity|].
    destruct (to_datetime (loc cols "StartTime_TS" row)); reflexivity. }
  assert (Hstage : forall cols pre row post,
             to_datetime (loc cols "StartTime_TS" row) = None
             \/ to_datetime (loc cols "EndTime_TS" row) = None ->
             time_stage cols (pre ++ row :: post)%list
             = time_stage cols (pre ++ post)%list).
  { intros cols pre row post H. unfold time_stage.
    rewrite !filter_map_app. simpl. now rewrite (Hrow cols row H). }
  assert (Hscript : forall dtype_of cols pre row post,
             to_datetime (loc cols "StartTime_TS" row) = None
             \/ to_datetime (loc cols "EndTime_TS" row) = None ->
             script dtype_of cols (pre ++ row :: post)%list
             = script dtype_of cols (pre ++ post)%list).
  { intros dtype_of cols pre row post H. unfold script.
    now rewrite (Hstage cols pre row post H). }
  split; [exact Hrow|]. split; [exact Hstage|]. split; [exact Hscript|].
  split; [|split].
  - intros cols pre row post H. unfold run. simpl columns. simpl rows.
    now apply Hscript.
  - intros cols pre row post H Hd. unfold run. simpl columns. simpl rows.
    rewrite (Hscript _ cols pre row post H). now apply script_ext.
  - intros df rep Hrun. apply run_ok in Hrun.
    destruct Hrun as [timed [_ [_ [_ [Ht [_ [Hchk _]]]]]]].
    apply time_stage_rows in Ht. destruct Ht as [Hraw [_ Hrows]].
    rewrite Hchk. split.
    + rewrite length_map, <- Hraw, length_map. reflexivity.
    + intros c Hc. apply in_map_iff in Hc. destruct Hc as [t [<- Ht]].
      exists (Timed.raw t). simpl.
      destruct (Hrows t Ht) as [H1 [H2 [H3 _]]]. repeat split; assumption.
Qed.

End Dropped.

(** [Scenario.two_roles], whose second row has the start "yesterday", gives
    what the table without that row gives. *)
Lemma unparseable_rows_are_dropped_witness :
  @run iso_pandas Scenario.two_roles
  = @run iso_pandas Scenario.two_roles_kept.
Proof.
  refine (proj1 (proj2 (proj2 (proj2 (proj2
            (@unparseable_rows_are_dropped iso_pandas)))))
           (columns Scenario.two_roles)
           [[Int 1; Scenario.t0; Scenario.t1; Int 7; Str "Asha"; Int 8;
             Str "Bina"; Int 1; Str " "]]
           [Int 2; Str "yesterday"; Scenario.t1; Int 7; Str "Asha"; Int 8;
            Str "Bina"; Int 1; Int 2]
           [[Int 3; Scenario.t0; Scenario.t1; Int 8; Str "Bina"; Int 7;
             Str "Asha"; Int 97; Int 2]]
           (or_introl eq_refl) _).
  intros q Hq. vm_compute in Hq.
  destruct Hq as [<-|[<-|[]]]; reflexivity.
Defined.

(** * The loop over the roles *)

Lemma id_col_not_empty (cols : list string) (c : string) :
  In c (interviewer_id_cols cols) -> c <> "".
Proof.
  unfold interviewer_id_cols. intros H. apply filter_In in H.
  destruct H as [_ H]. intros ->. discriminate H.
Qed.

Lemma paired_is_truthy (cols : list string) (nm c : string) :
  paired_id_col cols nm = Some c -> truthy (Some c) = true.
Proof.
  unfold paired_id_col, find_id_col. intros H. apply find_some in H.
  destruct H as [H _]. apply id_col_not_empty in H.
  destruct c; [congruence | reflexivity].
Qed.

Lemma role_frames_paired (cols : list string) (df : list Wide.t)
  (nm c : string) :
  paired_id_col cols nm = Some c ->
  role_frames cols df nm = [map (temp_row cols c nm) df].
Proof.
  intros H. unfold role_frames. fold (paired_id_col cols nm).
  rewrite H, (paired_is_truthy cols nm c H). reflexivity.
Qed.

Lemma role_frames_unpaired (cols : list string) (df : list Wide.t)
  (nm : string) :
  paired_id_col cols nm = None -> role_frames cols df nm = [].
Proof.
  intros H. unfold role_frames. fold (paired_id_col cols nm).
  rewrite H. reflexivity.
Qed.

Lemma frames_of_paired (cols : list string) (df : list Wide.t)
  (names : list string) :
  (forall nm, In nm names -> paired_id_col cols nm <> None) ->
  flat_map (role_frames cols df) names
  = map (fun nm =>
           map (temp_row cols
                  (match paired_id_col cols nm with
                   | Some c => c
                   | None => ""
                   end) nm) df) names.
Proof.
  induction names as [|nm names IH]; intros H; simpl; [reflexivity|].
  destruct (paired_id_col cols nm) as [c|] eqn:Hc.
  - rewrite (role_frames_paired cols df nm c Hc). simpl.
    rewrite IH; [reflexivity|]. intros n Hn. apply H. now right.
  - exfalso. apply (H nm); [now left | exact Hc].
Qed.

Lemma concat_blocks_length {A B C : Type} (g : A -> B -> C)
  (names : list A) (l : list B) :
  List.length (List.concat (map (fun a => map (g a) l) names))
  = (List.length l * List.length names)%nat.
Proof.
  induction names as [|a names IH]; simpl; [lia|].
  rewrite length_app, length_map, IH. lia.
Qed.


Lemma frames_skip_unpaired (cols : list string) (df : list Wide.t)
  (names : list string) :
  flat_map (role_frames cols df) names
  = flat_map (role_frames cols df)
      (filter (fun nm => match paired_id_col cols nm with
                         | Some _ => true
                         | None => false
                         end) names).
Proof.
  induction names as [|nm names IH]; simpl; [reflexivity|].
  destruct (paired_id_col cols nm) as [c|] eqn:Hc; simpl.
  - now rewrite IH.
  - now rewrite (role_frames_unpaired cols df nm Hc).
Qed.

Lemma paired_name_cols_nil (cols : list string) :
  paired_name_cols cols = [] <->
  (forall nm, In nm (interviewer_name_cols cols) ->
              paired_id_col cols nm = None).
Proof.
  unfold paired_name_cols. split.
  - intros H nm Hnm.
    destruct (paired_id_col cols nm) as [c|] eqn:E; [|reflexivity].
    assert (Hin : In nm (filter
                           (fun nm => match paired_id_col cols nm with
                                      | Some _ => true
                                      | None => false
                                      end) (interviewer_name_cols cols))).
    { apply filter_In. split; [exact Hnm | now rewrite E]. }
    rewrite H in Hin. destruct Hin.
  - intros H. induction (interviewer_name_cols cols) as [|nm l IH];
      simpl; [reflexivity|].
    rewrite (H nm (or_introl eq_refl)). apply IH.
    intros n Hn. apply H. now right.
Qed.

Lemma paired_name_cols_paired (cols : list string) (nm : string) :
  In nm (paired_name_cols cols) -> paired_id_col cols nm <> None.
Proof.
  unfold paired_name_cols. intros H. apply filter_In in H.
  destruct H as [_ H]. destruct (paired_id_col cols nm); discriminate.
Qed.

Lemma frames_of_table (cols : list string) (df : list Wide.t) :
  all_interviewer_data cols df
  = map (fun nm =>
           map (temp_row cols
                  (match paired_id_col cols nm with
                   | Some c => c
                   | None => ""
                   end) nm) df) (paired_name_cols cols).
Proof.
  unfold all_interviewer_data. rewrite frames_skip_unpaired.
  apply frames_of_paired. intros nm Hnm.
  now apply paired_name_cols_paired.
Qed.

Lemma long_length (cols : list string) (df : list Wide.t) :
  List.length (List.concat (all_interviewer_data cols df))
  = (List.length df * List.length (paired_name_cols cols))%nat.
Proof. rewrite frames_of_table. apply concat_blocks_length. Qed.

Lemma pd_concat_ok {A : Type} (objs : list (list A)) (l : list A) :
  pd_concat objs = Ok l -> objs <> [] /\ l = List.concat objs.
Proof.
  destruct objs as [|x objs]; simpl; [discriminate|].
  intros H. injection H as <-. split; [discriminate | reflexivity].
Qed.

Lemma frames_not_empty (cols : list string) (df : list Wide.t) :
  paired_name_cols cols <> [] -> all_interviewer_data cols df <> [].
Proof.
  intros H. rewrite frames_of_table.
  destruct (paired_name_cols cols); [congruence | discriminate].
Qed.

Lemma frames_empty (cols : list string) (df : list Wide.t) :
  paired_name_cols cols = [] -> all_interviewer_data cols df = [].
Proof. intros H. rewrite frames_of_table, H. reflexivity. Qed.


(** * Outcome of the script *)

Section Outcome.

Context {pandas : Pandas}.

Lemma script_completes (dtype_of : string -> dtype) (cols : list string)
  (rws : list (list cell)) (timed : list Timed.t) :
  has_label "StartTime_TS" cols = true ->
  has_label "EndTime_TS" cols = true ->
  has_label "ID" cols = true ->
  time_stage cols rws = Ok timed ->
  timed <> [] ->
  paired_name_cols cols <> [] ->
  exists rep,
    script dtype_of cols rws = Ok rep
    /\ duration_check rep = map (check_row cols) timed
    /\ long_df rep
       = List.concat
           (all_interviewer_data cols
              (map (classify cols (question_dtypes dtype_of cols timed))
                   timed)).
Proof.
  intros Hs He Hi Ht Hne Hp. unfold script, bind, require.
  rewrite Hs, He, Ht, Hi.
  pose proof (frames_not_empty cols
                (map (classify cols (question_dtypes dtype_of cols timed))
                     timed) Hp) as Hf.
  destruct (all_interviewer_data cols _) as [|f fs] eqn:E; [congruence|].
  destruct timed as [|t timed]; [congruence|].
  simpl pd_concat. simpl overall_average. cbv iota beta.
  eexists. split; [reflexivity|]. split; reflexivity.
Qed.

Lemma script_no_frame (dtype_of : string -> dtype) (cols : list string)
  (rws : list (list cell)) (timed : list Timed.t) :
  has_label "StartTime_TS" cols = true ->
  has_label "EndTime_TS" cols = true ->
  has_label "ID" cols = true ->
  time_stage cols rws = Ok timed ->
  paired_name_cols cols = [] ->
  script dtype_of cols rws = Raise (ValueError "No objects to concatenate").
Proof.
  intros Hs He Hi Ht Hp. unfold script, bind, require.
  rewrite Hs, He, Ht, Hi. now rewrite (frames_empty cols _ Hp).
Qed.

Lemma script_no_row (dtype_of : string -> dtype) (cols : list string)
  (rws : list (list cell)) :
  has_label "StartTime_TS" cols = true ->
  has_label "EndTime_TS" cols = true ->
  has_label "ID" cols = true ->
  time_stage cols rws = Ok [] ->
  paired_name_cols cols <> [] ->
  script dtype_of cols rws
  = Raise (AttributeError "'float' object has no attribute 'round'").
Proof.
  intros Hs He Hi Ht Hp. unfold script, bind, require.
  rewrite Hs, He, Ht, Hi.
  pose proof (frames_not_empty cols
                (map (classify cols (question_dtypes dtype_of cols []))
                     []) Hp) as Hf.
  destruct (all_interviewer_data cols _) as [|f fs] eqn:E; [congruence|].
  reflexivity.
Qed.

Lemma time_stage_nil (cols : list string) (rws : list (list cell)) :
  (forall row, In row rws -> parses cols row = false) ->
  time_stage cols rws = Ok [].
Proof.
  intros H.
  assert (Hf : filter_map (time_row cols) rws = []).
  { induction rws as [|row rws IH]; simpl; [reflexivity|].
    pose proof (time_row_parses cols row) as Hp.
    rewrite (H row (or_introl eq_refl)) in Hp.
    destruct (time_row cols row); [discriminate|].
    apply IH. intros r Hr. apply H. now right. }
  unfold time_stage. now rewrite Hf.
Qed.


End Outcome.

(** * The reshape *)

Section Reshape.

Context {pandas : Pandas}.



End Reshape.

(** * Sorting and grouping *)

Lemma insert_by_perm {A : Type} (leb : A -> A -> bool) (x : A) (l : list A) :
  Permutation (insert_by leb x l) (x :: l).
Proof.
  induction l as [|y l IH]; simpl; [apply Permutation_refl|].
  destruct (leb x y); [apply Permutation_refl|].
  eapply Permutation_trans; [apply perm_skip, IH | apply perm_swap].
Qed.

Lemma sort_by_perm {A : Type} (leb : A -> A -> bool) (l : list A) :
  Permutation (sort_by leb l) l.
Proof.
  induction l as [|x l IH]; simpl; [apply Permutation_refl|].
  eapply Permutation_trans; [apply insert_by_perm | apply perm_skip, IH].
Qed.

Lemma unique_in (l : list cell) (x : cell) : In x (unique l) <-> In x l.
Proof.
  induction l as [|a l IH]; simpl; [reflexivity|].
  rewrite filter_In, IH. split.
  - intros [H|[H _]]; auto.
  - intros [H|H]; [now left|].
    destruct (cell_eqb x a) eqn:E.
    + left. symmetry. now apply cell_eqb_eq.
    + right. split; [exact H | reflexivity].
Qed.

Lemma unique_nodup (l : list cell) : NoDup (unique l).
Proof.
  induction l as [|a l IH]; simpl; constructor.
  - rewrite filter_In. intros [_ H].
    rewrite (proj2 (cell_eqb_eq a a) eq_refl) in H. discriminate.
  - now apply NoDup_filter.
Qed.

Lemma group_keys_in (long : list Long.t) (k : cell) :
  In k (group_keys long) <-> k <> NaN /\ In k (map Long.IntID long).
Proof.
  unfold group_keys. split.
  - intros H. apply (Permutation_in _ (sort_by_perm _ _)) in H.
    apply unique_in, filter_In in H. destruct H as [H1 H2].
    split; [now apply notna_iff | exact H1].
  - intros [H1 H2].
    apply (Permutation_in _ (Permutation_sym (sort_by_perm _ _))).
    apply unique_in, filter_In. split; [exact H2 | now apply notna_iff].
Qed.

Lemma group_keys_nodup (long : list Long.t) : NoDup (group_keys long).
Proof.
  unfold group_keys.
  eapply Permutation_NoDup;
    [apply Permutation_sym, sort_by_perm | apply unique_nodup].
Qed.

Lemma group_rows_in (k : cell) (long : list Long.t) (r : Long.t) :
  In r (group_rows k long) <-> In r long /\ Long.IntID r = k.
Proof. unfold group_rows. now rewrite filter_In, cell_eqb_eq. Qed.

Lemma groupby_agg_ids (long : list Long.t) :
  map Agg.IntID (groupby_agg long) = group_keys long.
Proof.
  unfold groupby_agg. rewrite map_map. simpl. apply map_id.
Qed.

Section Sorting.

Context {pandas : Pandas}.

Lemma keyed_unkeyed_perm (df : list Agg.t) :
  Permutation (map snd (keyed df) ++ unkeyed df)%list df.
Proof.
  unfold keyed, unkeyed. induction df as [|r df IH]; simpl; [constructor|].
  destruct (IntID_sort r); simpl.
  - now apply perm_skip.
  - eapply Permutation_trans;
      [apply Permutation_sym, Permutation_middle | now apply perm_skip].
Qed.

Lemma sort_values_perm (df : list Agg.t) : Permutation (sort_values df) df.
Proof.
  unfold sort_values.
  eapply Permutation_trans; [|apply keyed_unkeyed_perm].
  apply Permutation_app_tail, Permutation_map, sort_by_perm.
Qed.

Lemma summarize_in (long : list Long.t) (s : Stats.t) :
  In s (summarize long) <->
  exists k, In k (group_keys long)
            /\ s = format (agg k (group_rows k long)).
Proof.
  unfold summarize. rewrite in_map_iff. split.
  - intros [a [<- Ha]].
    apply (Permutation_in _ (sort_values_perm _)) in Ha.
    unfold groupby_agg in Ha. apply in_map_iff in Ha.
    destruct Ha as [k [<- Hk]]. now exists k.
  - intros [k [Hk ->]]. eexists. split; [reflexivity|].
    apply (Permutation_in _ (Permutation_sym (sort_values_perm _))).
    unfold groupby_agg. apply in_map_iff. now exists k.
Qed.

Lemma summarize_ids_perm (long : list Long.t) :
  Permutation (map Stats.IntID (summarize long)) (group_keys long).
Proof.
  unfold summarize. rewrite map_map. simpl.
  rewrite <- groupby_agg_ids.
  apply Permutation_map, sort_values_perm.
Qed.

End Sorting.

(** * Aggregates *)

Lemma fold_min_spec (l : list Z) (x : Z) :
  In (fold_left Z.min l x) (x :: l)
  /\ forall d, In d (x :: l) -> fold_left Z.min l x <= d.
Proof.
  revert x. induction l as [|y l IH]; intros x; simpl.
  - split; [now left | intros d [<-|[]]; lia].
  - destruct (IH (Z.min x y)) as [Hin Hle]. split.
    + destruct Hin as [Hin|Hin]; [|now right; right].
      rewrite <- Hin. destruct (Z.min_spec x y) as [[_ ->]|[_ ->]]; auto.
    + intros d Hd.
      assert (fold_left Z.min l (Z.min x y) <= Z.min x y)
        by (apply Hle; now left).
      destruct Hd as [<-|[<-|Hd]]; [lia | lia |].
      apply Hle. now right.
Qed.

Lemma fold_max_spec (l : list Z) (x : Z) :
  In (fold_left Z.max l x) (x :: l)
  /\ forall d, In d (x :: l) -> d <= fold_left Z.max l x.
Proof.
  revert x. induction l as [|y l IH]; intros x; simpl.
  - split; [now left | intros d [<-|[]]; lia].
  - destruct (IH (Z.max x y)) as [Hin Hle]. split.
    + destruct Hin as [Hin|Hin]; [|now right; right].
      rewrite <- Hin. destruct (Z.max_spec x y) as [[_ ->]|[_ ->]]; auto.
    + intros d Hd.
      assert (Z.max x y <= fold_left Z.max l (Z.max x y))
        by (apply Hle; now left).
      destruct Hd as [<-|[<-|Hd]]; [lia | lia |].
      apply Hle. now right.
Qed.

Lemma minimum_spec (l : list Z) :
  l <> [] -> In (minimum l) l /\ forall d, In d l -> minimum l <= d.
Proof. destruct l; [congruence | intros _; apply fold_min_spec]. Qed.

Lemma maximum_spec (l : list Z) :
  l <> [] -> In (maximum l) l /\ forall d, In d l -> d <= maximum l.
Proof. destruct l; [congruence | intros _; apply fold_max_spec]. Qed.



Section Aggregation.

Context {pandas : Pandas}.


End Aggregation.


(** * Order of the summary *)

Lemma insert_by_sorted {A : Type} (leb : A -> A -> bool) :
  (forall a b, leb a b = true \/ leb b a = true) ->
  (forall a b c, leb a b = true -> leb b c = true -> leb a c = true) ->
  forall x l,
    StronglySorted (fun a b => leb a b = true) l ->
    StronglySorted (fun a b => leb a b = true) (insert_by leb x l).
Proof.
  intros Htot Htrans x l. induction l as [|y l IH]; intros Hs; simpl.
  - constructor; constructor.
  - inversion Hs as [|? ? Hl Hy]; subst.
    destruct (leb x y) eqn:E.
    + constructor; [exact Hs|]. constructor; [exact E|].
      eapply Forall_impl; [|exact Hy]. intros z Hz. now apply (Htrans x y z).
    + constructor; [now apply IH|].
      apply (Permutation_Forall (Permutation_sym (insert_by_perm leb x l))).
      constructor; [|exact Hy].
      destruct (Htot x y) as [H|H]; [congruence | exact H].
Qed.

Lemma sort_by_sorted {A : Type} (leb : A -> A -> bool) :
  (forall a b, leb a b = true \/ leb b a = true) ->
  (forall a b c, leb a b = true -> leb b c = true -> leb a c = true) ->
  forall l, StronglySorted (fun a b => leb a b = true) (sort_by leb l).
Proof.
  intros Htot Htrans l. induction l as [|x l IH]; simpl.
  - constructor.
  - now apply insert_by_sorted.
Qed.

Lemma sorted_weaken {A : Type} (R R' : A -> A -> Prop) (l : list A) :
  (forall a b, In a l -> In b l -> R a b -> R' a b) ->
  StronglySorted R l -> StronglySorted R' l.
Proof.
  induction l as [|x l IH]; intros H Hs; [constructor|].
  inversion Hs as [|? ? Hl Hx]; subst. constructor.
  - apply IH; [|exact Hl]. intros a b Ha Hb. apply H; now right.
  - rewrite Forall_forall in *. intros b Hb.
    apply H; [now left | now right | now apply Hx].
Qed.

Lemma sorted_map {A B : Type} (R : B -> B -> Prop) (f : A -> B)
  (l : list A) :
  StronglySorted (fun a b => R (f a) (f b)) l -> StronglySorted R (map f l).
Proof.
  induction 1 as [|x l Hl IH Hx]; simpl; constructor; [exact IH|].
  rewrite Forall_forall in *. intros b Hb. apply in_map_iff in Hb.
  destruct Hb as [a [<- Ha]]. now apply Hx.
Qed.

Lemma sorted_app {A : Type} (R : A -> A -> Prop) (l1 l2 : list A) :
  StronglySorted R l1 ->
  StronglySorted R l2 ->
  (forall a b, In a l1 -> In b l2 -> R a b) ->
  StronglySorted R (l1 ++ l2)%list.
Proof.
  induction 1 as [|x l Hl IH Hx]; intros H2 Hc; simpl; [exact H2|].
  constructor.
  - apply IH; [exact H2|]. intros a b Ha Hb. apply Hc; [now right | exact Hb].
  - apply Forall_app. split; [exact Hx|].
    rewrite Forall_forall. intros b Hb. apply Hc; [now left | exact Hb].
Qed.

Lemma sorted_all {A : Type} (R : A -> A -> Prop) (l : list A) :
  (forall a b, In b l -> R a b) -> StronglySorted R l.
Proof.
  induction l as [|x l IH]; intros H; constructor.
  - apply IH. intros a b Hb. apply H. now right.
  - rewrite Forall_forall. intros b Hb. apply H. now right.
Qed.

Lemma Qle_bool_total (x y : Q) : Qle_bool x y = true \/ Qle_bool y x = true.
Proof.
  rewrite !Qle_bool_iff.
  destruct (Qlt_le_dec x y) as [H|H]; [left; now apply Qlt_le_weak | now right].
Qed.

Lemma Qle_bool_trans (x y z : Q) :
  Qle_bool x y = true -> Qle_bool y z = true -> Qle_bool x z = true.
Proof. rewrite !Qle_bool_iff. apply Qle_trans. Qed.

Section Order.

Context {pandas : Pandas}.

Lemma keyed_key (df : list Agg.t) (p : Q * Agg.t) :
  In p (keyed df) -> IntID_sort (snd p) = Some (fst p).
Proof.
  unfold keyed. intros H. apply in_filter_map in H.
  destruct H as [r [_ H]]. destruct (IntID_sort r) as [q|] eqn:E;
    simpl in H; [|discriminate].
  injection H as <-. exact E.
Qed.

Lemma unkeyed_key (df : list Agg.t) (r : Agg.t) :
  In r (unkeyed df) -> IntID_sort r = None.
Proof.
  unfold unkeyed. intros H. apply filter_In in H. destruct H as [_ H].
  destruct (IntID_sort r); [discriminate | reflexivity].
Qed.

Lemma sort_values_sorted (df : list Agg.t) :
  StronglySorted (fun a b => key_le (IntID_sort a) (IntID_sort b))
                 (sort_values df).
Proof.
  unfold sort_values. apply sorted_app.
  - apply sorted_map.
    eapply sorted_weaken;
      [|apply (sort_by_sorted (fun a b : Q * Agg.t =>
                                 Qle_bool (fst a) (fst b)))].
    + intros a b Ha Hb Hab.
      apply (Permutation_in _ (sort_by_perm _ _)) in Ha, Hb.
      rewrite (keyed_key df a Ha), (keyed_key df b Hb). simpl.
      now apply Qle_bool_iff.
    + intros a b. apply Qle_bool_total.
    + intros a b c. apply Qle_bool_trans.
  - apply sorted_all. intros a b Hb.
    rewrite (unkeyed_key df b Hb). destruct (IntID_sort a); exact I.
  - intros a b _ Hb.
    rewrite (unkeyed_key df b Hb). destruct (IntID_sort a); exact I.
Qed.

(** C6. The rows of the summary are in increasing order of the interviewer
    id read as a number, the ids that are not numbers last; for two
    respondents and one role F with ids "5" and "3" the summary lists "3"
    before "5", each with [total_interviews] 1 (also when the ids are
    integers); the ids "x7", "10" and "9" come out as "9", "10", "x7". *)
Theorem summary_sorted_by_numeric_id :
  (forall long,
      StronglySorted
        (fun a b => key_le (to_numeric (Stats.IntID a))
                           (to_numeric (Stats.IntID b)))
        (summarize long))
  /\ (exists rep,
         @run iso_pandas Scenario.two_ids = Ok rep
         /\ map Long.IntID (long_df rep) = [Str "5"; Str "3"]
         /\ map (fun s => (Stats.IntID s, Stats.total_interviews s))
                (final_df rep)
            = [(Str "3", 1); (Str "5", 1)])
  /\ (exists rep,
         @run iso_pandas Scenario.two_int_ids = Ok rep
         /\ map (fun s => (Stats.IntID s, Stats.total_interviews s))
                (final_df rep)
            = [(Int 3, 1); (Int 5, 1)])
  /\ (exists rep,
         @run iso_pandas Scenario.mixed_ids = Ok rep
         /\ map Stats.IntID (final_df rep) = [Str "9"; Str "10"; Str "x7"]).
Proof.
  split; [|split; [|split]].
  - intros long. unfold summarize. apply sorted_map. simpl.
    apply sort_values_sorted.
  - eexists. split; [vm_compute; reflexivity|]. split; reflexivity.
  - eexists. split; [vm_compute; reflexivity|]. reflexivity.
  - eexists. split; [vm_compute; reflexivity|]. reflexivity.
Qed.

End Order.

(** * Roles without an id column *)

Section Roles.

Context {pandas : Pandas}.

(** A role whose stripped prefix starts no id column adds nothing to the
    long table, and while some role is paired and the script completes, its
    long table is made of the frames of the paired roles only. *)
Lemma unpaired_roles_are_skipped (df : DataFrame) (timed : list Timed.t) :
  has_label "StartTime_TS" (columns df) = true ->
  has_label "EndTime_TS" (columns df) = true ->
  has_label "ID" (columns df) = true ->
  time_stage (columns df) (rows df) = Ok timed ->
  timed <> [] ->
  (exists nm, In nm (interviewer_name_cols (columns df))
              /\ paired_id_col (columns df) nm <> None) ->
  exists rep,
    run df = Ok rep
    /\ long_df rep
       = List.concat
           (flat_map
              (role_frames (columns df)
                 (map (classify (columns df)
                         (question_dtypes
                            (loaded_dtype (columns df) (rows df))
                            (columns df) timed))
                      timed))
              (filter (fun nm => match paired_id_col (columns df) nm with
                                 | Some _ => true
                                 | None => false
                                 end)
                      (interviewer_name_cols (columns df)))).
Proof.
  intros Hs He Hid Ht Hne [nm [Hnm Hp]].
  assert (Hpn : paired_name_cols (columns df) <> []).
  { intros E. apply Hp. exact (proj1 (paired_name_cols_nil _) E nm Hnm). }
  destruct (script_completes (loaded_dtype (columns df) (rows df))
              (columns df) (rows df) timed Hs He Hid Ht Hne Hpn)
    as [rep [Hrun [_ Hlong]]].
  exists rep. split; [exact Hrun|].
  rewrite Hlong. unfold all_interviewer_data.
  now rewrite frames_skip_unpaired.
Qed.

(** When no role is paired, [pd.concat] receives an empty list and the
    script stops with its exception (unless a difference of timestamps has
    overflowed before). *)
Lemma no_paired_role_raises (df : DataFrame) :
  has_label "StartTime_TS" (columns df) = true ->
  has_label "EndTime_TS" (columns df) = true ->
  has_label "ID" (columns df) = true ->
  (forall row, In row (rows df) -> overflows (columns df) row = false) ->
  (forall nm, In nm (interviewer_name_cols (columns df)) ->
              paired_id_col (columns df) nm = None) ->
  run df = Raise (ValueError "No objects to concatenate").
Proof.
  intros Hs He Hid Hno Hall.
  destruct (time_stage_completes _ _ Hno) as [timed [Ht _]].
  apply (script_no_frame _ _ _ timed Hs He Hid Ht).
  now apply paired_name_cols_nil.
Qed.

End Roles.

(** C7. Evaluation at the inputs where the script departs from the silent
    exclusion: with a name column for role F and no id column the script
    raises from [pd.concat]; with the id column of another role FA only,
    role F is kept and given that column; with role F paired and role M not,
    role M is skipped in silence. *)
Theorem exclusion_of_roles_at_inputs :
  (interviewer_name_cols (columns Scenario.no_id_col) = ["FIntName_W4"]
   /\ paired_id_col (columns Scenario.no_id_col) "FIntName_W4" = None
   /\ @run iso_pandas Scenario.no_id_col
      = Raise (ValueError "No objects to concatenate"))
  /\ (PyStr.replace "IntName_W4" "" "FIntName_W4" = "F"
      /\ PyStr.replace "IntID_W4" "" "FAIntID_W4" = "FA"
      /\ paired_id_col (columns Scenario.other_role_id) "FIntName_W4"
         = Some "FAIntID_W4"
      /\ exists rep,
          @run iso_pandas Scenario.other_role_id = Ok rep
          /\ map (fun r => (Long.IntID r, Long.IntName r)) (long_df rep)
             = [(Int 9, Str "Asha")])
  /\ (interviewer_name_cols (columns Scenario.one_of_two)
      = ["FIntName_W4"; "MIntName_W4"]
      /\ paired_id_col (columns Scenario.one_of_two) "MIntName_W4" = None
      /\ exists rep,
          @run iso_pandas Scenario.one_of_two = Ok rep
          /\ map (fun r => (Long.IntID r, Long.IntName r)) (long_df rep)
             = [(Int 7, Str "Asha")]).
Proof.
  split; [|split].
  - repeat split.
  - repeat split. eexists. split; [vm_compute; reflexivity | reflexivity].
  - repeat split. eexists. split; [vm_compute; reflexivity | reflexivity].
Qed.

(** * Rounding of the mean number of answers *)

Lemma round_half_even_spec (s : Z) (p : positive) :
  let r := round_half_even (Qmake s p) in
  2 * Z.abs (s - r * Z.pos p) <= Z.pos p
  /\ (2 * Z.abs (s - r * Z.pos p) = Z.pos p -> Z.even r = true).
Proof.
  unfold round_half_even, Qcompare, Qminus, Qplus, Qopp, inject_Z, Qfloor.
  simpl Qnum. simpl Qden.
  pose proof (Z.div_mod s (Z.pos p) ltac:(lia)) as Hdm.
  pose proof (Z.mod_pos_bound s (Z.pos p) ltac:(lia)) as Hb.
  set (f := s / Z.pos p) in *. set (m := s mod Z.pos p) in *.
  rewrite Pos.mul_1_r.
  destruct (Z.compare_spec ((s * 1 + - f * Z.pos p) * 2) (1 * Z.pos p))
    as [H|H|H].
  - destruct (Z.even f) eqn:E.
    + split; [lia | intros _; exact E].
    + split; [lia|]. intros _. rewrite Z.even_add, E. reflexivity.
  - split; lia.
  - split; lia.
Qed.

(** C8 as the specification words it fails: two respondents of one
    interviewer with two and three answers have mean 2.5, and the script
    gives [avg_questions] 2 where rounding half up gives 3. *)
Lemma half_up_fails_on_two_and_three :
  exists rep s,
    @run iso_pandas Scenario.two_and_three = Ok rep
    /\ final_df rep = [s]
    /\ map Long.questions_answered (long_df rep) = [2; 3]
    /\ (mean (map Long.questions_answered (long_df rep)) == 5 # 2)%Q
    /\ round_half_up (mean (map Long.questions_answered (long_df rep))) = 3
    /\ Stats.avg_questions s = 2
    /\ Stats.avg_questions s
       <> round_half_up (mean (map Long.questions_answered (long_df rep))).
Proof.
  eexists. eexists. split; [vm_compute; reflexivity|].
  split; [reflexivity|]. split; [reflexivity|]. split; [reflexivity|].
  split; [reflexivity|]. split; [reflexivity|]. vm_compute. discriminate.
Qed.

Section Rounding.

Context {pandas : Pandas}.

(** C8, amended. For every row of the summary, [avg_questions] is the
    integer nearest to the mean of the questions-answered values of the
    long rows of that id, and when the mean lies halfway between two
    integers it is the even one: a mean of 2.5 gives 2 and a mean of 3.5
    gives 4. *)
Theorem avg_questions_rounds_half_even :
  (forall long s,
      In s (summarize long) ->
      let g := filter (fun r => cell_eqb (Long.IntID r) (Stats.IntID s))
                      long in
      let total := sumZ (map Long.questions_answered g) in
      let n := Z.of_nat (List.length g) in
      0 < n
      /\ 2 * Z.abs (total - Stats.avg_questions s * n) <= n
      /\ (2 * Z.abs (total - Stats.avg_questions s * n) = n ->
          Z.even (Stats.avg_questions s) = true))
  /\ (exists rep,
         @run iso_pandas Scenario.two_and_three = Ok rep
         /\ map Long.questions_answered (long_df rep) = [2; 3]
         /\ map Stats.avg_questions (final_df rep) = [2])
  /\ (exists rep,
         @run iso_pandas Scenario.three_and_four = Ok rep
         /\ map Long.questions_answered (long_df rep) = [3; 4]
         /\ map Stats.avg_questions (final_df rep) = [4]).
Proof.
  split; [|split].
  - intros long s Hs g total n. apply summarize_in in Hs.
    destruct Hs as [k [Hk ->]]. simpl in g. fold (group_rows k long) in g.
    apply group_keys_in in Hk. destruct Hk as [Hk Hin].
    assert (Hpos : (0 < List.length g)%nat).
    { apply in_map_iff in Hin. destruct Hin as [r [Hr Hin]].
      assert (Hg : In r g) by (apply group_rows_in; auto).
      destruct g; [destruct Hg | simpl; lia]. }
    split; [unfold n; lia|].
    simpl Stats.avg_questions. unfold mean. fold g.
    rewrite length_map. fold total.
    assert (Hn : Z.pos (Pos.of_nat (List.length g)) = n).
    { unfold n. destruct (List.length g) as [|m]; [lia|].
      rewrite <- Pos.of_nat_succ, Zpos_P_of_succ_nat, Nat2Z.inj_succ.
      reflexivity. }
    rewrite <- Hn. apply round_half_even_spec.
  - eexists. split; [vm_compute; reflexivity|]. split; reflexivity.
  - eexists. split; [vm_compute; reflexivity|]. split; reflexivity.
Qed.

End Rounding.

(** The interviewer of [Scenario.two_and_three]: five answers over two
    rows. *)
Lemma avg_questions_rounds_half_even_witness :
  exists rep s,
    @run iso_pandas Scenario.two_and_three = Ok rep
    /\ In s (final_df rep)
    /\ 2 * Z.abs (5 - Stats.avg_questions s * 2) <= 2
    /\ Z.even (Stats.avg_questions s) = true.
Proof.
  destruct (@run iso_pandas Scenario.two_and_three) as [rep|e] eqn:Hrun;
    [|vm_compute in Hrun; discriminate Hrun].
  pose proof (run_ok _ _ Hrun) as Hok. cbv zeta in Hok.
  destruct Hok as [timed [_ [_ [_ [_ [_ [_ [_ [Hfin _]]]]]]]]].
  vm_compute in Hrun. injection Hrun as Hrep.
  assert (Hs : exists s, In s (@summarize iso_pandas (long_df rep))).
  { rewrite <- Hfin, <- Hrep. eexists. left. reflexivity. }
  destruct Hs as [s Hs].
  destruct (proj1 (@avg_questions_rounds_half_even iso_pandas)
              (long_df rep) s Hs)
    as [_ [Hle Hev]].
  exists rep, s. split; [reflexivity|]. split; [now rewrite Hfin|].
  revert Hle Hev. rewrite <- Hrep in Hs.
  vm_compute in Hs. destruct Hs as [<-|[]].
  rewrite <- Hrep. intros Hle Hev. split; [exact Hle | exact (Hev eq_refl)].
Defined.

(** * The exported sheet *)

(** C9 as the specification words it fails: the sheet exported for
    [Scenario.half_hour] has thirteen columns, among them
    [avg_duration_minutes], [min_duration_minutes] and
    [max_duration_minutes], which are not among the ten listed. *)
Lemma export_has_more_than_the_listed_columns :
  exists rep sheet,
    @run iso_pandas Scenario.half_hour = Ok rep
    /\ workbook rep = [sheet]
    /\ List.length (header sheet) = 13%nat
    /\ In "avg_duration_minutes" (header sheet)
    /\ ~ In "avg_duration_minutes" spec_export_columns
    /\ header sheet <> spec_export_columns.
Proof.
  eexists. eexists. split; [vm_compute; reflexivity|].
  split; [reflexivity|]. split; [reflexivity|].
  split; [simpl; tauto|]. split.
  - simpl. intros H.
    repeat (destruct H as [H|H]; [discriminate H|]). exact H.
  - discriminate.
Qed.

Section Workbook.

Context {pandas : Pandas}.

(** C9, amended. The exported workbook has one sheet, named
    "Interviewer Stats", whose columns are all thirteen columns of
    [final_df] in its order: the ten listed ones and, besides,
    [avg_duration_minutes], [min_duration_minutes] and
    [max_duration_minutes]; its rows are the rows of [final_df] in the
    sorted order.  The table on the screen has exactly the ten listed
    columns. *)
Theorem export_has_every_column_of_final_df :
  forall df rep,
    run df = Ok rep ->
    (exists sheet,
        workbook rep = [sheet]
        /\ sheet_name sheet = "Interviewer Stats"
        /\ header sheet
           = ["IntID"; "IntName"; "total_interviews"; "avg_duration_minutes";
              "min_duration_minutes"; "max_duration_minutes"; "avg_questions";
              "total_DK"; "total_RF"; "total_NA"; "avg_duration_display";
              "min_duration_display"; "max_duration_display"]
        /\ body sheet
           = map (fun s =>
                    [VCell (Stats.IntID s); VCell (Stats.IntName s);
                     VInt (Stats.total_interviews s);
                     VFloat (Stats.avg_duration_minutes s);
                     VInt (Stats.min_duration_minutes s);
                     VInt (Stats.max_duration_minutes s);
                     VInt (Stats.avg_questions s);
                     VInt (Stats.total_DK s); VInt (Stats.total_RF s);
                     VInt (Stats.total_NA s);
                     VText (Stats.avg_duration_display s);
                     VText (Stats.min_duration_display s);
                     VText (Stats.max_duration_display s)])
                 (final_df rep)
        /\ (forall c, In c (header sheet) <->
                      In c spec_export_columns
                      \/ c = "avg_duration_minutes"
                      \/ c = "min_duration_minutes"
                      \/ c = "max_duration_minutes"))
    /\ final_df rep = summarize (long_df rep)
    /\ header (summary_shown rep) = spec_export_columns.
Proof.
  intros df rep Hrun. apply run_ok in Hrun.
  destruct Hrun as [timed [_ [_ [_ [_ [_ [_ [_ [Hfin [Hshown [Hwb _]]]]]]]]]]].
  split; [|split; [exact Hfin | now rewrite Hshown]].
  rewrite Hwb. unfold to_excel. eexists. split; [reflexivity|].
  split; [reflexivity|]. split; [reflexivity|]. split; [reflexivity|].
  intros c. simpl. unfold spec_export_columns. simpl. intuition congruence.
Qed.

End Workbook.

(** The workbook of [Scenario.half_hour]. *)
Lemma export_has_every_column_of_final_df_witness :
  exists rep sheet,
    @run iso_pandas Scenario.half_hour = Ok rep
    /\ workbook rep = [sheet]
    /\ sheet_name sheet = "Interviewer Stats"
    /\ List.length (header sheet) = 13%nat
    /\ List.length (body sheet) = 1%nat.
Proof.
  eexists.
  destruct (@export_has_every_column_of_final_df iso_pandas
              Scenario.half_hour _ ltac:(vm_compute; reflexivity))
    as [[sheet [Hwb [Hname [Hhead [Hbody _]]]]] _].
  exists sheet. split; [reflexivity|]. split; [exact Hwb|].
  split; [exact Hname|]. rewrite Hhead, Hbody. split; reflexivity.
Defined.

(** * Long rows without an interviewer id *)

Lemma sumZ_perm (l l' : list Z) : Permutation l l' -> sumZ l = sumZ l'.
Proof. induction 1; simpl; lia. Qed.

Lemma filter_or_length {A : Type} (p q : A -> bool) (l : list A) :
  (forall x, In x l -> p x = true -> q x = false) ->
  List.length (filter (fun x => p x || q x) l)
  = (List.length (filter p l) + List.length (filter q l))%nat.
Proof.
  induction l as [|a l IH]; intros H; simpl; [reflexivity|].
  assert (IH' := IH (fun x Hx => H x (or_intror Hx))).
  destruct (p a) eqn:Ep; simpl.
  - rewrite (H a (or_introl eq_refl) Ep). simpl. now rewrite IH'.
  - destruct (q a); simpl; rewrite IH'; lia.
Qed.

Lemma count_by_key (keys : list cell) (long : list Long.t) :
  NoDup keys ->
  sumZ (map (fun k => Z.of_nat (List.length (group_rows k long))) keys)
  = Z.of_nat
      (List.length
         (filter (fun r => existsb (cell_eqb (Long.IntID r)) keys) long)).
Proof.
  induction 1 as [|k keys Hk Hnd IH]; simpl.
  - induction long as [|r long IHl]; simpl; [reflexivity | exact IHl].
  - rewrite IH, filter_or_length.
    + unfold group_rows. lia.
    + intros r _ Hr. apply cell_eqb_eq in Hr.
      destruct (existsb (cell_eqb (Long.IntID r)) keys) eqn:E;
        [|reflexivity].
      apply existsb_exists in E. destruct E as [k' [Hk' E]].
      apply cell_eqb_eq in E. exfalso. apply Hk. congruence.
Qed.

Lemma keyed_rows_are_valid (long : list Long.t) :
  filter (fun r => existsb (cell_eqb (Long.IntID r)) (group_keys long)) long
  = filter (fun r => notna (Long.IntID r)) long.
Proof.
  apply filter_ext_in. intros r Hr.
  destruct (notna (Long.IntID r)) eqn:E.
  - apply existsb_exists. exists (Long.IntID r).
    split; [|now apply cell_eqb_eq].
    apply group_keys_in. split; [now apply notna_iff | now apply in_map].
  - destruct (existsb _ _) eqn:E'; [|reflexivity].
    apply existsb_exists in E'. destruct E' as [k [Hk E']].
    apply cell_eqb_eq in E'. apply group_keys_in in Hk.
    destruct Hk as [Hk _]. apply notna_iff in Hk. congruence.
Qed.

Lemma valid_ids_of_valid_rows (long : list Long.t) :
  filter notna (map Long.IntID (filter (fun r => notna (Long.IntID r)) long))
  = filter notna (map Long.IntID long).
Proof.
  induction long as [|r long IH]; simpl; [reflexivity|].
  destruct (notna (Long.IntID r)) eqn:E; simpl; rewrite ?E, IH; reflexivity.
Qed.

Lemma group_rows_of_valid_rows (k : cell) (long : list Long.t) :
  k <> NaN ->
  group_rows k (filter (fun r => notna (Long.IntID r)) long)
  = group_rows k long.
Proof.
  intros Hk. unfold group_rows.
  induction long as [|r long IH]; simpl; [reflexivity|].
  destruct (notna (Long.IntID r)) eqn:E; simpl; rewrite IH; [reflexivity|].
  destruct (cell_eqb (Long.IntID r) k) eqn:E'; [|reflexivity].
  apply cell_eqb_eq in E'. subst k.
  apply notna_iff in Hk. congruence.
Qed.

Section MissingIds.

Context {pandas : Pandas}.

(** C10. Every row of the summary has an [IntID] that is not missing; the
    long rows whose [IntID] is missing belong to no group: the summary is
    the one of the long table without them, and its [total_interviews] add
    up to the number of long rows with an id, which is less than the number
    of long rows as soon as one id is missing (as in
    [Scenario.missing_id]). *)
Theorem missing_ids_are_not_aggregated :
  (forall long s, In s (summarize long) -> Stats.IntID s <> NaN)
  /\ (forall long,
         summarize long
         = summarize (filter (fun r => notna (Long.IntID r)) long))
  /\ (forall long,
         sumZ (map Stats.total_interviews (summarize long))
         = Z.of_nat
             (List.length (filter (fun r => notna (Long.IntID r)) long)))
  /\ (forall long r,
         In r long ->
         Long.IntID r = NaN ->
         sumZ (map Stats.total_interviews (summarize long))
         < Z.of_nat (List.length long))
  /\ (exists rep,
         @run iso_pandas Scenario.missing_id = Ok rep
         /\ map Long.IntID (long_df rep) = [Int 7; NaN]
         /\ map (fun s => (Stats.IntID s, Stats.total_interviews s))
                (final_df rep)
            = [(Int 7, 1)]).
Proof.
  assert (Hsum : forall long,
             sumZ (map Stats.total_interviews (summarize long))
             = Z.of_nat
                 (List.length
                    (filter (fun r => notna (Long.IntID r)) long))).
  { intros long. unfold summarize. rewrite map_map. simpl.
    rewrite (sumZ_perm _ _
               (Permutation_map Agg.total_interviews
                  (sort_values_perm (groupby_agg long)))).
    unfold groupby_agg. rewrite map_map. simpl.
    rewrite (count_by_key _ long (group_keys_nodup long)).
    now rewrite keyed_rows_are_valid. }
  split; [|split; [|split; [exact Hsum | split]]].
  - intros long s Hs. apply summarize_in in Hs. destruct Hs as [k [Hk ->]].
    simpl. now apply group_keys_in in Hk.
  - intros long. unfold summarize, groupby_agg. do 2 f_equal.
    assert (Hkeys : group_keys (filter (fun r => notna (Long.IntID r)) long)
                    = group_keys long).
    { unfold group_keys. now rewrite valid_ids_of_valid_rows. }
    rewrite Hkeys. apply map_ext_in. intros k Hk.
    apply group_keys_in in Hk. destruct Hk as [Hk _].
    now rewrite (group_rows_of_valid_rows k long Hk).
  - intros long r Hr Hna. rewrite Hsum. apply inj_lt.
    clear Hsum. induction long as [|a long IH]; [destruct Hr|].
    simpl. destruct Hr as [->|Hr].
    + rewrite Hna. simpl.
      pose proof (filter_length_le (fun r => notna (Long.IntID r)) long).
      lia.
    + specialize (IH Hr). destruct (notna (Long.IntID a)); simpl; lia.
  - eexists. split; [vm_compute; reflexivity|]. split; reflexivity.
Qed.

End MissingIds.

(** The long table of [Scenario.missing_id]: two rows, one interview
    counted. *)
Lemma missing_ids_are_not_aggregated_witness :
  exists rep,
    @run iso_pandas Scenario.missing_id = Ok rep
    /\ (forall s, In s (final_df rep) -> Stats.IntID s <> NaN)
    /\ sumZ (map Stats.total_interviews (final_df rep))
       < Z.of_nat (List.length (long_df rep)).
Proof.
  destruct (@run iso_pandas Scenario.missing_id) as [rep|e] eqn:Hrun;
    [|vm_compute in Hrun; discriminate Hrun].
  pose proof (run_ok _ _ Hrun) as Hok. cbv zeta in Hok.
  destruct Hok as [timed [_ [_ [_ [_ [_ [_ [_ [Hfin _]]]]]]]]].
  vm_compute in Hrun. injection Hrun as Hrep.
  exists rep. split; [reflexivity|]. rewrite Hfin. split.
  - exact (proj1 (@missing_ids_are_not_aggregated iso_pandas) (long_df rep)).
  - refine (proj1 (proj2 (proj2 (proj2
                     (@missing_ids_are_not_aggregated iso_pandas))))
              (long_df rep) _ _ _).
    + rewrite <- Hrep. right. left. reflexivity.
    + reflexivity.
Defined.

(** * Further properties of the classifier *)

Lemma endswith_cons (c : ascii) (s suf : string) :
  PyStr.endswith (String c s) suf
  = (String.eqb (String c s) suf || PyStr.endswith s suf)%bool.
Proof. reflexivity. Qed.

Lemma endswith_refl (s : string) : PyStr.endswith s s = true.
Proof. apply endswith_iff. now exists "". Qed.

(** Two suffixes of one string: one of them is a suffix of the other. *)
Lemma endswith_both (s a b : string) :
  PyStr.endswith s a = true ->
  PyStr.endswith s b = true ->
  PyStr.endswith a b = true \/ PyStr.endswith b a = true.
Proof.
  induction s as [|c s IH]; intros Ha Hb.
  - simpl in Ha, Hb. destruct a; [|discriminate]. destruct b; [|discriminate].
    now left.
  - rewrite endswith_cons in Ha, Hb.
    apply orb_true_iff in Ha. apply orb_true_iff in Hb.
    destruct Ha as [Ha|Ha].
    + apply String.eqb_eq in Ha. subst a. left.
      rewrite endswith_cons. apply orb_true_iff. exact Hb.
    + destruct Hb as [Hb|Hb].
      * apply String.eqb_eq in Hb. subst b. right.
        rewrite endswith_cons. apply orb_true_iff. now right.
      * now apply IH.
Qed.

Lemma endswith_exclusive (s a b : string) :
  PyStr.endswith a b = false ->
  PyStr.endswith b a = false ->
  PyStr.endswith s a = true ->
  PyStr.endswith s b = false.
Proof.
  intros Hab Hba Ha. destruct (PyStr.endswith s b) eqn:Hb; [|reflexivity].
  destruct (endswith_both s a b Ha Hb); congruence.
Qed.

Lemma code_flags_le (v : Py.object) :
  Z.b2z (is_dk v) + Z.b2z (is_rf v) + Z.b2z (is_na v)
  <= Z.b2z (negb (pd_isna v)).
Proof.
  unfold is_dk, is_rf, is_na.
  destruct (pd_isna v); [simpl; lia|].
  set (t := PyStr.strip (py_str v)).
  destruct (PyStr.endswith t "97") eqn:E97.
  - rewrite (endswith_exclusive t "97" "99" eq_refl eq_refl E97).
    rewrite (endswith_exclusive t "97" "98" eq_refl eq_refl E97).
    simpl. lia.
  - destruct (PyStr.endswith t "99") eqn:E99.
    + rewrite (endswith_exclusive t "99" "98" eq_refl eq_refl E99).
      simpl. lia.
    + destruct (PyStr.endswith t "98"); simpl; lia.
Qed.

(** X1. No value is counted in more than one of the three categories: of
    [is_dk], [is_rf] and [is_na] at most one holds of a value, whether it is
    handed over as text, as an integer or as a float, and none holds of a
    missing one. *)
Theorem codes_are_mutually_exclusive :
  forall v : Py.object,
    Z.b2z (is_dk v) + Z.b2z (is_rf v) + Z.b2z (is_na v)
    <= Z.b2z (negb (pd_isna v)).
Proof. exact code_flags_le. Qed.

Lemma count_cells_nonneg {A : Type} (f : A -> bool) (row : list A) :
  0 <= count_cells f row <= Z.of_nat (List.length row).
Proof.
  induction row as [|v row IH]; simpl count_cells; simpl List.length;
    [lia|]. destruct (f v); lia.
Qed.

Lemma handed_notna (common kind : dtype) (c : cell) :
  negb (pd_isna (handed common kind c)) = notna c.
Proof. destruct c, common, kind; reflexivity. Qed.

(** The three counts of the values handed over for some cells are at most
    the number of these cells that are not missing. *)
Lemma counts_le_answered (common : dtype) (kinds : list dtype)
  (cells : list cell) :
  let vals := map (fun p => handed common (fst p) (snd p))
                  (combine kinds cells) in
  count_cells is_dk vals + count_cells is_rf vals + count_cells is_na vals
  <= count_cells notna cells.
Proof.
  revert kinds. induction cells as [|c cells IH]; intros kinds.
  - destruct kinds; simpl; lia.
  - destruct kinds as [|k kinds].
    + simpl. pose proof (count_cells_nonneg notna cells).
      destruct (notna c); lia.
    + specialize (IH kinds). cbv zeta in IH |- *. simpl.
      pose proof (code_flags_le (handed common k c)) as H.
      rewrite handed_notna in H.
      destruct (is_dk (handed common k c)), (is_rf (handed common k c)),
        (is_na (handed common k c)), (notna c); simpl in H; lia.
Qed.

(** X2. For every respondent the three counts are non-negative and add up
    to at most the questions-answered count, which is at most the number of
    question columns: a cell is counted in at most one category and a
    missing cell in none, whatever the dtypes of the question columns. *)
Theorem counts_are_bounded :
  forall (cols : list string) (kinds : list dtype) (id_col name_col : string)
         (r : Timed.t),
    let row := temp_row cols id_col name_col (classify cols kinds r) in
    0 <= Long.DK_count row
    /\ 0 <= Long.RF_count row
    /\ 0 <= Long.NA_count row
    /\ Long.DK_count row + Long.RF_count row + Long.NA_count row
       <= Long.questions_answered row
    /\ Long.questions_answered row
       <= Z.of_nat (List.length (question_cols cols)).
Proof.
  intros cols kinds id_col name_col r. simpl.
  set (cells := map _ (question_cols cols)).
  repeat split; try apply count_cells_nonneg.
  - apply counts_le_answered.
  - replace (List.length (question_cols cols)) with (List.length cells)
      by apply length_map.
    apply count_cells_nonneg.
Qed.

Lemma blank_keeps_flags (common kind : dtype) (v : cell) :
  is_dk (handed common kind (blank_to_nan v)) = is_dk (handed common kind v)
  /\ is_rf (handed common kind (blank_to_nan v))
     = is_rf (handed common kind v)
  /\ is_na (handed common kind (blank_to_nan v))
     = is_na (handed common kind v)
  /\ Z.b2z (notna (blank_to_nan v)) <= Z.b2z (notna v).
Proof.
  destruct v as [|s|z]; simpl blank_to_nan; try (repeat split; lia).
  destruct (PyStr.all_space s) eqn:E; [|repeat split; simpl; lia].
  unfold is_dk, is_rf, is_na. simpl. unfold PyStr.strip.
  rewrite (lstrip_all_space s E). simpl. repeat split. lia.
Qed.

Section Blanks.

Context {pandas : Pandas}.

(** X3. The replacement of the blank cells acts on the three counts only
    through the dtypes of the columns: under given dtypes a blank cell is
    counted in no category whether it has been replaced or not, and every
    other cell is left as it is; where [replace] keeps the dtypes (pandas 3)
    the question columns are tested in the dtypes they were loaded with;
    where it infers them anew (pandas 2) a number beside a column whose only
    cell is blank is tested as a float and is no longer counted. *)
Theorem blank_replacement_acts_through_dtypes :
  (forall (common : dtype) (kinds : list dtype) (row : list cell),
      let before := map (fun p => handed common (fst p) (snd p))
                        (combine kinds row) in
      let after := map (fun p => handed common (fst p) (snd p))
                       (combine kinds (map blank_to_nan row)) in
      count_cells is_dk after = count_cells is_dk before
      /\ count_cells is_rf after = count_cells is_rf before
      /\ count_cells is_na after = count_cells is_na before
      /\ count_cells notna (map blank_to_nan row) <= count_cells notna row)
  /\ (replace_downcasts = false ->
      forall dtype_of cols df,
        question_dtypes dtype_of cols df = map dtype_of (question_cols cols))
  /\ (exists rep,
         @run iso_pandas_3 Scenario.beside_blank = Ok rep
         /\ map Long.questions (long_df rep) = [[Int 197; NaN]]
         /\ map Long.DK_count (long_df rep) = [1])
  /\ (exists rep,
         @run iso_pandas Scenario.beside_blank = Ok rep
         /\ map Long.questions (long_df rep) = [[Int 197; NaN]]
         /\ map Long.DK_count (long_df rep) = [0]).
Proof.
  split; [|split; [|split]].
  - intros common kinds row. cbv zeta. revert kinds.
    induction row as [|v row IH]; intros kinds.
    + destruct kinds; simpl; repeat split; lia.
    + destruct kinds as [|k kinds].
      * simpl. repeat split.
        destruct (IH []) as [_ [_ [_ H]]].
        destruct (blank_keeps_flags common common v) as [_ [_ [_ H4]]].
        destruct (notna (blank_to_nan v)), (notna v); simpl in H4; lia.
      * destruct (IH kinds) as [IH1 [IH2 [IH3 IH4]]].
        destruct (blank_keeps_flags common k v) as [H1 [H2 [H3 H4]]].
        simpl. rewrite H1, H2, H3, IH1, IH2, IH3. repeat split.
        destruct (notna (blank_to_nan v)), (notna v); simpl in H4; lia.
  - intros Hno dtype_of cols df. unfold question_dtypes.
    apply map_ext. intros q. unfold replaced_dtype. rewrite Hno.
    destruct (dtype_of q); reflexivity.
  - eexists. split; [vm_compute; reflexivity|]. split; reflexivity.
  - eexists. split; [vm_compute; reflexivity|]. split; reflexivity.
Qed.

End Blanks.

(** [Scenario.beside_blank] under pandas 3: the question dtypes are those
    of the loaded table. *)
Lemma blank_replacement_acts_through_dtypes_witness :
  @question_dtypes iso_pandas_3
    (loaded_dtype (columns Scenario.beside_blank)
                  (rows Scenario.beside_blank))
    (columns Scenario.beside_blank) []
  = [int64; object].
Proof.
  rewrite (proj1 (proj2 (@blank_replacement_acts_through_dtypes iso_pandas_3))
             eq_refl).
  reflexivity.
Defined.

(** * Further properties of the column sets *)

(** X4. The interviewer-name columns, the interviewer-id columns and the
    question columns are labels of the table and pairwise disjoint; no
    question column is [ID], [StartTime_TS] or [EndTime_TS]; and every label
    of the table is a name column, an id column, a question column or one of
    the seven fixed labels that are excluded. *)
Theorem column_sets_partition :
  forall (cols : list string) (c : string),
    (In c (interviewer_name_cols cols) ->
     In c cols
     /\ ~ In c (interviewer_id_cols cols)
     /\ ~ In c (question_cols cols))
    /\ (In c (interviewer_id_cols cols) ->
        In c cols /\ ~ In c (question_cols cols))
    /\ (In c (question_cols cols) ->
        In c cols /\ c <> "ID" /\ c <> "StartTime_TS" /\ c <> "EndTime_TS")
    /\ (In c cols ->
        In c (interviewer_name_cols cols)
        \/ In c (interviewer_id_cols cols)
        \/ In c (question_cols cols)
        \/ In c ["ID"; "StartTime_TS"; "EndTime_TS"; "Start_dt"; "End_dt";
                 "duration_minutes"; "duration_display"]).
Proof.
  intros cols c.
  assert (Hq : In c (question_cols cols) ->
               In c cols /\ ~ In c (exclude_cols cols)).
  { unfold question_cols. intros H. apply filter_In in H.
    destruct H as [H1 H2]. split; [exact H1|].
    apply has_label_not_in. now destruct (has_label c (exclude_cols cols)). }
  split; [|split; [|split]].
  - intros H. pose proof H as H'. unfold interviewer_name_cols in H'.
    apply filter_In in H'. destruct H' as [Hc Hp].
    apply andb_true_iff in Hp. destruct Hp as [_ Hn].
    split; [exact Hc|]. split.
    + unfold interviewer_id_cols. intros Hi. apply filter_In in Hi.
      destruct Hi as [_ Hi]. apply andb_true_iff in Hi. destruct Hi as [_ Hi].
      rewrite (endswith_exclusive c "IntName_W4" "IntID_W4"
                 eq_refl eq_refl Hn) in Hi. discriminate.
    + intros Hx. apply Hq in Hx. destruct Hx as [_ Hx]. apply Hx.
      unfold exclude_cols. apply in_or_app. right.
      apply in_or_app. now left.
  - intros H. pose proof H as H'. unfold interviewer_id_cols in H'.
    apply filter_In in H'. destruct H' as [Hc _].
    split; [exact Hc|]. intros Hx. apply Hq in Hx. destruct Hx as [_ Hx].
    apply Hx. unfold exclude_cols. apply in_or_app. right.
    apply in_or_app. now right.
  - intros H. apply Hq in H. destruct H as [Hc Hx]. split; [exact Hc|].
    unfold exclude_cols in Hx.
    repeat split; intros ->; apply Hx; apply in_or_app; left; simpl; tauto.
  - intros Hc. destruct (has_label c (exclude_cols cols)) eqn:E.
    + apply has_label_in in E. unfold exclude_cols in E.
      apply in_app_or in E. destruct E as [E|E]; [now right; right; right|].
      apply in_app_or in E. destruct E as [E|E]; [now left | now right; left].
    + right. right. left. unfold question_cols. apply filter_In.
      split; [exact Hc | now rewrite E].
Qed.

(** * Every outcome of the script *)

Section Outcomes.

Context {pandas : Pandas}.


End Outcomes.

(** * Size of the long table and empty input *)

Section Sizes.

Context {pandas : Pandas}.

Lemma run_long_length (df : DataFrame) (rep : Report) :
  run df = Ok rep ->
  List.length (long_df rep)
  = (List.length (duration_check rep)
     * List.length (paired_name_cols (columns df)))%nat.
Proof.
  intros H. apply run_ok in H.
  destruct H as [timed [_ [_ [_ [_ [_ [Hchk [Hlong _]]]]]]]].
  apply pd_concat_ok in Hlong. destruct Hlong as [_ ->].
  rewrite long_length, Hchk, !length_map. reflexivity.
Qed.

(** X6. The long table has one row for each retained respondent and each
    name column that is paired with an id column, whether or not the other
    name columns are paired: its length is the product of the two numbers,
    for the loop and for every completed run. *)
Theorem long_table_size :
  (forall cols (df : list Wide.t),
      List.length (List.concat (all_interviewer_data cols df))
      = (List.length df * List.length (paired_name_cols cols))%nat)
  /\ (forall df rep,
         run df = Ok rep ->
         List.length (long_df rep)
         = (List.length (duration_check rep)
            * List.length (paired_name_cols (columns df)))%nat).
Proof. split; [exact long_length | exact run_long_length]. Qed.

(** X7. A table without a retained row (no row at all, or only rows whose
    timestamps do not parse) does not get through: with the three required
    labels and a paired name column, the time stage leaves no row, the
    frames of the loop concatenate to a long table of no row and its summary
    has no row, and the closing lines raise [AttributeError], the mean of
    an empty column being a Python float, which has no [round]. *)
Theorem no_retained_row_raises :
  forall df : DataFrame,
    In "StartTime_TS" (columns df) ->
    In "EndTime_TS" (columns df) ->
    In "ID" (columns df) ->
    paired_name_cols (columns df) <> [] ->
    (forall row, In row (rows df) -> parses (columns df) row = false) ->
    time_stage (columns df) (rows df) = Ok []
    /\ pd_concat (all_interviewer_data (columns df) []) = Ok []
    /\ summarize [] = []
    /\ overall_average [] = Raise
                              (AttributeError
                                 "'float' object has no attribute 'round'")
    /\ run df
       = Raise (AttributeError "'float' object has no attribute 'round'").
Proof.
  intros df Hs He Hi Hp Hrows.
  apply has_label_in in Hs, He, Hi.
  pose proof (time_stage_nil _ _ Hrows) as Ht.
  split; [exact Ht|]. split.
  { pose proof (frames_not_empty (columns df) [] Hp) as Hf.
    pose proof (long_length (columns df) []) as Hlen.
    destruct (all_interviewer_data (columns df) []) as [|f fs] eqn:E;
      [congruence|].
    unfold pd_concat. f_equal. apply length_zero_iff_nil. exact Hlen. }
  split; [reflexivity|]. split; [reflexivity|].
  now apply script_no_row.
Qed.

End Sizes.

(** [Scenario.only_bad_rows]: one row, whose end is "later". *)
Lemma no_retained_row_raises_witness :
  @run iso_pandas Scenario.only_bad_rows
  = Raise (AttributeError "'float' object has no attribute 'round'").
Proof.
  refine (proj2 (proj2 (proj2 (proj2
            (@no_retained_row_raises iso_pandas Scenario.only_bad_rows
               _ _ _ _ _))))).
  - simpl. tauto.
  - simpl. tauto.
  - simpl. tauto.
  - vm_compute. discriminate.
  - intros row [<-|[]]. vm_compute. reflexivity.
Defined.

(** * Pairing of name and id columns *)

(** X8. On labels that follow the convention (every id column is a
    configured prefix followed by [IntID_W4]), the loop pairs the name
    column of a configured prefix with the id column of the same prefix,
    when the table has both. *)
Theorem pairing_is_exact_on_conventional_labels :
  forall (cols : list string) (p : string),
    In p prefixes ->
    In (p ++ "IntName_W4") cols ->
    In (p ++ "IntID_W4") cols ->
    (forall c, In c (interviewer_id_cols cols) ->
               exists q, In q prefixes /\ c = q ++ "IntID_W4") ->
    In (p ++ "IntName_W4") (interviewer_name_cols cols)
    /\ paired_id_col cols (p ++ "IntName_W4") = Some (p ++ "IntID_W4").
Proof.
  intros cols p Hp Hname Hid Hconv.
  assert (Hnm : In (p ++ "IntName_W4") (interviewer_name_cols cols)).
  { unfold interviewer_name_cols. apply filter_In. split; [exact Hname|].
    simpl in Hp.
    destruct Hp as [<-|[<-|[<-|[<-|[<-|[]]]]]]; reflexivity. }
  assert (Hidc : In (p ++ "IntID_W4") (interviewer_id_cols cols)).
  { unfold interviewer_id_cols. apply filter_In. split; [exact Hid|].
    simpl in Hp.
    destruct Hp as [<-|[<-|[<-|[<-|[<-|[]]]]]]; reflexivity. }
  split; [exact Hnm|].
  unfold paired_id_col, find_id_col.
  destruct (find _ (interviewer_id_cols cols)) as [c|] eqn:E.
  - apply find_some in E. destruct E as [Hc Hstart].
    destruct (Hconv c Hc) as [q [Hq ->]].
    simpl in Hp, Hq.
    destruct Hp as [<-|[<-|[<-|[<-|[<-|[]]]]]];
      destruct Hq as [<-|[<-|[<-|[<-|[<-|[]]]]]];
      try reflexivity; discriminate Hstart.
  - exfalso. pose proof (find_none _ _ E _ Hidc) as Hn.
    simpl in Hp.
    destruct Hp as [<-|[<-|[<-|[<-|[<-|[]]]]]]; discriminate Hn.
Qed.

(** Role M of [Scenario.two_roles]. *)
Lemma pairing_is_exact_on_conventional_labels_witness :
  paired_id_col (columns Scenario.two_roles) "MIntName_W4"
  = Some "MIntID_W4".
Proof.
  refine (proj2 (pairing_is_exact_on_conventional_labels
                   (columns Scenario.two_roles) "M" _ _ _ _)).
  - simpl. tauto.
  - simpl. tauto.
  - simpl. tauto.
  - intros c Hc. vm_compute in Hc. destruct Hc as [<-|[<-|[]]].
    + exists "F". split; [simpl; tauto | reflexivity].
    + exists "M". split; [simpl; tauto | reflexivity].
Defined.

(** * Further properties of the aggregation *)

Lemma pos_of_length (n : nat) :
  n <> O -> Z.pos (Pos.of_nat n) = Z.of_nat n.
Proof.
  destruct n as [|m]; [congruence|]. intros _.
  rewrite <- Pos.of_nat_succ, Zpos_P_of_succ_nat, Nat2Z.inj_succ.
  reflexivity.
Qed.

Lemma sumZ_lower (l : list Z) (m : Z) :
  (forall d, In d l -> m <= d) -> m * Z.of_nat (List.length l) <= sumZ l.
Proof.
  induction l as [|x l IH]; intros H; simpl sumZ; simpl List.length; [lia|].
  specialize (IH (fun d Hd => H d (or_intror Hd))).
  specialize (H x (or_introl eq_refl)). lia.
Qed.

Lemma sumZ_upper (l : list Z) (m : Z) :
  (forall d, In d l -> d <= m) -> sumZ l <= m * Z.of_nat (List.length l).
Proof.
  induction l as [|x l IH]; intros H; simpl sumZ; simpl List.length; [lia|].
  specialize (IH (fun d Hd => H d (or_intror Hd))).
  specialize (H x (or_introl eq_refl)). lia.
Qed.

Lemma mean_between (l : list Z) (lo hi : Z) :
  l <> [] ->
  (forall d, In d l -> lo <= d) ->
  (forall d, In d l -> d <= hi) ->
  (inject_Z lo <= mean l)%Q /\ (mean l <= inject_Z hi)%Q.
Proof.
  intros Hne Hlo Hhi. unfold mean, Qle, inject_Z. simpl Qnum. simpl Qden.
  rewrite pos_of_length by (destruct l; [congruence | discriminate]).
  pose proof (sumZ_lower l lo Hlo). pose proof (sumZ_upper l hi Hhi).
  split; lia.
Qed.

Lemma group_not_empty (long : list Long.t) (k : cell) :
  In k (group_keys long) -> group_rows k long <> [].
Proof.
  intros Hk. apply group_keys_in in Hk. destruct Hk as [_ Hin].
  apply in_map_iff in Hin. destruct Hin as [r [Hr Hin]].
  assert (Hg : In r (group_rows k long)) by (apply group_rows_in; auto).
  destruct (group_rows k long); [destruct Hg | discriminate].
Qed.

Lemma unique_length (l : list cell) :
  (List.length (unique l) <= List.length l)%nat.
Proof.
  induction l as [|x l IH]; simpl; [lia|].
  pose proof (filter_length_le (fun y => negb (cell_eqb y x)) (unique l)).
  lia.
Qed.

Lemma filter_or_sum {A : Type} (w : A -> Z) (p q : A -> bool) (l : list A) :
  (forall x, In x l -> p x = true -> q x = false) ->
  sumZ (map w (filter (fun x => p x || q x) l))
  = sumZ (map w (filter p l)) + sumZ (map w (filter q l)).
Proof.
  induction l as [|a l IH]; intros H; simpl; [reflexivity|].
  assert (IH' := IH (fun x Hx => H x (or_intror Hx))).
  destruct (p a) eqn:Ep; simpl.
  - rewrite (H a (or_introl eq_refl) Ep). simpl. lia.
  - destruct (q a); simpl; lia.
Qed.

Lemma sum_by_key (w : Long.t -> Z) (keys : list cell) (long : list Long.t) :
  NoDup keys ->
  sumZ (map (fun k => sumZ (map w (group_rows k long))) keys)
  = sumZ (map w
            (filter (fun r => existsb (cell_eqb (Long.IntID r)) keys) long)).
Proof.
  induction 1 as [|k keys Hk Hnd IH]; simpl.
  - induction long as [|r long IHl]; simpl; [reflexivity | exact IHl].
  - rewrite IH, filter_or_sum.
    + unfold group_rows. lia.
    + intros r _ Hr. apply cell_eqb_eq in Hr.
      destruct (existsb (cell_eqb (Long.IntID r)) keys) eqn:E;
        [|reflexivity].
      apply existsb_exists in E. destruct E as [k' [Hk' E]].
      apply cell_eqb_eq in E. exfalso. apply Hk. congruence.
Qed.

Lemma sum_ones {A : Type} (l : list A) :
  sumZ (map (fun _ => 1) l) = Z.of_nat (List.length l).
Proof.
  induction l as [|x l IH]; [reflexivity|].
  change (1 + sumZ (map (fun _ => 1) l) = Z.of_nat (S (List.length l))).
  lia.
Qed.

Section Totals.

Context {pandas : Pandas}.

Lemma summary_total (w : Long.t -> Z) (f : Stats.t -> Z) (long : list Long.t) :
  (forall k g, f (format (agg k g)) = sumZ (map w g)) ->
  sumZ (map f (summarize long))
  = sumZ (map w (filter (fun r => notna (Long.IntID r)) long)).
Proof.
  intros Hf. unfold summarize. rewrite map_map.
  rewrite (sumZ_perm _ _
             (Permutation_map (fun a => f (format a))
                (sort_values_perm (groupby_agg long)))).
  unfold groupby_agg. rewrite map_map.
  rewrite (map_ext _ (fun k => sumZ (map w (group_rows k long))))
    by (intros k; apply Hf).
  rewrite (sum_by_key w _ long (group_keys_nodup long)).
  now rewrite keyed_rows_are_valid.
Qed.

(** X9. Every row of the summary stands for at least one interview, and its
    least duration is at most its mean duration, which is at most its
    greatest duration. *)
Theorem summary_row_ranges :
  forall (long : list Long.t) (s : Stats.t),
    In s (summarize long) ->
    1 <= Stats.total_interviews s
    /\ Stats.min_duration_minutes s <= Stats.max_duration_minutes s
    /\ (inject_Z (Stats.min_duration_minutes s)
        <= Stats.avg_duration_minutes s)%Q
    /\ (Stats.avg_duration_minutes s
        <= inject_Z (Stats.max_duration_minutes s))%Q.
Proof.
  intros long s Hs. apply summarize_in in Hs. destruct Hs as [k [Hk ->]].
  pose proof (group_not_empty long k Hk) as Hne. simpl.
  set (g := group_rows k long) in *.
  assert (Hd : map Long.duration_minutes g <> [])
    by (destruct g; [congruence | discriminate]).
  destruct (minimum_spec _ Hd) as [Hmin_in Hmin].
  destruct (maximum_spec _ Hd) as [Hmax_in Hmax].
  split; [destruct g; [congruence | simpl List.length; lia]|].
  split; [now apply Hmin|].
  now apply mean_between.
Qed.

(** X10. The aggregation neither loses nor repeats a count: the [total_DK]
    of the summary add up to the [DK_count] of the long rows that have an
    interviewer id, and likewise [total_RF] and [total_NA]. *)
Theorem summary_totals_are_conserved :
  forall long : list Long.t,
    let valid := filter (fun r => notna (Long.IntID r)) long in
    sumZ (map Stats.total_DK (summarize long))
    = sumZ (map Long.DK_count valid)
    /\ sumZ (map Stats.total_RF (summarize long))
       = sumZ (map Long.RF_count valid)
    /\ sumZ (map Stats.total_NA (summarize long))
       = sumZ (map Long.NA_count valid).
Proof.
  intros long valid. unfold valid.
  repeat split; apply summary_total; reflexivity.
Qed.

(** X11. The interviewer ids of the summary are exactly the ids of the long
    table that are not missing, so the summary has at most as many rows as
    the long table. *)
Theorem summary_ids_are_the_long_ids :
  forall long : list Long.t,
    (forall k, In k (map Stats.IntID (summarize long)) <->
               k <> NaN /\ In k (map Long.IntID long))
    /\ (List.length (summarize long) <= List.length long)%nat.
Proof.
  intros long. split.
  - intros k. rewrite <- group_keys_in. split; intros H.
    + apply (Permutation_in _ (summarize_ids_perm long)). exact H.
    + apply (Permutation_in _ (Permutation_sym (summarize_ids_perm long))).
      exact H.
  - rewrite <- (length_map Stats.IntID).
    rewrite (Permutation_length (summarize_ids_perm long)).
    unfold group_keys.
    rewrite (Permutation_length (sort_by_perm _ _)).
    pose proof (unique_length (filter notna (map Long.IntID long))).
    pose proof (filter_length_le notna (map Long.IntID long)).
    rewrite length_map in *. lia.
Qed.

Lemma total_interviews_sum (long : list Long.t) :
  sumZ (map Stats.total_interviews (summarize long))
  = Z.of_nat (List.length (filter (fun r => notna (Long.IntID r)) long)).
Proof.
  rewrite (summary_total (fun _ => 1) Stats.total_interviews).
  - apply sum_ones.
  - intros k g. simpl. symmetry. apply sum_ones.
Qed.

(** X12. For a completed run, the interviews counted in the summary and the
    long rows without an interviewer id together are the retained
    respondents times the paired name columns: a respondent is counted once
    for each role. *)
Theorem interviews_are_counted_per_role :
  forall (df : DataFrame) (rep : Report),
    run df = Ok rep ->
    sumZ (map Stats.total_interviews (final_df rep))
    + Z.of_nat (List.length
                  (filter (fun r => isna (Long.IntID r)) (long_df rep)))
    = Z.of_nat (List.length (duration_check rep)
                * List.length (paired_name_cols (columns df))).
Proof.
  intros df rep Hrun.
  rewrite <- (run_long_length df rep Hrun).
  apply run_ok in Hrun.
  destruct Hrun as [timed [_ [_ [_ [_ [_ [_ [_ [Hfin _]]]]]]]]].
  rewrite Hfin, total_interviews_sum.
  rewrite <- Nat2Z.inj_add. f_equal.
  clear Hfin. induction (long_df rep) as [|r l IH]; simpl; [reflexivity|].
  unfold notna in *. destruct (isna (Long.IntID r)); simpl; lia.
Qed.

End Totals.

(** [Scenario.half_hour]: one row, one interview of 29 minutes. *)
Lemma summary_row_ranges_witness :
  exists rep s,
    @run iso_pandas Scenario.half_hour = Ok rep
    /\ In s (final_df rep)
    /\ Stats.min_duration_minutes s <= Stats.max_duration_minutes s.
Proof.
  destruct (@run iso_pandas Scenario.half_hour) as [rep|e] eqn:Hrun;
    [|vm_compute in Hrun; discriminate Hrun].
  pose proof (run_ok _ _ Hrun) as Hok. cbv zeta in Hok.
  destruct Hok as [timed [_ [_ [_ [_ [_ [_ [_ [Hfin _]]]]]]]]].
  vm_compute in Hrun. injection Hrun as Hrep.
  assert (Hs : exists s, In s (@summarize iso_pandas (long_df rep))).
  { rewrite <- Hfin, <- Hrep. eexists. left. reflexivity. }
  destruct Hs as [s Hs].
  exists rep, s. split; [reflexivity|]. split; [now rewrite Hfin|].
  exact (proj1 (proj2 (@summary_row_ranges iso_pandas (long_df rep) s Hs))).
Defined.

(** [Scenario.two_roles]: two retained respondents and two roles, four
    interviews in the summary. *)
Lemma interviews_are_counted_per_role_witness :
  exists rep,
    @run iso_pandas Scenario.two_roles = Ok rep
    /\ sumZ (map Stats.total_interviews (final_df rep)) = 4
    /\ List.length (duration_check rep) = 2%nat.
Proof.
  destruct (@run iso_pandas Scenario.two_roles) as [rep|e] eqn:Hrun;
    [|vm_compute in Hrun; discriminate Hrun].
  pose proof (@interviews_are_counted_per_role iso_pandas
                Scenario.two_roles rep Hrun) as H.
  vm_compute in Hrun. injection Hrun as Hrep.
  exists rep. split; [reflexivity|].
  split; [|rewrite <- Hrep; reflexivity].
  rewrite <- Hrep in H. etransitivity; [|exact H].
  rewrite <- Hrep. reflexivity.
Defined.

(** * Range of the rounded mean of answers *)

Lemma round_half_even_range (s : Z) (p : positive) (n : Z) :
  0 <= s <= n * Z.pos p ->
  0 <= round_half_even (Qmake s p) <= n.
Proof.
  intros H. pose proof (round_half_even_spec s p) as Hspec.
  cbv zeta in Hspec. destruct Hspec as [Hr _].
  set (r := round_half_even (Qmake s p)) in *.
  assert (Hp : 0 < Z.pos p) by lia.
  assert (Hb : - Z.pos p <= 2 * (s - r * Z.pos p) <= Z.pos p) by lia.
  split.
  - destruct (Z_lt_le_dec r 0) as [Hneg|Hpos]; [|exact Hpos].
    assert (r * Z.pos p <= - Z.pos p) by nia. lia.
  - destruct (Z_lt_le_dec n r) as [Hbig|Hok]; [|exact Hok].
    assert ((n + 1) * Z.pos p <= r * Z.pos p) by nia. lia.
Qed.

Section AnswerRange.

Context {pandas : Pandas}.

Lemma avg_questions_range (long : list Long.t) (n : Z) :
  (forall r, In r long -> 0 <= Long.questions_answered r <= n) ->
  forall s, In s (summarize long) -> 0 <= Stats.avg_questions s <= n.
Proof.
  intros Hrows s Hs. apply summarize_in in Hs. destruct Hs as [k [Hk ->]].
  pose proof (group_not_empty long k Hk) as Hne.
  simpl. unfold mean.
  set (g := group_rows k long) in *.
  assert (Hin : forall d, In d (map Long.questions_answered g) ->
                          0 <= d <= n).
  { intros d Hd. apply in_map_iff in Hd. destruct Hd as [r [<- Hr]].
    apply Hrows. apply group_rows_in in Hr. tauto. }
  pose proof (sumZ_lower _ 0 (fun d Hd => proj1 (Hin d Hd))) as Hlo.
  pose proof (sumZ_upper _ n (fun d Hd => proj2 (Hin d Hd))) as Hhi.
  apply round_half_even_range.
  rewrite pos_of_length
    by (rewrite length_map; destruct g; [congruence | discriminate]).
  lia.
Qed.

Lemma long_rows_of_run (df : DataFrame) (rep : Report) (r : Long.t) :
  run df = Ok rep ->
  In r (long_df rep) ->
  exists c nm t timed,
    In nm (paired_name_cols (columns df))
    /\ paired_id_col (columns df) nm = Some c
    /\ time_stage (columns df) (rows df) = Ok timed
    /\ In t timed
    /\ r = temp_row (columns df) c nm
             (classify (columns df)
                (question_dtypes (loaded_dtype (columns df) (rows df))
                   (columns df) timed) t).
Proof.
  intros Hrun Hr. apply run_ok in Hrun.
  destruct Hrun as [timed [_ [_ [_ [Ht [_ [_ [Hlong _]]]]]]]].
  apply pd_concat_ok in Hlong. destruct Hlong as [_ Hlong].
  rewrite Hlong, frames_of_table in Hr.
  apply in_concat in Hr. destruct Hr as [frame [Hf Hr]].
  apply in_map_iff in Hf. destruct Hf as [nm [<- Hnm]].
  apply in_map_iff in Hr. destruct Hr as [w [<- Hw]].
  apply in_map_iff in Hw. destruct Hw as [t [<- Hin]].
  pose proof (paired_name_cols_paired _ _ Hnm) as Hp.
  destruct (paired_id_col (columns df) nm) as [c|] eqn:Hc; [|congruence].
  exists c, nm, t, timed. repeat split; assumption.
Qed.

(** X13. In a completed run, the [avg_questions] of every summary row lies
    between zero and the number of question columns. *)
Theorem avg_questions_is_within_the_question_count :
  forall (df : DataFrame) (rep : Report) (s : Stats.t),
    run df = Ok rep ->
    In s (final_df rep) ->
    0 <= Stats.avg_questions s
         <= Z.of_nat (List.length (question_cols (columns df))).
Proof.
  intros df rep s Hrun Hs.
  pose proof (run_ok df rep Hrun) as Hok.
  destruct Hok as [timed0 [_ [_ [_ [_ [_ [_ [_ [Hfin _]]]]]]]]].
  rewrite Hfin in Hs.
  apply (avg_questions_range (long_df rep)); [|exact Hs].
  intros r Hr.
  destruct (long_rows_of_run df rep r Hrun Hr)
    as [c [nm [t [timed [_ [_ [_ [_ ->]]]]]]]].
  simpl.
  pose proof (count_cells_nonneg notna
                (map (fun q => blank_to_nan
                                 (loc (columns df) q (Timed.raw t)))
                     (question_cols (columns df)))) as H.
  rewrite length_map in H. exact H.
Qed.

(** X14. The duration check lists the retained respondents in the order of
    the loaded table: its [ID] cells are the [ID] cells of the rows whose two
    timestamps parse, in that order, and each row has one cell per id column
    and per name column. *)
Theorem duration_check_keeps_row_order :
  forall (df : DataFrame) (rep : Report),
    run df = Ok rep ->
    map Check.ID (duration_check rep)
    = map (loc (columns df) "ID")
          (filter (parses (columns df)) (rows df))
    /\ forall c,
        In c (duration_check rep) ->
        List.length (Check.ids c)
        = List.length (interviewer_id_cols (columns df))
        /\ List.length (Check.names c)
           = List.length (interviewer_name_cols (columns df)).
Proof.
  intros df rep Hrun. apply run_ok in Hrun.
  destruct Hrun as [timed [_ [_ [_ [Ht [_ [Hchk _]]]]]]]. rewrite Hchk.
  apply time_stage_rows in Ht. destruct Ht as [Hraw _]. split.
  - rewrite <- Hraw, !map_map. reflexivity.
  - intros c Hc. apply in_map_iff in Hc. destruct Hc as [t [<- _]].
    simpl. now rewrite !length_map.
Qed.

End AnswerRange.

(** The summary row of [Scenario.codes]: eight question columns. *)
Lemma avg_questions_is_within_the_question_count_witness :
  exists rep s,
    @run iso_pandas Scenario.codes = Ok rep
    /\ In s (final_df rep)
    /\ 0 <= Stats.avg_questions s <= 8.
Proof.
  destruct (@run iso_pandas Scenario.codes) as [rep|e] eqn:Hrun;
    [|vm_compute in Hrun; discriminate Hrun].
  pose proof (@avg_questions_is_within_the_question_count iso_pandas
                Scenario.codes rep) as H.
  specialize (fun s => H s Hrun).
  vm_compute in Hrun. injection Hrun as Hrep.
  assert (Hs : exists s, In s (final_df rep)).
  { rewrite <- Hrep. eexists. left. reflexivity. }
  destruct Hs as [s Hs].
  exists rep, s. split; [reflexivity|]. split; [exact Hs|].
  exact (H s Hs).
Defined.

(** [Scenario.two_roles]: respondents 1 and 3 are retained. *)
Lemma duration_check_keeps_row_order_witness :
  exists rep,
    @run iso_pandas Scenario.two_roles = Ok rep
    /\ map Check.ID (duration_check rep) = [Int 1; Int 3].
Proof.
  destruct (@run iso_pandas Scenario.two_roles) as [rep|e] eqn:Hrun;
    [|vm_compute in Hrun; discriminate Hrun].
  exists rep. split; [reflexivity|].
  exact (proj1 (@duration_check_keeps_row_order iso_pandas
                  Scenario.two_roles rep Hrun)).
Defined.

(** * Integer cells *)

Lemma append_snoc (pre s : string) (c : ascii) :
  (pre ++ String c "") ++ s = pre ++ String c s.
Proof. induction pre as [|a pre IH]; simpl; [reflexivity | now rewrite IH]. Qed.

Lemma digits_suffix (d acc : Decimal.uint) :
  exists pre,
    NilEmpty.string_of_uint (Decimal.revapp d acc)
    = pre ++ NilEmpty.string_of_uint acc.
Proof.
  revert acc.
  induction d as [|d IH|d IH|d IH|d IH|d IH|d IH|d IH|d IH|d IH|d IH];
    intros acc; simpl; [now exists ""|..];
    match goal with
    | |- exists _, NilEmpty.string_of_uint (Decimal.revapp d ?a) = _ =>
        let pre := fresh "pre" in
        let H := fresh "H" in
        destruct (IH a) as [pre H]; rewrite H; simpl;
        eexists (pre ++ String _ ""); rewrite append_snoc; reflexivity
    end.
Qed.

Lemma append_length (a b : string) :
  String.length (a ++ b) = (String.length a + String.length b)%nat.
Proof. induction a as [|c a IH]; simpl; [reflexivity | now rewrite IH]. Qed.

Lemma endswith_same_length (t c : string) :
  String.length t = String.length c ->
  PyStr.endswith t c = String.eqb t c.
Proof.
  intros Hlen. destruct (String.eqb t c) eqn:E.
  - apply String.eqb_eq in E. subst. apply endswith_refl.
  - destruct (PyStr.endswith t c) eqn:F; [|reflexivity].
    apply endswith_iff in F. destruct F as [p Hp].
    assert (p = "").
    { apply (f_equal String.length) in Hp. rewrite append_length in Hp.
      destruct p; [reflexivity | simpl in Hp; lia]. }
    subst p. simpl in Hp. subst t. rewrite String.eqb_refl in E. discriminate.
Qed.

Lemma endswith_app_same_length (pre t c : string) :
  String.length t = String.length c ->
  PyStr.endswith (pre ++ t) c = String.eqb t c.
Proof.
  intros Hlen. destruct (String.eqb t c) eqn:E.
  - apply String.eqb_eq in E. subst. apply endswith_iff. now exists pre.
  - destruct (PyStr.endswith (pre ++ t) c) eqn:F; [|reflexivity].
    assert (G : PyStr.endswith (pre ++ t) t = true)
      by (apply endswith_iff; now exists pre).
    destruct (endswith_both _ _ _ G F) as [H|H].
    + rewrite (endswith_same_length t c Hlen) in H. congruence.
    + rewrite (endswith_same_length c t (eq_sym Hlen)) in H.
      rewrite String.eqb_sym in H. congruence.
Qed.

Lemma revapp_not_nil (d acc : Decimal.uint) :
  acc <> Decimal.Nil -> Decimal.revapp d acc <> Decimal.Nil.
Proof.
  revert acc. induction d; intros acc H; simpl; try exact H; apply IHd;
    discriminate.
Qed.

Lemma nilzero_not_nil (d : Decimal.uint) :
  d <> Decimal.Nil -> NilZero.string_of_uint d = NilEmpty.string_of_uint d.
Proof. destruct d; [congruence | reflexivity ..]. Qed.

Ltac code_case :=
  match goal with
  | |- PyStr.endswith (NilZero.string_of_uint (Decimal.rev (?A (?B ?rest)))) _ = _ =>
      unfold Decimal.rev; cbn [Decimal.revapp];
      let pre := fresh "pre" in let H := fresh "H" in
      destruct (digits_suffix rest (B (A Decimal.Nil))) as [pre H];
      rewrite (nilzero_not_nil (Decimal.revapp rest (B (A Decimal.Nil))))
        by (apply revapp_not_nil; discriminate);
      rewrite H; cbn [NilEmpty.string_of_uint];
      rewrite endswith_app_same_length by reflexivity;
      let E := fresh "E" in
      assert (E : DecimalPos.Unsigned.of_lu (A (B rest))
                  = (DecimalPos.Unsigned.of_lu (A (B Decimal.Nil))
                     + DecimalPos.Unsigned.of_lu rest * 100)%N)
        by (cbn [DecimalPos.Unsigned.of_lu]; lia);
      rewrite E, N.Div0.mod_add; reflexivity
  end.

Lemma code97 (lu : Decimal.uint) :
  PyStr.endswith (NilZero.string_of_uint (Decimal.rev lu)) "97"
  = N.eqb (DecimalPos.Unsigned.of_lu lu mod 100) 97.
Proof.
  destruct lu as [|d|d|d|d|d|d|d|d|d|d]; [reflexivity|..];
  (destruct d as [|d|d|d|d|d|d|d|d|d|d]; [reflexivity|..]); code_case.
Qed.

Lemma code99 (lu : Decimal.uint) :
  PyStr.endswith (NilZero.string_of_uint (Decimal.rev lu)) "99"
  = N.eqb (DecimalPos.Unsigned.of_lu lu mod 100) 99.
Proof.
  destruct lu as [|d|d|d|d|d|d|d|d|d|d]; [reflexivity|..];
  (destruct d as [|d|d|d|d|d|d|d|d|d|d]; [reflexivity|..]); code_case.
Qed.

Lemma code98 (lu : Decimal.uint) :
  PyStr.endswith (NilZero.string_of_uint (Decimal.rev lu)) "98"
  = N.eqb (DecimalPos.Unsigned.of_lu lu mod 100) 98.
Proof.
  destruct lu as [|d|d|d|d|d|d|d|d|d|d]; [reflexivity|..];
  (destruct d as [|d|d|d|d|d|d|d|d|d|d]; [reflexivity|..]); code_case.
Qed.

Lemma little_value (p : positive) :
  DecimalPos.Unsigned.of_lu (Pos.to_little_uint p) = N.pos p.
Proof.
  rewrite <- (DecimalPos.Unsigned.of_to p), DecimalPos.Unsigned.of_uint_alt.
  unfold Pos.to_uint. now rewrite DecimalFacts.rev_rev.
Qed.

Lemma digits_no_space (d : Decimal.uint) (c : ascii) :
  In c (list_ascii_of_string (NilEmpty.string_of_uint d)) ->
  PyStr.isspace c = false.
Proof.
  induction d; simpl; intros H; try (destruct H as [<-|H]; [reflexivity|]);
    auto; destruct H.
Qed.

Lemma of_Z_no_space (z : Z) (c : ascii) :
  In c (list_ascii_of_string (PyStr.of_Z z)) -> PyStr.isspace c = false.
Proof.
  unfold PyStr.of_Z. destruct z as [|p|p]; simpl.
  - intros [<-|[]]. reflexivity.
  - destruct (Pos.to_uint p) eqn:E; try apply digits_no_space.
    simpl. intros [<-|[]]. reflexivity.
  - intros [<-|H]; [reflexivity|]. revert H.
    destruct (Pos.to_uint p) eqn:E; try apply digits_no_space.
    simpl. intros [<-|[]]. reflexivity.
Qed.

Lemma rstrip_no_space (s : string) :
  (forall c, In c (list_ascii_of_string s) -> PyStr.isspace c = false) ->
  PyStr.rstrip s = s.
Proof.
  induction s as [|a s IH]; intros H; simpl; [reflexivity|].
  rewrite IH by (intros c Hc; apply H; now right).
  destruct s; [|reflexivity].
  now rewrite (H a (or_introl eq_refl)).
Qed.

Lemma strip_no_space (s : string) :
  (forall c, In c (list_ascii_of_string s) -> PyStr.isspace c = false) ->
  PyStr.strip s = s.
Proof.
  intros H. unfold PyStr.strip.
  assert (Hl : PyStr.lstrip s = s).
  { destruct s as [|a s]; [reflexivity|]. simpl.
    now rewrite (H a (or_introl eq_refl)). }
  rewrite Hl. now apply rstrip_no_space.
Qed.

Lemma of_Z_pos (p : positive) :
  PyStr.of_Z (Z.pos p)
  = NilZero.string_of_uint (Decimal.rev (Pos.to_little_uint p)).
Proof. reflexivity. Qed.

Lemma of_Z_neg (p : positive) :
  PyStr.of_Z (Z.neg p)
  = String "-" (NilZero.string_of_uint (Decimal.rev (Pos.to_little_uint p))).
Proof. reflexivity. Qed.

Lemma mod_eqb_N_Z (p : positive) (v : N) :
  N.eqb (N.pos p mod 100) v = Z.eqb (Z.pos p mod 100) (Z.of_N v).
Proof.
  change (Z.pos p) with (Z.of_N (N.pos p)).
  change 100 with (Z.of_N 100). rewrite <- N2Z.inj_mod.
  destruct (N.eqb_spec (N.pos p mod 100) v) as [E|E];
    destruct (Z.eqb_spec (Z.of_N (N.pos p mod 100)) (Z.of_N v)) as [F|F];
    try reflexivity; lia.
Qed.

Lemma endswith_minus (s : string) (a b : ascii) :
  Ascii.eqb "-" a = false ->
  PyStr.endswith (String "-" s) (String a (String b ""))
  = PyStr.endswith s (String a (String b "")).
Proof.
  intros Ha. rewrite endswith_cons.
  destruct (String.eqb_spec (String "-" s) (String a (String b "")))
    as [E|E]; [|reflexivity].
  injection E as E1 E2. subst a. rewrite Ascii.eqb_refl in Ha. discriminate.
Qed.

Lemma int_code (z : Z) :
  is_dk (Py.int z) = (Z.abs z mod 100 =? 97)
  /\ is_rf (Py.int z) = (Z.abs z mod 100 =? 99)
  /\ is_na (Py.int z) = (Z.abs z mod 100 =? 98).
Proof.
  unfold is_dk, is_rf, is_na. simpl pd_isna. cbv iota.
  simpl py_str. rewrite (strip_no_space _ (of_Z_no_space z)).
  destruct z as [|p|p].
  - repeat split.
  - rewrite of_Z_pos, code97, code99, code98, little_value.
    simpl Z.abs. rewrite !mod_eqb_N_Z. repeat split.
  - rewrite of_Z_neg, !endswith_minus by reflexivity.
    rewrite code97, code99, code98, little_value.
    simpl Z.abs. rewrite !mod_eqb_N_Z. repeat split.
Qed.

Lemma in_app_string (a b : string) (c : ascii) :
  In c (list_ascii_of_string (a ++ b)) ->
  In c (list_ascii_of_string a) \/ In c (list_ascii_of_string b).
Proof.
  induction a as [|x a IH]; simpl; [now right|].
  intros [H|H]; [now left; left|].
  destruct (IH H); [now left; right | now right].
Qed.

(** The string form of a float below [10 ^ 16] with a whole value ends
    with [.0], and with none of the three codes. *)
Lemma float_code (v : Z) :
  Z.abs v < 10000000000000000 ->
  py_str (Py.float v) = PyStr.of_Z v ++ ".0"
  /\ is_dk (Py.float v) = false
  /\ is_rf (Py.float v) = false
  /\ is_na (Py.float v) = false.
Proof.
  intros Hv.
  assert (E : py_str (Py.float v) = PyStr.of_Z v ++ ".0").
  { simpl. unfold PyFloat.str.
    destruct (Z.ltb_spec (Z.abs v) 10000000000000000); [reflexivity | lia]. }
  split; [exact E|].
  unfold is_dk, is_rf, is_na. simpl pd_isna. cbv iota. rewrite E.
  rewrite strip_no_space.
  - rewrite !endswith_app_same_length by reflexivity. repeat split.
  - intros c Hc. apply in_app_string in Hc. destruct Hc as [Hc|Hc].
    + now apply (of_Z_no_space v).
    + simpl in Hc. destruct Hc as [<-|[<-|[]]]; reflexivity.
Qed.

(** X15. An integer that reaches the tests as an integer is classified by
    its last two decimal digits: it is DK, RF or NA exactly when its
    absolute value leaves 97, 99 or 98 in the division by 100.  An integer
    cell reaches them so when neither its column nor the row is held as
    [float64]; otherwise it reaches them as a float, whose string form ends
    with [.0] (for values a float holds exactly), and is counted in no
    category. *)
Theorem integers_are_classified_by_last_two_digits :
  (forall z : Z,
      is_dk (Py.int z) = (Z.abs z mod 100 =? 97)
      /\ is_rf (Py.int z) = (Z.abs z mod 100 =? 99)
      /\ is_na (Py.int z) = (Z.abs z mod 100 =? 98))
  /\ (forall common kind z,
         common <> float64 ->
         kind <> float64 ->
         handed common kind (Int z) = Py.int z)
  /\ (forall common kind z,
         common = float64 \/ kind = float64 ->
         - 2 ^ 53 < z < 2 ^ 53 ->
         handed common kind (Int z) = Py.float z
         /\ py_str (Py.float z) = PyStr.of_Z z ++ ".0"
         /\ is_dk (Py.float z) = false
         /\ is_rf (Py.float z) = false
         /\ is_na (Py.float z) = false).
Proof.
  split; [exact int_code|]. split.
  - intros common kind z Hc Hk.
    destruct common, kind; try congruence; reflexivity.
  - intros common kind z Hf Hz.
    assert (E : handed common kind (Int z) = Py.float z).
    { simpl. rewrite (nearest_small z Hz).
      destruct Hf as [-> | ->]; [reflexivity|].
      destruct common; reflexivity. }
    split; [exact E|]. apply float_code.
    change (2 ^ 53) with 9007199254740992 in Hz. lia.
Qed.

(** * Order of the ids that are not numbers *)

Lemma string_compare_trans (a b c : string) :
  String.compare a b <> Gt ->
  String.compare b c <> Gt ->
  String.compare a c <> Gt.
Proof.
  revert b c. induction a as [|x a IH]; intros [|y b] [|z c]; simpl;
    try congruence.
  unfold Ascii.compare.
  destruct (N.compare_spec (N_of_ascii x) (N_of_ascii y));
    destruct (N.compare_spec (N_of_ascii y) (N_of_ascii z));
    destruct (N.compare_spec (N_of_ascii x) (N_of_ascii z));
    try congruence; try lia; apply IH.
Qed.

Lemma string_leb_trans (a b c : string) :
  String.leb a b = true -> String.leb b c = true -> String.leb a c = true.
Proof.
  unfold String.leb. intros H1 H2.
  pose proof (string_compare_trans a b c) as H.
  destruct (String.compare a b); try discriminate;
    destruct (String.compare b c); try discriminate;
    destruct (String.compare a c); try reflexivity;
    exfalso; apply H; congruence.
Qed.

Lemma key_leb_total (a b : cell) :
  key_leb a b = true \/ key_leb b a = true.
Proof.
  destruct a as [|s|x], b as [|t|y]; simpl; auto.
  - apply String.leb_total.
  - destruct (Z.leb_spec x y); [now left|].
    right. apply Z.leb_le. lia.
Qed.

Lemma key_leb_trans (a b c : cell) :
  key_leb a b = true -> key_leb b c = true -> key_leb a c = true.
Proof.
  destruct a as [|s|x], b as [|t|y], c as [|u|z]; simpl;
    try congruence; try reflexivity.
  - apply string_leb_trans.
  - rewrite !Z.leb_le. lia.
Qed.

Lemma sorted_filter {A : Type} (R : A -> A -> Prop) (p : A -> bool)
  (l : list A) :
  StronglySorted R l -> StronglySorted R (filter p l).
Proof.
  induction 1 as [|x l Hl IH Hx]; simpl; [constructor|].
  destruct (p x); [|exact IH]. constructor; [exact IH|].
  rewrite Forall_forall in *. intros y Hy. apply filter_In in Hy.
  apply Hx. tauto.
Qed.

Section Tail.

Context {pandas : Pandas}.

(** X16. The summary is the rows whose id reads as a number followed by
    the rows whose id does not, and the latter are in the order of the
    group keys: integers in increasing order, then strings in the order of
    their code points. *)
Theorem non_numeric_ids_keep_key_order :
  forall long : list Long.t,
    exists numeric tail : list Agg.t,
      summarize long = map format (numeric ++ tail)%list
      /\ (forall r, In r numeric -> to_numeric (Agg.IntID r) <> None)
      /\ (forall r, In r tail -> to_numeric (Agg.IntID r) = None)
      /\ StronglySorted
           (fun a b => key_leb (Agg.IntID a) (Agg.IntID b) = true) tail.
Proof.
  intros long.
  exists (map snd (sort_by (fun a b => Qle_bool (fst a) (fst b))
                           (keyed (groupby_agg long)))),
         (unkeyed (groupby_agg long)).
  split; [reflexivity|]. split; [|split].
  - intros r Hr. apply in_map_iff in Hr. destruct Hr as [p [<- Hp]].
    apply (Permutation_in _ (sort_by_perm _ _)) in Hp.
    apply keyed_key in Hp. unfold IntID_sort in Hp. congruence.
  - intros r Hr. now apply unkeyed_key in Hr.
  - unfold unkeyed. apply sorted_filter.
    unfold groupby_agg. apply sorted_map. simpl.
    unfold group_keys. apply sort_by_sorted.
    + apply key_leb_total.
    + apply key_leb_trans.
Qed.

End Tail.

(** * Counts across the reshape *)

Lemma sumZ_app (l1 l2 : list Z) : sumZ (l1 ++ l2)%list = sumZ l1 + sumZ l2.
Proof. induction l1 as [|x l1 IH]; simpl; [reflexivity | rewrite IH; lia]. Qed.

Lemma blocks_sum {A B C : Type} (g : A -> B -> C) (w : C -> Z) (v : B -> Z)
  (names : list A) (l : list B) :
  (forall a b, w (g a b) = v b) ->
  sumZ (map w (List.concat (map (fun a => map (g a) l) names)))
  = Z.of_nat (List.length names) * sumZ (map v l).
Proof.
  intros H. induction names as [|a names IH].
  - simpl. lia.
  - simpl List.concat. simpl List.length. rewrite map_app, sumZ_app, IH.
    rewrite map_map. rewrite (map_ext _ v) by (intros b; apply H). lia.
Qed.

(** X17. The reshape repeats the counts of a respondent once for every
    paired name column: over the long table the [DK_count] add up to the
    number of paired name columns times their sum over the respondents, and
    likewise [RF_count] and [NA_count]. *)
Theorem counts_are_repeated_per_role :
  forall (cols : list string) (df : list Wide.t),
    let long := List.concat (all_interviewer_data cols df) in
    let roles := Z.of_nat (List.length (paired_name_cols cols)) in
    sumZ (map Long.DK_count long) = roles * sumZ (map Wide.DK_count df)
    /\ sumZ (map Long.RF_count long) = roles * sumZ (map Wide.RF_count df)
    /\ sumZ (map Long.NA_count long) = roles * sumZ (map Wide.NA_count df).
Proof.
  intros cols df long roles. unfold long, roles.
  rewrite frames_of_table.
  repeat split; apply blocks_sum; reflexivity.
Qed.

(** * Sign and size of a duration *)

(** X18. For a start and an end whose difference fits in an int64 of
    nanoseconds, swapping the two changes the sign of the duration and
    nothing else, and the duration is zero exactly when the two are less
    than a minute apart, in either order. *)
Theorem duration_is_odd_in_the_elapsed_time :
  forall s e : Z,
    - 2 ^ 63 < e - s < 2 ^ 63 ->
    exists d,
      minutes_between s e = Ok d
      /\ minutes_between e s = Ok (- d)
      /\ (d = 0 <-> - 60000000000 < e - s < 60000000000).
Proof.
  intros s e H. exists (minutes (e - s)). unfold minutes_between.
  rewrite (timedelta_fits s e H), timedelta_fits by lia. simpl.
  split; [reflexivity|]. split.
  - rewrite <- minutes_opp. do 2 f_equal. lia.
  - apply minutes_zero.
Qed.

(** From 10:29:45 back to 10:00:00. *)
Lemma duration_is_odd_in_the_elapsed_time_witness :
  minutes_between 1704104985000000000 1704103200000000000 = Ok (- 29).
Proof.
  destruct (duration_is_odd_in_the_elapsed_time
              1704103200000000000 1704104985000000000
              ltac:(vm_compute; split; reflexivity))
    as [d [H1 [H2 _]]].
  rewrite H2. vm_compute in H1. injection H1 as <-. reflexivity.
Defined.

(** * Dtypes and dropped rows *)

Lemma infer_all_int (column : list cell) :
  column <> [] ->
  (forall c, In c column -> exists z, c = Int z /\ in_int64 z = true) ->
  infer_dtype column = int64.
Proof.
  intros Hne H. unfold infer_dtype.
  destruct column as [|c0 column]; [congruence|].
  set (l := c0 :: column) in *.
  assert (E1 : existsb (fun c => match c with
                                 | Str _ => true
                                 | Int z => negb (in_int64 z)
                                 | NaN => false
                                 end) l = false).
  { destruct (existsb _ l) eqn:E; [|reflexivity].
    apply existsb_exists in E. destruct E as [c [Hc E]].
    destruct (H c Hc) as [z [-> Hz]]. rewrite Hz in E. discriminate. }
  assert (E2 : existsb isna l = false).
  { destruct (existsb isna l) eqn:E; [|reflexivity].
    apply existsb_exists in E. destruct E as [c [Hc E]].
    destruct (H c Hc) as [z [-> Hz]]. discriminate. }
  now rewrite E1, E2.
Qed.

Lemma infer_int_and_missing (pre post : list cell) :
  (forall c, In c (pre ++ post)%list ->
             exists z, c = Int z /\ in_int64 z = true) ->
  infer_dtype (pre ++ NaN :: post)%list = float64.
Proof.
  intros H. unfold infer_dtype.
  set (l := (pre ++ NaN :: post)%list).
  assert (E1 : existsb (fun c => match c with
                                 | Str _ => true
                                 | Int z => negb (in_int64 z)
                                 | NaN => false
                                 end) l = false).
  { destruct (existsb _ l) eqn:E; [|reflexivity].
    apply existsb_exists in E. destruct E as [c [Hc E]].
    unfold l in Hc. apply in_app_or in Hc.
    destruct Hc as [Hc|[<-|Hc]]; [|discriminate|].
    - destruct (H c (in_or_app _ _ _ (or_introl Hc))) as [z [-> Hz]].
      rewrite Hz in E. discriminate.
    - destruct (H c (in_or_app _ _ _ (or_intror Hc))) as [z [-> Hz]].
      rewrite Hz in E. discriminate. }
  assert (E2 : existsb isna l = true).
  { apply existsb_exists. exists NaN. split; [|reflexivity].
    unfold l. apply in_or_app. right. now left. }
  rewrite E1, E2. unfold l. destruct pre; reflexivity.
Qed.

(** X19. A row that is removed for its timestamps still takes part in the
    dtypes of its columns: a column of integers is [int64] without the row
    and [float64] with it when its cell in that row is empty.  So the 197
    of [Scenario.half_hour], counted as DK there, is not counted in the same
    table followed by a row whose start does not parse and whose answer is
    empty; the duration checks of the two tables are the same. *)
Theorem dropped_row_still_types_its_columns :
  (forall cols pre row post q,
      (pre ++ post)%list <> [] ->
      loc cols q row = NaN ->
      (forall r, In r (pre ++ post)%list ->
                 exists z, loc cols q r = Int z /\ in_int64 z = true) ->
      loaded_dtype cols (pre ++ post)%list q = int64
      /\ loaded_dtype cols (pre ++ row :: post)%list q = float64)
  /\ (exists rep rep',
         @run iso_pandas Scenario.empty_in_dropped_row = Ok rep
         /\ @run iso_pandas Scenario.half_hour = Ok rep'
         /\ rows Scenario.empty_in_dropped_row
            = (rows Scenario.half_hour
               ++ [[Int 2; Str "yesterday"; Scenario.t1; Int 7; Str "Asha";
                    NaN]])%list
         /\ duration_check rep = duration_check rep'
         /\ map Long.questions (long_df rep) = [[Int 197]]
         /\ map Long.questions (long_df rep') = [[Int 197]]
         /\ map Long.DK_count (long_df rep) = [0]
         /\ map Long.DK_count (long_df rep') = [1]).
Proof.
  split.
  - intros cols pre row post q Hne Hq H. unfold loaded_dtype. split.
    + apply infer_all_int.
      * destruct (pre ++ post)%list; [congruence | discriminate].
      * intros c Hc. apply in_map_iff in Hc. destruct Hc as [r [<- Hr]].
        now apply H.
    + rewrite map_app. simpl. rewrite Hq. apply infer_int_and_missing.
      intros c Hc. rewrite <- map_app in Hc.
      apply in_map_iff in Hc. destruct Hc as [r [<- Hr]]. now apply H.
  - eexists. eexists. split; [vm_compute; reflexivity|].
    split; [vm_compute; reflexivity|]. repeat split.
Qed.

(** * Instances of the statements above *)

(** The labels of [Scenario.two_roles]: [Q1] is a question column and
    [FIntName_W4] is not. *)
Lemma column_sets_partition_witness :
  (In "Q1" (columns Scenario.two_roles) /\ "Q1" <> "ID"
   /\ "Q1" <> "StartTime_TS" /\ "Q1" <> "EndTime_TS")
  /\ ~ In "FIntName_W4" (question_cols (columns Scenario.two_roles)).
Proof.
  split.
  - apply (proj1 (proj2 (proj2
             (column_sets_partition (columns Scenario.two_roles) "Q1")))).
    vm_compute. tauto.
  - apply (proj1 (column_sets_partition
                    (columns Scenario.two_roles) "FIntName_W4")).
    vm_compute. tauto.
Defined.

